(** * Farm Game: the controller of [farm_game.py] and the simulation model

    The development has three layers.

    - Python values as the program has them: [int] as [Z], [str] as
      [string], [dict] as [gmap], indexing and [str.split] with the
      exceptions Python raises.
    - The simulation model ([model.py], which the controller imports): the
      farm grid, plants, inventory, player and [FarmModel].
    - The controller and the item widget of [farm_game.py]: [ItemView],
      [FarmGame.redraw], [FarmGame.handle_keypress], [FarmGame.select_item],
      [FarmGame.buy_item], [FarmGame.sell_item] and the [new_day_redraw]
      callback.  The controller talks to the model only through method
      calls, so it is written as a program over a signature of calls and is
      run against a handler; the sequence of calls it makes is recorded. *)

From Stdlib Require Import ZArith Ascii String.
From stdpp Require Import gmap strings list fin_maps pretty.

Local Open Scope Z_scope.

(** ** Python values *)

(** The exceptions the modelled code can raise.  A [KeyError] also records
    which dictionary was indexed. *)
Inductive exn : Type :=
| KeyError (dict key : string)
| IndexError
| AttributeError
| UnboundLocalError (var : string).

Definition res (A : Type) : Type := exn + A.

(** [l[i]] on a Python sequence: negative indices count from the end and an
    index out of range raises [IndexError]. *)
Definition py_index {A : Type} (l : list A) (i : Z) : res A :=
  let n := Z.of_nat (length l) in
  let j := if decide (0 <= i) then i else n + i in
  if decide (0 <= j < n) then
    match l !! Z.to_nat j with
    | Some x => inr x
    | None => inl IndexError
    end
  else inl IndexError.

(** [s[i]] on a [str] is the one-character string at that index. *)
Definition str_index (s : string) (i : Z) : res string :=
  match py_index (list_ascii_of_string s) i with
  | inr a => inr (String a EmptyString)
  | inl e => inl e
  end.

(** The ASCII characters [str.split()] treats as white space. *)
Definition is_space (a : ascii) : bool :=
  let n := nat_of_ascii a in
  ((9 <=? n)%nat && (n <=? 13)%nat) || ((28 <=? n)%nat && (n <=? 32)%nat).

Fixpoint lstrip (s : string) : string :=
  match s with
  | EmptyString => EmptyString
  | String a s' => if is_space a then lstrip s' else s
  end.

Fixpoint take_word (s : string) : string :=
  match s with
  | EmptyString => EmptyString
  | String a s' => if is_space a then EmptyString else String a (take_word s')
  end.

(** [s.split()[0]]: the first white-space separated word; [IndexError] when
    the string has no word. *)
Definition split_0 (s : string) : res string :=
  match take_word (lstrip s) with
  | EmptyString => inl IndexError
  | w => inr w
  end.

(** [k in d] for a dictionary. *)
Definition py_in {V : Type} (k : string) (d : gmap string V) : bool :=
  match d !! k with
  | Some _ => true
  | None => false
  end.

(** [x in d] where [x] may be [None], which is never a key here. *)
Definition py_in_opt {V : Type} (x : option string) (d : gmap string V) : bool :=
  match x with
  | Some k => py_in k d
  | None => false
  end.

(** [x in t] for a tuple of strings, [x] possibly [None]. *)
Definition py_in_tuple (x : option string) (t : list string) : bool :=
  match x with
  | Some k => bool_decide (k ∈ t)
  | None => false
  end.

Definition newline : string := String (ascii_of_nat 10) EmptyString.

(** A grid position [(row, col)]. *)
Abbreviation Position := (Z * Z)%type.

(** ** The simulation model *)

(** Modelled from the spec: the tile kinds of the Grid, which [model.py]
    keeps per cell (section 3, Grid). *)
Inductive tile_kind : Type := Grass | Soil | TilledSoil.

#[global] Instance tile_kind_eq_dec : EqDecision tile_kind.
Proof. solve_decision. Defined.

(** Modelled from the spec: the crop variants of the Plant classes of
    [model.py] (section 3, Plant). *)
Inductive variant : Type := Potato | Kale | Berry.

#[global] Instance variant_eq_dec : EqDecision variant.
Proof. solve_decision. Defined.

(** Modelled from the spec: a Plant of [model.py] is its variant, fixed at
    creation, and its growth stage (section 3, Plant). *)
Record Plant : Type := mkPlant { plant_variant : variant; stage : nat }.

(** Modelled from the spec: the facing direction of the Player
    (section 3, Player). *)
Inductive direction : Type := Up | Down | Left | Right.

(** Modelled from the spec: the farming actions that cost energy
    (section 4.4), the keys of the energy-cost table. *)
Inductive action : Type := ATill | AUntill | APlant | AHarvest | ARemove.

(** Modelled from the spec: the Player of [model.py] (section 3, Player).
    The inventory is the mapping from item name to count; an absent key
    counts as zero. *)
Record Player : Type := mkPlayer {
  position : Position;
  facing : direction;
  energy : Z;
  money : Z;
  inventory : gmap string Z;
  selected_item : option string
}.

(** Modelled from the spec: the FarmModel of [model.py]
    (section 3, FarmModel). *)
Record FarmModel : Type := mkFarmModel {
  grid : list (list tile_kind);
  plants : gmap Position Plant;
  player : Player;
  days_elapsed : Z
}.

(** Field updates of the two records. *)
Definition set_energy (e : Z) (p : Player) : Player :=
  mkPlayer (position p) (facing p) e (money p) (inventory p) (selected_item p).

Definition set_money (x : Z) (p : Player) : Player :=
  mkPlayer (position p) (facing p) (energy p) x (inventory p) (selected_item p).

Definition set_inventory (i : gmap string Z) (p : Player) : Player :=
  mkPlayer (position p) (facing p) (energy p) (money p) i (selected_item p).

Definition set_player (p : Player) (m : FarmModel) : FarmModel :=
  mkFarmModel (grid m) (plants m) p (days_elapsed m).

Definition set_plants (ps : gmap Position Plant) (m : FarmModel) : FarmModel :=
  mkFarmModel (grid m) ps (player m) (days_elapsed m).

Definition set_grid (g : list (list tile_kind)) (m : FarmModel) : FarmModel :=
  mkFarmModel g (plants m) (player m) (days_elapsed m).

(** Modelled from the spec: [Grid.tile_at] (section 4.1); [None] is the
    OutOfBounds failure. *)
Definition tile_at (g : list (list tile_kind)) (pos : Position) : option tile_kind :=
  if decide (0 <= pos.1 /\ 0 <= pos.2) then
    match g !! Z.to_nat pos.1 with
    | Some row => row !! Z.to_nat pos.2
    | None => None
    end
  else None.

(** Modelled from the spec: the single-cell state transition of the Grid
    (section 4.1); the dimensions never change. *)
Definition set_tile (g : list (list tile_kind)) (pos : Position) (k : tile_kind)
  : list (list tile_kind) :=
  match g !! Z.to_nat pos.1 with
  | Some row => <[Z.to_nat pos.1 := <[Z.to_nat pos.2 := k]> row]> g
  | None => g
  end.

(** Modelled from the spec: [Grid.till] (section 4.1): Soil becomes
    TilledSoil with success; TilledSoil and Grass fail without a change;
    [None] is OutOfBounds. *)
Definition Grid_till (g : list (list tile_kind)) (pos : Position)
  : option (bool * list (list tile_kind)) :=
  match tile_at g pos with
  | Some Soil => Some (true, set_tile g pos TilledSoil)
  | Some _ => Some (false, g)
  | None => None
  end.

(** Modelled from the spec: [Grid.untill] (section 4.1), the inverse:
    TilledSoil becomes Soil with success, anything else fails. *)
Definition Grid_untill (g : list (list tile_kind)) (pos : Position)
  : option (bool * list (list tile_kind)) :=
  match tile_at g pos with
  | Some TilledSoil => Some (true, set_tile g pos Soil)
  | Some _ => Some (false, g)
  | None => None
  end.

(** Modelled from the spec: [Inventory.add] (section 4.3). *)
Definition Inventory_add (item : string) (qty : Z) (inv : gmap string Z) : gmap string Z :=
  <[item := default 0 (inv !! item) + qty]> inv.

(** Modelled from the spec: [Inventory.remove] (section 4.3): fails with no
    mutation when the holding is below [qty]; a holding that reaches 0
    stays as an entry. *)
Definition Inventory_remove (item : string) (qty : Z) (inv : gmap string Z)
  : bool * gmap string Z :=
  let held := default 0 (inv !! item) in
  if decide (held < qty) then (false, inv)
  else (true, <[item := held - qty]> inv).

(** Modelled from the spec: the direction delta of [Player.move]
    (section 4.4), rows growing downwards. *)
Definition delta (d : direction) : Position :=
  match d with
  | Up => (-1, 0)
  | Down => (1, 0)
  | Left => (0, -1)
  | Right => (0, 1)
  end.

(** ** The call signature between controller and model *)

(** The methods of [FarmModel] and [Player] that [farm_game.py] calls, the
    three plant constructors, and the two canvas redraws whose drawing code
    is outside the model.  The index is the type of the returned value. *)
Inductive call : Type -> Type :=
| MovePlayer (dir : string) : call bool
| TillSoil (pos : Position) : call bool
| UntillSoil (pos : Position) : call bool
| AddPlant (pos : Position) (plant : Plant) : call bool
| RemovePlant (pos : Position) : call bool
| HarvestPlant (pos : Position) : call (option (string * Z))
| NewDay : call unit
| GetMap : call (list string)
| GetPlants : call (gmap Position Plant)
| GetDimensions : call Position
| GetDaysElapsed : call Z
| GetPosition : call Position
| GetDirection : call string
| GetEnergy : call Z
| GetMoney : call Z
| GetInventory : call (gmap string Z)
| GetSelectedItem : call (option string)
| SelectItem (item_name : string) : call unit
| AddItem (item : string * Z) : call unit
| RemoveItem (item : option string * Z) : call unit
| Buy (item_name : string) (price : Z) : call bool
| Sell (item_name : string) (price : Z) : call bool
| PotatoPlant : call Plant
| KalePlant : call Plant
| BerryPlant : call Plant
| InfoBarRedraw (day money energy : Z) : call unit
| FarmViewRedraw (ground : list string) (plants : gmap Position Plant)
    (player_position : Position) (player_direction : string) : call unit.

(** One entry of the recorded call sequence: the call and what it returned. *)
Inductive event : Type :=
| Ev {R : Type} (c : call R) (r : R).

(** Calls that read the model or draw on a canvas. *)
Definition observer {R : Type} (c : call R) : bool :=
  match c with
  | GetMap | GetPlants | GetDimensions | GetDaysElapsed | GetPosition
  | GetDirection | GetEnergy | GetMoney | GetInventory | GetSelectedItem
  | InfoBarRedraw _ _ _ | FarmViewRedraw _ _ _ _ => true
  | _ => false
  end.

(** The plant constructors. *)
Definition constructs {R : Type} (c : call R) : bool :=
  match c with
  | PotatoPlant | KalePlant | BerryPlant => true
  | _ => false
  end.

(** Calls that leave the model and the player as they are. *)
Definition read_only {R : Type} (c : call R) : bool := observer c || constructs c.

Definition ev_observer (e : event) : bool :=
  match e with Ev c _ => observer c end.

Definition ev_read_only (e : event) : bool :=
  match e with Ev c _ => read_only c end.

(** The calls of a trace that are not read-only, in order. *)
Definition mutations (tr : list event) : list event :=
  filter (λ e, ev_read_only e = false) tr.

(** Programs over the signature: a finite tree of calls ending in a value. *)
Inductive prog (A : Type) : Type :=
| Ret (a : A)
| Do {R : Type} (c : call R) (k : R -> prog A).

Arguments Ret {A} a.
Arguments Do {A R} c k.

Fixpoint prog_bind {A B : Type} (p : prog A) (f : A -> prog B) : prog B :=
  match p with
  | Ret a => f a
  | Do c k => Do c (λ r, prog_bind (k r) f)
  end.

(** A handler answers every call from a state of type [S]. *)
Definition handler (S : Type) : Type := ∀ R : Type, call R → S → R * S.

Record outcome (S A : Type) : Type := mkOutcome {
  final : S;
  trace : list event;
  value : A
}.

Arguments mkOutcome {S A} final trace value.
Arguments final {S A} o.
Arguments trace {S A} o.
Arguments value {S A} o.

Fixpoint run {S A : Type} (h : handler S) (p : prog A) (s : S) : outcome S A :=
  match p with
  | Ret a => mkOutcome s [] a
  | Do c k =>
      let '(r, s') := h _ c s in
      let o := run h (k r) s' in
      mkOutcome (final o) (Ev c r :: trace o) (value o)
  end.

(** A handler whose read-only calls leave the state as it is. *)
Definition reads_preserve {S : Type} (h : handler S) : Prop :=
  ∀ (R : Type) (c : call R) (s : S), read_only c = true → (h R c s).2 = s.

(** What a call returns in a state. *)
Definition ask {S R : Type} (h : handler S) (c : call R) (s : S) : R := (h R c s).1.

(** ** The widgets and the controller state *)

(** What [ItemView] holds that the program reads back or changes: the item
    name, the two background colours, the label text, and whether the Buy
    button was created. *)
Record ItemView : Type := mkItemView {
  _item_name : string;
  frame_bg : string;
  label_bg : string;
  label_text : string;
  buy_button : bool
}.

(** The controller's own state: [self.item_dict]. *)
Record FarmGame : Type := mkFarmGame {
  item_dict : gmap string ItemView
}.

(** Controller code: it reads and updates the widgets, may raise, and calls
    the model.  The widget state survives a raised exception. *)
Definition M (A : Type) : Type := FarmGame → prog (res A * FarmGame).

#[global] Instance M_ret : MRet M := λ A a g, Ret (inr a, g).

#[global] Instance M_bind : MBind M := λ A B f m g,
  prog_bind (m g) (λ x,
    match x.1 with
    | inr a => f a x.2
    | inl e => Ret (inl e, x.2)
    end).

#[global] Instance M_fmap : FMap M := λ A B f m, m ≫= λ a, mret (f a).

Definition raise {A : Type} (e : exn) : M A := λ g, Ret (inl e, g).

Definition perform {R : Type} (c : call R) : M R := λ g, Do c (λ r, Ret (inr r, g)).

Definition lift_res {A : Type} (r : res A) : M A := λ g, Ret (r, g).

(** [d[k]] on a dictionary named [name]. *)
Definition py_getitem {V : Type} (name : string) (d : gmap string V) (k : string) : res V :=
  match d !! k with
  | Some v => inr v
  | None => inl (KeyError name k)
  end.

(** [self.item_dict[k]] *)
Definition item_dict_get (k : string) : M ItemView :=
  λ g, Ret (py_getitem "item_dict" (item_dict g) k, g).

(** [self.item_dict[k] = iv], also the write-back of a widget that a method
    changed in place. *)
Definition item_dict_set (k : string) (iv : ItemView) : M unit :=
  λ g, Ret (inr (), mkFarmGame (<[k := iv]> (item_dict g))).

(** [for x in xs: body(x)] *)
Fixpoint for_each {A : Type} (xs : list A) (body : A → M unit) : M unit :=
  match xs with
  | [] => mret ()
  | x :: xs' => body x ≫= λ _, for_each xs' body
  end.

(** The result of running controller code against a handler. *)
Definition exec {S A : Type} (h : handler S) (m : M A) (g : FarmGame) (s : S)
  : outcome S (res A * FarmGame) :=
  run h (m g) s.

(** ** A sample configuration

    Concrete values for the constants, used by the examples. *)

Definition sample_ITEMS : list string :=
  ["Potato Seed"; "Kale Seed"; "Berry Seed"; "Potato"; "Kale"; "Berry"]%string.

Definition sample_SEEDS : list string :=
  ["Potato Seed"; "Kale Seed"; "Berry Seed"]%string.

Definition sample_BUY_PRICES : gmap string Z :=
  list_to_map [("Potato Seed", 5); ("Kale Seed", 15); ("Berry Seed", 15)]%string.

Definition sample_SELL_PRICES : gmap string Z :=
  list_to_map [("Potato Seed", 2); ("Kale Seed", 8); ("Berry Seed", 5);
               ("Potato", 10); ("Kale", 25); ("Berry", 15)]%string.

Definition sample_energy_cost (a : action) : nat :=
  match a with
  | ATill | AUntill => 3
  | APlant | AHarvest => 2
  | ARemove => 1
  end%nat.

Definition sample_max_stage (v : variant) : nat :=
  match v with Potato => 5 | Kale => 5 | Berry => 6 end%nat.

Definition sample_yield (v : variant) : string * Z :=
  match v with
  | Potato => ("Potato", 5)
  | Kale => ("Kale", 3)
  | Berry => ("Berry", 2)
  end%string.

(** [FarmView.redraw] draws "G" as grass, "S" as soil and "U" as untilled
    soil. *)
Definition sample_tile_code (k : tile_kind) : string :=
  match k with Grass => "G" | Soil => "U" | TilledSoil => "S" end%string.

(** A 2 x 3 farm: grass, untilled soil and tilled soil. *)
Definition sample_ground : list (list tile_kind) :=
  [[TilledSoil; Soil; Soil]; [Grass; TilledSoil; Soil]].

(** A player at the top left corner holding one potato seed, selected. *)
Definition sample_player : Player :=
  mkPlayer (0, 0) Down 100 0 {[ "Potato Seed"%string := 1 ]} (Some "Potato Seed"%string).

Definition sample_farm : FarmModel := mkFarmModel sample_ground ∅ sample_player 1.

(** ** The two canvases: [InfoBar] and [FarmView]

    [InfoBar] and [FarmView] are [AbstractGrid] canvases.  A redraw is
    modelled by the operations it performs on the canvas, in order. *)

Section Canvas.

(** Functions of [farm_game_support.py] that [FarmView.redraw] calls: the
    pixel at the centre of a cell, and the image file of a plant. *)
Variable get_midpoint : Position → Z * Z.
Variable get_plant_image_name : Plant → string.

(** An operation on a canvas.  [heading] tells whether the text is
    annotated with [font=HEADING_FONT]; an image is identified by the name
    of its file. *)
Inductive canvas_op : Type :=
| Clear
| AnnotatePosition (position : Position) (text : string) (heading : bool)
| GetImage (name : string)
| CreateImage (xy : Z * Z) (image : string).

(** [InfoBar.redraw]. *)
Definition InfoBar_redraw (day money energy : Z) : list canvas_op :=
  [Clear;
   AnnotatePosition (0, 0) "Day:" true;
   AnnotatePosition (0, 1) "Money:" true;
   AnnotatePosition (0, 2) "Energy:" true;
   AnnotatePosition (1, 0) (pretty day) false;
   AnnotatePosition (1, 1) ("$" +:+ pretty money) false;
   AnnotatePosition (1, 2) (pretty energy) false].

(** The ground image [FarmView.redraw] creates for a letter of the map;
    other letters get none. *)
Definition ground_image (letter : ascii) : option string :=
  if decide (letter = "G"%char) then Some "images/grass.png"
  else if decide (letter = "S"%char) then Some "images/soil.png"
  else if decide (letter = "U"%char) then Some "images/untilled_soil.png"
  else None.

(** The inner loop of [FarmView.redraw] over the letters of a row, from
    column [letter_index] on. *)
Fixpoint draw_row (row_index letter_index : Z) (row : list ascii) : list canvas_op :=
  match row with
  | [] => []
  | letter :: rest =>
      match ground_image letter with
      | Some image => [CreateImage (get_midpoint (row_index, letter_index)) image]
      | None => []
      end ++ draw_row row_index (letter_index + 1) rest
  end.

(** The outer loop over the rows, from row [row_index] on. *)
Fixpoint draw_ground (row_index : Z) (ground : list string) : list canvas_op :=
  match ground with
  | [] => []
  | row :: rest =>
      draw_row row_index 0 (list_ascii_of_string row) ++ draw_ground (row_index + 1) rest
  end.

(** The body of the loop over the plants. *)
Definition draw_plant (entry : Position * Plant) : list canvas_op :=
  let plant_image_name := "images/" +:+ get_plant_image_name entry.2 in
  [GetImage plant_image_name; CreateImage (get_midpoint entry.1) plant_image_name].

(** The image for the direction the player faces; other strings get none. *)
Definition player_image (player_direction : string) : option string :=
  if decide (player_direction = "w") then Some "images/player_w.png"
  else if decide (player_direction = "a") then Some "images/player_a.png"
  else if decide (player_direction = "s") then Some "images/player_s.png"
  else if decide (player_direction = "d") then Some "images/player_d.png"
  else None.

Definition draw_player (player_position : Position) (player_direction : string)
    : list canvas_op :=
  match player_image player_direction with
  | Some image => [CreateImage (get_midpoint player_position) image]
  | None => []
  end.

(** [FarmView.redraw].  The plants are visited in the order of the
    dictionary, which the map of the model does not record: the order of
    the plant images among themselves is that of [map_to_list]. *)
Definition FarmView_redraw (ground : list string) (plants : gmap Position Plant)
    (player_position : Position) (player_direction : string) : list canvas_op :=
  [Clear; GetImage "images/grass.png"; GetImage "images/soil.png";
   GetImage "images/untilled_soil.png"]
  ++ draw_ground 0 ground
  ++ mbind (M := list) draw_plant (map_to_list plants)
  ++ [GetImage "images/player_w.png"; GetImage "images/player_a.png";
      GetImage "images/player_s.png"; GetImage "images/player_d.png"]
  ++ draw_player player_position player_direction.

(** The images a sequence of operations creates, in order. *)
Definition created (ops : list canvas_op) : list ((Z * Z) * string) :=
  omap (λ op, match op with CreateImage xy image => Some (xy, image) | _ => None end) ops.

(** The items on a canvas: [clear] deletes them all, an annotation or an
    image adds one on top, loading an image adds none. *)
Definition paint (items : list canvas_op) (op : canvas_op) : list canvas_op :=
  match op with
  | Clear => []
  | GetImage _ => items
  | _ => items ++ [op]
  end.

(** What a call does on the info bar and on the farm view. *)
Definition info_bar_ops (e : event) : list canvas_op :=
  match e with
  | Ev (InfoBarRedraw day money energy) _ => InfoBar_redraw day money energy
  | _ => []
  end.

Definition farm_view_ops (e : event) : list canvas_op :=
  match e with
  | Ev (FarmViewRedraw ground plants position direction) _ =>
      FarmView_redraw ground plants position direction
  | _ => []
  end.

(** The items on the two canvases after a run, from the items before. *)
Definition info_bar_after (items : list canvas_op) (tr : list event) : list canvas_op :=
  foldl paint items (mbind (M := list) info_bar_ops tr).

Definition farm_view_after (items : list canvas_op) (tr : list event) : list canvas_op :=
  foldl paint items (mbind (M := list) farm_view_ops tr).

End Canvas.

(** A canvas with cells of 50 by 50 pixels, and plant images named after
    the variant and the stage. *)
Definition sample_get_midpoint (position : Position) : Z * Z :=
  (position.2 * 50 + 25, position.1 * 50 + 25).

Definition sample_plant_image_name (plant : Plant) : string :=
  match plant_variant plant with
  | Potato => "plants/potato/stage_"
  | Kale => "plants/kale/stage_"
  | Berry => "plants/berry/stage_"
  end +:+ pretty (stage plant) +:+ ".png".

Section FarmGame.

(** The constants of [constants.py] that [farm_game.py] reads. *)
Variables ITEMS SEEDS : list string.
Variables BUY_PRICES SELL_PRICES : gmap string Z.
Variables SOIL UP DOWN LEFT RIGHT : string.
Variables INVENTORY_COLOUR INVENTORY_SELECTED_COLOUR INVENTORY_EMPTY_COLOUR : string.

(** *** ItemView *)

(** The label text both [__init__] and [update] build. *)
Definition item_label_text (item_name : string) (amount : Z) : res string :=
  match py_getitem "SELL_PRICES" SELL_PRICES item_name with
  | inl e => inl e
  | inr sell_price =>
      let text := item_name +:+ ": " +:+ pretty amount +:+ newline
                  +:+ "Sell price: $" +:+ pretty sell_price +:+ newline in
      if py_in item_name BUY_PRICES then
        match py_getitem "BUY_PRICES" BUY_PRICES item_name with
        | inl e => inl e
        | inr buy_price => inr (text +:+ "Buy price: $" +:+ pretty buy_price)
        end
      else inr (text +:+ "Buy price: $N/A")
  end.

(** [ItemView.__init__(master, item_name, amount, ...)] *)
Definition ItemView_init (item_name : string) (amount : Z) : res ItemView :=
  match item_label_text item_name amount with
  | inl e => inl e
  | inr text =>
      inr (mkItemView item_name INVENTORY_EMPTY_COLOUR INVENTORY_EMPTY_COLOUR text
             (py_in item_name BUY_PRICES))
  end.

(** [ItemView.update(amount, selected)]: the colours are configured first,
    the label text after; a [KeyError] from the price lookup leaves the new
    colours in place. *)
Definition ItemView_update (iv : ItemView) (amount : Z) (selected : bool)
  : res unit * ItemView :=
  let colour :=
    if decide (amount > 0) then
      if negb selected then INVENTORY_COLOUR else INVENTORY_SELECTED_COLOUR
    else INVENTORY_EMPTY_COLOUR in
  let iv1 := mkItemView (_item_name iv) colour colour (label_text iv) (buy_button iv) in
  match item_label_text (_item_name iv) amount with
  | inl e => (inl e, iv1)
  | inr text =>
      (inr (), mkItemView (_item_name iv1) (frame_bg iv1) (label_bg iv1) text (buy_button iv1))
  end.

(** [self.item_dict[k].update(amount, selected)] for a widget already
    fetched from the dictionary: the widget object changes in place. *)
Definition update_in_place (k : string) (iv : ItemView) (amount : Z) (selected : bool)
  : M unit :=
  λ g, let '(r, iv') := ItemView_update iv amount selected in
       Ret (r, mkFarmGame (<[k := iv']> (item_dict g))).

(** *** FarmGame *)

(** [FarmGame.redraw] *)
Definition FarmGame_redraw : M unit :=
  day ← perform GetDaysElapsed;
  money ← perform GetMoney;
  energy ← perform GetEnergy;
  _ ← perform (InfoBarRedraw day money energy);
  ground ← perform GetMap;
  plants ← perform GetPlants;
  pos ← perform GetPosition;
  dir ← perform GetDirection;
  _ ← perform (FarmViewRedraw ground plants pos dir);
  for_each ITEMS (λ item_name,
    inv ← perform GetInventory;
    if py_in item_name inv then
      sel ← perform GetSelectedItem;
      if decide (sel = Some item_name) then
        iv ← item_dict_get item_name;
        inv' ← perform GetInventory;
        amount ← lift_res (py_getitem "inventory" inv' item_name);
        update_in_place item_name iv amount true
      else
        iv ← item_dict_get item_name;
        inv' ← perform GetInventory;
        amount ← lift_res (py_getitem "inventory" inv' item_name);
        update_in_place item_name iv amount false
    else
      iv ← item_dict_get item_name;
      update_in_place item_name iv 0 false).

(** The ['p'] branch of [handle_keypress]. *)
Definition plant_branch : M unit :=
  pos ← perform GetPosition;
  ground ← perform GetMap;
  row ← lift_res (py_index ground pos.1);
  tile ← lift_res (str_index row pos.2);
  if decide (tile = SOIL) then
    sel ← perform GetSelectedItem;
    inv ← perform GetInventory;
    if py_in_opt sel inv then
      sel1 ← perform GetSelectedItem;
      if py_in_tuple sel1 SEEDS then
        sel2 ← perform GetSelectedItem;
        name ← match sel2 with
                | Some x => lift_res (split_0 x)
                | None => raise AttributeError
                end;
        plant ← (if decide (name = "Potato") then Some <$> perform PotatoPlant
                  else if decide (name = "Kale") then Some <$> perform KalePlant
                  else if decide (name = "Berry") then Some <$> perform BerryPlant
                  else mret None);
        pos1 ← perform GetPosition;
        match plant with
        | None => raise (UnboundLocalError "plant")
        | Some pl =>
            ok ← perform (AddPlant pos1 pl);
            if (ok : bool) then
              sel3 ← perform GetSelectedItem;
              perform (RemoveItem (sel3, 1))
            else mret ()
        end
      else mret ()
    else mret ()
  else mret ().

(** [FarmGame.handle_keypress(event)], on [event.keysym]. *)
Definition FarmGame_handle_keypress (keysym : string) : M unit :=
  _ ← (if decide (keysym = "w") then perform (MovePlayer UP) ≫= λ _, mret ()
       else if decide (keysym = "a") then perform (MovePlayer LEFT) ≫= λ _, mret ()
       else if decide (keysym = "s") then perform (MovePlayer DOWN) ≫= λ _, mret ()
       else if decide (keysym = "d") then perform (MovePlayer RIGHT) ≫= λ _, mret ()
       else if decide (keysym = "t") then
         pos ← perform GetPosition; perform (TillSoil pos) ≫= λ _, mret ()
       else if decide (keysym = "u") then
         pos ← perform GetPosition; perform (UntillSoil pos) ≫= λ _, mret ()
       else if decide (keysym = "p") then plant_branch
       else if decide (keysym = "r") then
         pos ← perform GetPosition; perform (RemovePlant pos) ≫= λ _, mret ()
       else if decide (keysym = "h") then
         pos ← perform GetPosition;
         harvest ← perform (HarvestPlant pos);
         match harvest with
         | Some item => perform (AddItem item)
         | None => mret ()
         end
       else mret ());
  FarmGame_redraw.

(** [FarmGame.select_item(item_name)] *)
Definition FarmGame_select_item (item_name : string) : M unit :=
  selected ← perform GetSelectedItem;
  _ ← match selected with
      | Some old =>
          inv ← perform GetInventory;
          if negb (py_in old inv) then
            iv ← item_dict_get old;
            update_in_place old iv 0 false
          else
            iv ← item_dict_get old;
            inv' ← perform GetInventory;
            amount ← lift_res (py_getitem "inventory" inv' old);
            update_in_place old iv amount false
      | None => mret ()
      end;
  _ ← perform (SelectItem item_name);
  selected' ← perform GetSelectedItem;
  inv ← perform GetInventory;
  if py_in_opt selected' inv then
    match selected' with
    | Some new =>
        iv ← item_dict_get new;
        inv' ← perform GetInventory;
        amount ← lift_res (py_getitem "inventory" inv' new);
        update_in_place new iv amount true
    | None => mret ()
    end
  else mret ().

(** [FarmGame.buy_item(item_name)] *)
Definition FarmGame_buy_item (item_name : string) : M unit :=
  price ← lift_res (py_getitem "BUY_PRICES" BUY_PRICES item_name);
  _ ← perform (Buy item_name price);
  FarmGame_redraw.

(** [FarmGame.sell_item(item_name)] *)
Definition FarmGame_sell_item (item_name : string) : M unit :=
  price ← lift_res (py_getitem "SELL_PRICES" SELL_PRICES item_name);
  _ ← perform (Sell item_name price);
  FarmGame_redraw.

(** The [new_day_redraw] callback of the Next day button. *)
Definition new_day_redraw : M unit :=
  _ ← perform NewDay;
  FarmGame_redraw.

(** The part of [FarmGame.__init__] that builds the widgets: the farm view
    is drawn, one [ItemView] per name of [ITEMS] is created and stored, and
    the info bar is drawn. *)
Definition FarmGame_init : M unit :=
  dims ← perform GetDimensions;
  ground ← perform GetMap;
  plants ← perform GetPlants;
  _ ← perform (FarmViewRedraw ground plants (0, 0) "s");
  _ ← for_each ITEMS (λ item_name,
        iv ← lift_res (ItemView_init item_name 0);
        _ ← item_dict_set item_name iv;
        inv ← perform GetInventory;
        if py_in item_name inv then
          iv' ← item_dict_get item_name;
          inv' ← perform GetInventory;
          amount ← lift_res (py_getitem "inventory" inv' item_name);
          update_in_place item_name iv' amount false
        else mret ());
  perform (InfoBarRedraw 1 0 100).

(** What the user can do to the window.  A click on the frame or label of
    an [ItemView] runs its select command, its buttons run the buy and sell
    commands, each with the widget's own item name. *)
Inductive gui_event : Type :=
| KeyPress (keysym : string)
| Button1 (view : string)
| BuyButton (view : string)
| SellButton (view : string)
| NextDayButton.

(** An event can occur only on a widget that exists. *)
Definition enabled (g : FarmGame) (e : gui_event) : bool :=
  match e with
  | KeyPress _ | NextDayButton => true
  | Button1 v | SellButton v => py_in v (item_dict g)
  | BuyButton v =>
      match item_dict g !! v with
      | Some iv => buy_button iv
      | None => false
      end
  end.

(** The callback bound to each event. *)
Definition dispatch (e : gui_event) : M unit :=
  match e with
  | KeyPress k => FarmGame_handle_keypress k
  | NextDayButton => new_day_redraw
  | Button1 v => iv ← item_dict_get v; FarmGame_select_item (_item_name iv)
  | SellButton v => iv ← item_dict_get v; FarmGame_sell_item (_item_name iv)
  | BuyButton v => iv ← item_dict_get v; FarmGame_buy_item (_item_name iv)
  end.

(** *** The operations of the simulation model *)

(** Modelled from the spec: the static configuration tables the core
    consumes (section 6): maximum energy, energy cost per action, the stage
    count and yield of each variant, the stage a multi-harvest plant
    regrows to, and the tile code of each tile kind. *)
Variable MAX_ENERGY : Z.
Variable energy_cost : action → nat.
Variable max_stage : variant → nat.
Variable yield : variant → string * Z.
Variable regrowth_stage : nat.
Variable tile_code : tile_kind → string.

(** Modelled from the spec: Berry is the multi-harvest variant, Potato and
    Kale are single-harvest (section 3, Plant). *)
Definition multi_harvest (v : variant) : bool :=
  match v with Berry => true | _ => false end.

(** Modelled from the spec: [Plant.grow] (section 4.2):
    [stage = min(stage + 1, max_stage)]. *)
Definition Plant_grow (p : Plant) : Plant :=
  mkPlant (plant_variant p) (Nat.min (stage p + 1) (max_stage (plant_variant p))).

(** Modelled from the spec: [Plant.harvest] (section 4.2): legal only at
    the last stage; a multi-harvest plant goes back to the regrowth stage.
    The plant after the call is returned with the yield. *)
Definition Plant_harvest (p : Plant) : option (string * Z) * Plant :=
  if decide (stage p = max_stage (plant_variant p)) then
    (Some (yield (plant_variant p)),
     if multi_harvest (plant_variant p) then mkPlant (plant_variant p) regrowth_stage else p)
  else (None, p).

(** Modelled from the spec: an action that needs more energy than the
    player has fails; otherwise its cost is taken (section 4.4). *)
Definition affordable (a : action) (m : FarmModel) : bool :=
  bool_decide (Z.of_nat (energy_cost a) <= energy (player m)).

(** Modelled from the spec: the fixed cost of an action is taken from the
    energy (section 4.4). *)
Definition pay (a : action) (m : FarmModel) : FarmModel :=
  set_player (set_energy (energy (player m) - Z.of_nat (energy_cost a)) (player m)) m.

(** Modelled from the spec: [move_player] (sections 4.4 and 4.5): the
    target cell must be inside the grid and the player must have energy
    left; a move costs one unit. *)
Definition FarmModel_move_player (d : direction) (m : FarmModel) : bool * FarmModel :=
  let p := player m in
  let target := ((position p).1 + (delta d).1, (position p).2 + (delta d).2) in
  match tile_at (grid m) target with
  | None => (false, m)
  | Some _ =>
      if decide (energy p < 1) then (false, m)
      else (true, set_player (mkPlayer target d (energy p - 1) (money p)
                                (inventory p) (selected_item p)) m)
  end.

(** Modelled from the spec: [till_soil] (section 4.5): the energy check,
    then [Grid.till]. *)
Definition FarmModel_till_soil (pos : Position) (m : FarmModel) : bool * FarmModel :=
  if affordable ATill m then
    match Grid_till (grid m) pos with
    | Some (true, g') => (true, set_grid g' (pay ATill m))
    | _ => (false, m)
    end
  else (false, m).

(** Modelled from the spec: [untill_soil] (section 4.5): the energy check,
    then [Grid.untill]; on success a plant at the position is removed. *)
Definition FarmModel_untill_soil (pos : Position) (m : FarmModel) : bool * FarmModel :=
  if affordable AUntill m then
    match Grid_untill (grid m) pos with
    | Some (true, g') =>
        (true, set_plants (delete pos (plants m)) (set_grid g' (pay AUntill m)))
    | _ => (false, m)
    end
  else (false, m).

(** Modelled from the spec: [add_plant] (section 4.5): fails unless the
    position is TilledSoil and free; planting is one of the actions with an
    energy cost (section 4.4). *)
Definition FarmModel_add_plant (pos : Position) (plant : Plant) (m : FarmModel)
  : bool * FarmModel :=
  if decide (tile_at (grid m) pos = Some TilledSoil) then
    match plants m !! pos with
    | Some _ => (false, m)
    | None =>
        if affordable APlant m
        then (true, set_plants (<[pos := plant]> (plants m)) (pay APlant m))
        else (false, m)
    end
  else (false, m).

(** Modelled from the spec: [remove_plant] (section 4.5): removes the plant
    if there is one; no yield.  Removing is one of the actions with an
    energy cost (section 4.4). *)
Definition FarmModel_remove_plant (pos : Position) (m : FarmModel) : bool * FarmModel :=
  match plants m !! pos with
  | Some _ =>
      if affordable ARemove m
      then (true, set_plants (delete pos (plants m)) (pay ARemove m))
      else (false, m)
  | None => (false, m)
  end.

(** Modelled from the spec: [harvest_plant] (section 4.5): [None] when no
    plant is there or it is not harvestable; a single-harvest plant is
    deleted, a multi-harvest plant stays at its regrowth stage.  Harvesting
    is one of the actions with an energy cost (section 4.4). *)
Definition FarmModel_harvest_plant (pos : Position) (m : FarmModel)
  : option (string * Z) * FarmModel :=
  match plants m !! pos with
  | None => (None, m)
  | Some p =>
      if affordable AHarvest m then
        match Plant_harvest p with
        | (Some item, p') =>
            (Some item,
             set_plants (if multi_harvest (plant_variant p)
                         then <[pos := p']> (plants m)
                         else delete pos (plants m)) (pay AHarvest m))
        | (None, _) => (None, m)
        end
      else (None, m)
  end.

(** Modelled from the spec: [new_day] (section 4.5). *)
Definition FarmModel_new_day (m : FarmModel) : FarmModel :=
  mkFarmModel (grid m) (Plant_grow <$> plants m)
    (set_energy MAX_ENERGY (player m)) (days_elapsed m + 1).

(** Modelled from the spec: [Player.buy] (section 4.3). *)
Definition Player_buy (item : string) (unit_price : Z) (p : Player) : bool * Player :=
  if py_in item BUY_PRICES && bool_decide (unit_price <= money p) then
    (true, set_inventory (Inventory_add item 1 (inventory p))
             (set_money (money p - unit_price) p))
  else (false, p).

(** Modelled from the spec: [Player.sell] (section 4.3). *)
Definition Player_sell (item : string) (unit_price : Z) (p : Player) : bool * Player :=
  match Inventory_remove item 1 (inventory p) with
  | (true, inv') => (true, set_inventory inv' (set_money (money p + unit_price) p))
  | (false, _) => (false, p)
  end.

(** Modelled from the spec: [Player.select_item] (section 4.4). *)
Definition Player_select_item (item_name : string) (p : Player) : Player :=
  mkPlayer (position p) (facing p) (energy p) (money p) (inventory p) (Some item_name).

(** Modelled from the spec: [Player.add_item] (section 4.4). *)
Definition Player_add_item (item : string * Z) (p : Player) : Player :=
  set_inventory (Inventory_add item.1 item.2 (inventory p)) p.

(** Modelled from the spec: [Player.remove_item] (section 4.4).  A [None]
    name is not held, so nothing can be removed for it. *)
Definition Player_remove_item (item : option string * Z) (p : Player) : Player :=
  match item.1 with
  | Some name => set_inventory (Inventory_remove name item.2 (inventory p)).2 p
  | None => p
  end.

(** Modelled from the spec: a fresh model (sections 3 and 8): no plants,
    the player at (0, 0) with full energy and no money, day 1. *)
Definition FarmModel_init (ground : list (list tile_kind)) (inv : gmap string Z) : FarmModel :=
  mkFarmModel ground ∅ (mkPlayer (0, 0) Down MAX_ENERGY 0 inv None) 1.

(** *** The model as a handler of the controller's calls *)

(** Modelled from the spec: the direction constants the controller passes
    to [move_player] stand for the four directions (section 3, Player). *)
Definition direction_of (s : string) : option direction :=
  if decide (s = UP) then Some Up
  else if decide (s = DOWN) then Some Down
  else if decide (s = LEFT) then Some Left
  else if decide (s = RIGHT) then Some Right
  else None.

Definition direction_code (d : direction) : string :=
  match d with Up => UP | Down => DOWN | Left => LEFT | Right => RIGHT end.

(** Modelled from the spec: a row of the map as [get_map] returns it, one
    tile code per cell (section 6). *)
Definition render_row (row : list tile_kind) : string :=
  foldr (λ k s, tile_code k +:+ s) EmptyString row.

(** A [Player] method called on the player the model owns. *)
Definition on_player {R : Type} (f : Player → R * Player) (m : FarmModel) : R * FarmModel :=
  let '(r, p) := f (player m) in (r, set_player p m).

(** Modelled from the spec: the collaborator-facing surface of the core
    (section 6).  Every query is a projection of the state; the drawing
    calls do not touch the model. *)
Definition model_handler : handler FarmModel :=
  λ R c,
    match c in call R return FarmModel → R * FarmModel with
    | MovePlayer dir => λ m,
        match direction_of dir with
        | Some d => FarmModel_move_player d m
        | None => (false, m)
        end
    | TillSoil pos => FarmModel_till_soil pos
    | UntillSoil pos => FarmModel_untill_soil pos
    | AddPlant pos plant => FarmModel_add_plant pos plant
    | RemovePlant pos => FarmModel_remove_plant pos
    | HarvestPlant pos => FarmModel_harvest_plant pos
    | NewDay => λ m, ((), FarmModel_new_day m)
    | GetMap => λ m, (render_row <$> grid m, m)
    | GetPlants => λ m, (plants m, m)
    | GetDimensions => λ m,
        ((Z.of_nat (length (grid m)), Z.of_nat (length (default [] (head (grid m))))), m)
    | GetDaysElapsed => λ m, (days_elapsed m, m)
    | GetPosition => λ m, (position (player m), m)
    | GetDirection => λ m, (direction_code (facing (player m)), m)
    | GetEnergy => λ m, (energy (player m), m)
    | GetMoney => λ m, (money (player m), m)
    | GetInventory => λ m, (inventory (player m), m)
    | GetSelectedItem => λ m, (selected_item (player m), m)
    | SelectItem name => on_player (λ p, ((), Player_select_item name p))
    | AddItem item => on_player (λ p, ((), Player_add_item item p))
    | RemoveItem item => on_player (λ p, ((), Player_remove_item item p))
    | Buy name price => on_player (Player_buy name price)
    | Sell name price => on_player (Player_sell name price)
    | PotatoPlant => λ m, (mkPlant Potato 0, m)
    | KalePlant => λ m, (mkPlant Kale 0, m)
    | BerryPlant => λ m, (mkPlant Berry 0, m)
    | InfoBarRedraw _ _ _ => λ m, ((), m)
    | FarmViewRedraw _ _ _ _ => λ m, ((), m)
    end.

(** The states a fresh model can reach by any sequence of calls. *)
Inductive reachable (ground : list (list tile_kind)) (inv : gmap string Z)
  : FarmModel → Prop :=
| reach_init : reachable ground inv (FarmModel_init ground inv)
| reach_call (R : Type) (c : call R) (m : FarmModel) :
    reachable ground inv m → reachable ground inv (model_handler R c m).2.

(** The invariant of section 3: every plant stands on TilledSoil. *)
Definition plants_on_tilled (m : FarmModel) : Prop :=
  ∀ pos p, plants m !! pos = Some p → tile_at (grid m) pos = Some TilledSoil.


(** ** Definitions used by the statements *)

(** A trace agrees with a handler: each recorded answer is what the handler
    returns in the state reached so far. *)
Fixpoint consistent {S : Type} (h : handler S) (s : S) (tr : list event) : Prop :=
  match tr with
  | [] => True
  | Ev c r :: tr' => (h _ c s).1 = r ∧ consistent h (h _ c s).2 tr'
  end.

(** An event that constructs a plant or adds one to the farm. *)
Definition ev_planting (e : event) : bool :=
  match e with
  | Ev c _ =>
      match c with
      | AddPlant _ _ | PotatoPlant | KalePlant | BerryPlant => true
      | _ => false
      end
  end.

(** The first word of every seed name is one of the three crops. *)
Definition seeds_named_after_crops : Prop :=
  ∀ x, x ∈ SEEDS → ∃ w, split_0 x = inr w ∧ (w = "Potato" ∨ w = "Kale" ∨ w = "Berry").

(** [SELL_PRICES] has a price for every item of [ITEMS]. *)
Definition sell_prices_cover_items : Prop :=
  ∀ x, x ∈ ITEMS → is_Some (SELL_PRICES !! x).

(** A handler with fixed answers: the player stands at (0, 0), [add_plant]
    succeeds, and map, selection and inventory are as given. *)
Definition fixed_handler (ground : list string) (sel : option string)
    (inv : gmap string Z) : handler unit :=
  λ R c,
    match c in call R return unit → R * unit with
    | MovePlayer _ | TillSoil _ | UntillSoil _ | RemovePlant _
    | Buy _ _ | Sell _ _ => λ u, (false, u)
    | AddPlant _ _ => λ u, (true, u)
    | HarvestPlant _ => λ u, (None, u)
    | NewDay | SelectItem _ | AddItem _ | RemoveItem _
    | InfoBarRedraw _ _ _ | FarmViewRedraw _ _ _ _ => λ u, ((), u)
    | GetMap => λ u, (ground, u)
    | GetPlants => λ u, (∅, u)
    | GetDimensions => λ u, ((1, 1), u)
    | GetPosition => λ u, ((0, 0), u)
    | GetDaysElapsed | GetEnergy | GetMoney => λ u, (0, u)
    | GetDirection => λ u, (DOWN, u)
    | GetInventory => λ u, (inv, u)
    | GetSelectedItem => λ u, (sel, u)
    | PotatoPlant => λ u, (mkPlant Potato 0, u)
    | KalePlant => λ u, (mkPlant Kale 0, u)
    | BerryPlant => λ u, (mkPlant Berry 0, u)
    end.

(** A widget stored under key [k] is the one [__init__] made for [k]: [k]
    is an item of [ITEMS], the widget carries that name, and it has a Buy
    button only if the item has a buy price. *)
Definition view_ok (k : string) (iv : ItemView) : Prop :=
  k ∈ ITEMS ∧ _item_name iv = k ∧ (buy_button iv = true → py_in k BUY_PRICES = true).

Definition views_ok (g : FarmGame) : Prop :=
  ∀ k iv, item_dict g !! k = Some iv → view_ok k iv.

(** The exception a run ended with, if any. *)
Definition raised {S A : Type} (o : outcome S (res A * FarmGame)) : list exn :=
  match (value o).1 with
  | inl e => [e]
  | inr _ => []
  end.

(** A session: the events are handled one after the other, each on the
    window the previous one left; an event on a widget that does not exist
    cannot happen and is skipped.  The result lists the exceptions raised. *)
Fixpoint session {S : Type} (h : handler S) (es : list gui_event) (g : FarmGame) (s : S)
  : list exn :=
  match es with
  | [] => []
  | e :: es' =>
      if enabled g e then
        let o := exec h (dispatch e) g s in
        raised o ++ session h es' (value o).2 (final o)
      else session h es' g s
  end.

(** A game: the constructor, then a session if the constructor returned. *)
Definition game {S : Type} (h : handler S) (es : list gui_event) (s : S) : list exn :=
  let o := exec h FarmGame_init (mkFarmGame ∅) s in
  match (value o).1 with
  | inl e => [e]
  | inr _ => session h es (value o).2 (final o)
  end.

(** The call is [new_day]. *)
Definition is_new_day {R : Type} (c : call R) : bool :=
  match c with NewDay => true | _ => false end.

(** The call adds plant [p] at [pos]. *)
Definition adds {R : Type} (c : call R) (pos : Position) (p : Plant) : Prop :=
  match c with
  | AddPlant q pl => q = pos ∧ pl = p
  | _ => False
  end.

(** The selected item has a widget whose name has a sell price, or nothing
    is selected. *)
Definition selection_has_view (g : FarmGame) (sel : option string) : Prop :=
  match sel with
  | None => True
  | Some old => ∃ iv, item_dict g !! old = Some iv ∧ is_Some (SELL_PRICES !! _item_name iv)
  end.

(** The calls after a successful [add_plant]: the selection is read and one
    unit of it is removed. *)
Definition removal (ok : bool) (sel : option string) : list event :=
  if ok then [Ev GetSelectedItem sel; Ev (RemoveItem (sel, 1)) ()] else [].

(** The constructor the ['p'] branch picks for the first word of the seed
    name. *)
Definition crop_constructor (w : string) (c : call Plant) : Prop :=
  (w = "Potato" ∧ c = PotatoPlant) ∨ (w = "Kale" ∧ c = KalePlant) ∨
  (w = "Berry" ∧ c = BerryPlant).

(** The runs of the ['p'] branch: either it only observes and does not end
    in an unbound variable, or it passed the three guards on the tile, the
    inventory and the seed tuple, and then either found no crop for the seed
    name or constructed the plant and called [add_plant]. *)
Definition plant_branch_post (tr : list event) (r : res unit) : Prop :=
  (Forall (λ e, ev_observer e = true) tr ∧ ∀ x, r ≠ inl (UnboundLocalError x)) ∨
  ∃ pos ground row sel inv sel1 x w tr',
    tr = Ev GetPosition pos :: Ev GetMap ground :: Ev GetSelectedItem sel
         :: Ev GetInventory inv :: Ev GetSelectedItem sel1
         :: Ev GetSelectedItem (Some x) :: tr' ∧
    py_index ground pos.1 = inr row ∧ str_index row pos.2 = inr SOIL ∧
    py_in_opt sel inv = true ∧ py_in_tuple sel1 SEEDS = true ∧
    split_0 x = inr w ∧
    ((w ≠ "Potato" ∧ w ≠ "Kale" ∧ w ≠ "Berry" ∧
      ∃ pos1, tr' = [Ev GetPosition pos1] ∧ r = inl (UnboundLocalError "plant")) ∨
     (∃ c pl pos1 ok sel3, crop_constructor w c ∧
        tr' = Ev c pl :: Ev GetPosition pos1 :: Ev (AddPlant pos1 pl) ok :: removal ok sel3 ∧
        r = inr ())).

(** The state a handler reaches by answering the calls of a trace. *)
Fixpoint replay {S : Type} (h : handler S) (s : S) (tr : list event) : S :=
  match tr with
  | [] => s
  | Ev c _ :: tr' => replay h (h _ c s).2 tr'
  end.

(** The runs of [select_item]: either [Player.select_item] is called, with
    only observations before and after, or the redraw of the previously
    selected widget failed first: the old selection has no widget, its
    widget has no sell price, or the inventory lost it between two reads. *)
Definition select_item_post (g : FarmGame) (item_name : string) (tr : list event) : Prop :=
  (∃ before after,
     tr = before ++ Ev (SelectItem item_name) () :: after ∧
     Forall (λ e, ev_observer e = true) before ∧
     Forall (λ e, ev_observer e = true) after) ∨
  (∃ old inv tr',
     tr = Ev GetSelectedItem (Some old) :: Ev GetInventory inv :: tr' ∧
     (item_dict g !! old = None ∨
      (∃ iv, item_dict g !! old = Some iv ∧ SELL_PRICES !! _item_name iv = None) ∨
      (∃ inv', tr' = [Ev GetInventory inv'] ∧ py_in old inv = true ∧ inv' !! old = None))).

(** An exception that is not a failed price-table lookup: never one on
    [BUY_PRICES], and never one on [SELL_PRICES] when it covers [ITEMS]. *)
Definition lookup_in_range (e : exn) : Prop :=
  (∀ k, e ≠ KeyError "BUY_PRICES" k) ∧
  (sell_prices_cover_items → ∀ k, e ≠ KeyError "SELL_PRICES" k).

(** A property of the trace and the value that holds whatever the calls
    return. *)
Fixpoint always {A : Type} (P : list event → A → Prop) (p : prog A) : Prop :=
  match p with
  | Ret a => P [] a
  | Do c k => ∀ r, always (λ tr, P (Ev c r :: tr)) (k r)
  end.

(** Controller code that, started on widgets satisfying [I], makes only
    calls satisfying [T], leaves widgets satisfying [I], and raises only
    exceptions satisfying [E], whatever the calls return. *)
Definition triple (I : FarmGame → Prop) (T : event → Prop) (E : exn → Prop)
    {A : Type} (m : M A) : Prop :=
  ∀ g, I g →
    always (λ tr v, Forall T tr ∧ I v.2 ∧ ∀ e, v.1 = inl e → E e) (m g).

(** Every call observes only, and only a [KeyError] can be raised. *)
Definition is_KeyError (e : exn) : Prop := ∃ d k, e = KeyError d k.

Definition quiet {A : Type} (m : M A) : Prop :=
  triple (λ _, True) (λ e, ev_observer e = true) is_KeyError m.

(** ** Further definitions used by the statements *)

(** A call that draws on a canvas. *)
Definition draws {R : Type} (c : call R) : bool :=
  match c with
  | InfoBarRedraw _ _ _ | FarmViewRedraw _ _ _ _ => true
  | _ => false
  end.

(** An event that reads the model: an observer that does not draw. *)
Definition ev_getter (e : event) : bool :=
  match e with Ev c _ => observer c && negb (draws c) end.

(** What [redraw] does on the two canvases in state [s] of a handler: it
    reads day, money and energy and redraws the info bar with them, then
    reads map, plants, position and direction and redraws the farm view
    with them. *)
Definition shown {S : Type} (h : handler S) (s : S) : list event :=
  [Ev GetDaysElapsed (ask h GetDaysElapsed s);
   Ev GetMoney (ask h GetMoney s);
   Ev GetEnergy (ask h GetEnergy s);
   Ev (InfoBarRedraw (ask h GetDaysElapsed s) (ask h GetMoney s) (ask h GetEnergy s)) ();
   Ev GetMap (ask h GetMap s);
   Ev GetPlants (ask h GetPlants s);
   Ev GetPosition (ask h GetPosition s);
   Ev GetDirection (ask h GetDirection s);
   Ev (FarmViewRedraw (ask h GetMap s) (ask h GetPlants s) (ask h GetPosition s)
         (ask h GetDirection s)) ()].

(** An event that draws on a canvas. *)
Definition ev_draws (e : event) : bool :=
  match e with Ev c _ => draws c end.

(** What a callback must leave alone in the widgets: which keys there are,
    and for each key the item name of its widget and whether it has a Buy
    button. *)
Definition skeleton (g : FarmGame) : gmap string (string * bool) :=
  (λ iv, (_item_name iv, buy_button iv)) <$> item_dict g.

(** The widget [__init__] built for item [x], possibly recoloured since:
    it is stored under [x], carries that name, has a Buy button exactly if
    the item has a buy price, and the item has a sell price. *)
Definition made_for (x : string) (g : FarmGame) (iv : ItemView) : Prop :=
  item_dict g !! x = Some iv ∧ _item_name iv = x ∧
  buy_button iv = py_in x BUY_PRICES ∧ is_Some (SELL_PRICES !! x).

(** Every item of [ITEMS] has its widget. *)
Definition items_have_views (g : FarmGame) : Prop :=
  ∀ x, x ∈ ITEMS → ∃ iv, made_for x g iv.

(** The background [update] gives a widget. *)
Definition update_colour (amount : Z) (selected : bool) : string :=
  if decide (amount > 0) then
    if selected then INVENTORY_SELECTED_COLOUR else INVENTORY_COLOUR
  else INVENTORY_EMPTY_COLOUR.

(** What the constructor has built when it has handled the items [done]. *)
Definition init_done (done : list string) (g : FarmGame) : Prop :=
  ∀ x, x ∈ done →
    ∃ iv, made_for x g iv ∧ label_bg iv = frame_bg iv ∧
          (frame_bg iv = INVENTORY_COLOUR ∨ frame_bg iv = INVENTORY_EMPTY_COLOUR).

(** A proposition kept closed while a program is stepped through. *)
Inductive sealed (P : Prop) : Prop :=
| seal : P → sealed P.

(** A property of the value that holds whenever each call is answered as
    [ok] allows. *)
Fixpoint always_on (ok : ∀ R : Type, call R → R → Prop) {A : Type} (P : A → Prop)
    (p : prog A) : Prop :=
  match p with
  | Ret a => P a
  | Do c k => ∀ r, ok _ c r → always_on ok P (k r)
  end.

Definition ev_ok (ok : ∀ R : Type, call R → R → Prop) (e : event) : Prop :=
  match e with Ev c r => ok _ c r end.

(** The answers of a handler in a state. *)
Definition answers_of {S : Type} (h : handler S) (s : S) : ∀ R : Type, call R → R → Prop :=
  λ R c r, r = ask h c s.

(** The amount of an item an inventory holds; an absent key counts as 0. *)
Definition held (inv : gmap string Z) (x : string) : Z := default 0 (inv !! x).

(** The widget of item [x] shows inventory [inv] and selection [sel]. *)
Definition synced (inv : gmap string Z) (sel : option string) (x : string)
    (g : FarmGame) : Prop :=
  ∃ iv, item_dict g !! x = Some iv ∧ _item_name iv = x ∧
        frame_bg iv = update_colour (held inv x) (bool_decide (sel = Some x)) ∧
        label_bg iv = update_colour (held inv x) (bool_decide (sel = Some x)) ∧
        item_label_text x (held inv x) = inr (label_text iv).

(** The invariant of the widget loop of [redraw]. *)
Definition redraw_done (inv : gmap string Z) (sel : option string) (done : list string)
    (g : FarmGame) : Prop :=
  items_have_views g ∧ ∀ x, x ∈ done → synced inv sel x g.


(** The model keeps the selection [select_item] gave it: after a call,
    [get_selected_item] returns the argument of the call if the call was
    [select_item], and what it returned before the call otherwise. *)
Definition tracks_selection {S : Type} (h : handler S) : Prop :=
  ∀ (R : Type) (c : call R) (s : S),
    ask h GetSelectedItem (h R c s).2
    = match c with
      | SelectItem item_name => Some item_name
      | _ => ask h GetSelectedItem s
      end.

(** Nothing is selected, or an item of [ITEMS]. *)
Definition selected_known (sel : option string) : Prop :=
  match sel with
  | None => True
  | Some x => x ∈ ITEMS
  end.

(** An event that selects, if it selects at all, an item of [ITEMS]. *)
Definition ev_selects_known (e : event) : Prop :=
  match e with
  | Ev (SelectItem item_name) _ => item_name ∈ ITEMS
  | _ => True
  end.

(** The exceptions of the ['p'] key that are not failed lookups. *)
Definition planting_error (e : exn) : Prop :=
  e = IndexError ∨ e = AttributeError ∨ e = UnboundLocalError "plant".

(** What holds of the widgets and the model between two events of a game:
    every widget is the one made for its key, every item has its widget,
    and the selection is an item or nothing. *)
Definition game_invariant {S : Type} (h : handler S) (g : FarmGame) (s : S) : Prop :=
  views_ok g ∧ items_have_views g ∧ selected_known (ask h GetSelectedItem s).

(** Controller code that, run against [h] on widgets [g] from state [s],
    returns a value, with [Q] of the value, the widgets and the state it
    leaves. *)
Definition returns {S A : Type} (h : handler S) (m : M A) (g : FarmGame) (s : S)
    (Q : A → FarmGame → S → Prop) : Prop :=
  ∃ a, (value (exec h m g s)).1 = inr a ∧
       Q a (value (exec h m g s)).2 (final (exec h m g s)).

(** Selecting an item leaves the inventory as it is. *)
Definition select_keeps_inventory {S : Type} (h : handler S) : Prop :=
  ∀ (item_name : string) (s : S),
    ask h GetInventory (h _ (SelectItem item_name) s).2 = ask h GetInventory s.

(** Every item widget shows the inventory and the selection of the model. *)
Definition widgets_show {S : Type} (h : handler S) (g : FarmGame) (s : S) : Prop :=
  ∀ x, x ∈ ITEMS → synced (ask h GetInventory s) (ask h GetSelectedItem s) x g.

(** The widgets and the state of the model at the end of a session. *)
Fixpoint session_end {S : Type} (h : handler S) (es : list gui_event) (g : FarmGame)
    (s : S) : FarmGame * S :=
  match es with
  | [] => (g, s)
  | e :: es' =>
      if enabled g e then
        let o := exec h (dispatch e) g s in
        session_end h es' (value o).2 (final o)
      else session_end h es' g s
  end.

(** The widgets and the state of the model at the end of a game, if the
    constructor returned. *)
Definition game_end {S : Type} (h : handler S) (es : list gui_event) (s : S)
    : option (FarmGame * S) :=
  let o := exec h FarmGame_init (mkFarmGame ∅) s in
  match (value o).1 with
  | inl _ => None
  | inr _ => Some (session_end h es (value o).2 (final o))
  end.

(** ** Running programs: general facts *)

Lemma run_bind {S A B : Type} (h : handler S) (p : prog A) (f : A → prog B) (s : S) :
  run h (prog_bind p f) s =
  let o1 := run h p s in
  let o2 := run h (f (value o1)) (final o1) in
  mkOutcome (final o2) (trace o1 ++ trace o2) (value o2).
Proof.
  revert s. induction p as [a | R c k IH]; intros s; simpl.
  - by destruct (run h (f a) s).
  - destruct (h R c s) as [r s']. rewrite IH. reflexivity.
Qed.

Lemma always_run {S A : Type} (h : handler S) (p : prog A) :
  ∀ (P : list event → A → Prop) (s : S),
    always P p → P (trace (run h p s)) (value (run h p s)).
Proof.
  induction p as [a | R c k IH]; intros P s HP; simpl in *.
  - exact HP.
  - destruct (h R c s) as [r s']. simpl. apply (IH r (λ tr, P (Ev c r :: tr))), HP.
Qed.

Lemma always_mono {A : Type} (p : prog A) :
  ∀ (P Q : list event → A → Prop),
    (∀ tr a, P tr a → Q tr a) → always P p → always Q p.
Proof.
  induction p as [a | R c k IH]; intros P Q HPQ HP; simpl in *.
  - by apply HPQ.
  - intros r. eapply IH; [| apply HP]. intros tr a. apply HPQ.
Qed.

Lemma always_bind {A B : Type} (p : prog A) (f : A → prog B) :
  ∀ (P : list event → B → Prop),
    always (λ tr1 a, always (λ tr2 b, P (tr1 ++ tr2) b) (f a)) p →
    always P (prog_bind p f).
Proof.
  induction p as [a | R c k IH]; intros P HP; simpl in *.
  - exact HP.
  - intros r. apply IH. apply HP.
Qed.

Lemma run_consistent {S A : Type} (h : handler S) (p : prog A) :
  ∀ s, consistent h s (trace (run h p s)).
Proof.
  induction p as [a | R c k IH]; intros s; simpl.
  - done.
  - destruct (h R c s) as [r s'] eqn:Hh. simpl. rewrite Hh. simpl. auto.
Qed.

(** Read-only calls answered by a state-preserving handler leave the state. *)
Lemma run_read_only_final {S A : Type} (h : handler S) (p : prog A) :
  reads_preserve h →
  ∀ s, Forall (λ e, ev_read_only e = true) (trace (run h p s)) → final (run h p s) = s.
Proof.
  intros Hh. induction p as [a | R c k IH]; intros s; simpl.
  - done.
  - pose proof (Hh R c s) as Hc. destruct (h R c s) as [r s']. simpl in *.
    intros Hall. apply Forall_cons in Hall as [Hro Hrest].
    rewrite IH; auto.
Qed.

Lemma observer_read_only (e : event) : ev_observer e = true → ev_read_only e = true.
Proof.
  destruct e as [R c r]. unfold ev_observer, ev_read_only, read_only.
  intros ->. reflexivity.
Qed.

Lemma mutations_app (tr1 tr2 : list event) :
  mutations (tr1 ++ tr2) = mutations tr1 ++ mutations tr2.
Proof. apply filter_app. Qed.

Lemma mutations_read_only (tr : list event) :
  Forall (λ e, ev_read_only e = true) tr → mutations tr = [].
Proof.
  induction 1 as [| e tr He _ IH]; [done |].
  unfold mutations in *. rewrite filter_cons_False; [done | congruence].
Qed.

(** ** Reasoning rules for controller code *)

Section Triple.

Context (I : FarmGame → Prop) (T : event → Prop) (E : exn → Prop).

Lemma triple_ret {A : Type} (a : A) : triple I T E (mret a).
Proof. intros g Hg. simpl. by repeat split. Qed.

Lemma triple_raise {A : Type} (e : exn) : E e → triple I T E (@raise A e).
Proof. intros He g Hg. simpl. repeat split; [done.. |]. by intros ? [= <-]. Qed.

Lemma triple_lift_res {A : Type} (r : res A) :
  (∀ e, r = inl e → E e) → triple I T E (lift_res r).
Proof. intros He g Hg. simpl. by repeat split. Qed.

Lemma triple_perform {R : Type} (c : call R) :
  (∀ r, T (Ev c r)) → triple I T E (perform c).
Proof. intros Hc g Hg r. simpl. repeat split; [by repeat constructor | done | done]. Qed.

Lemma triple_bind {A B : Type} (m : M A) (f : A → M B) :
  triple I T E m → (∀ a, triple I T E (f a)) → triple I T E (m ≫= f).
Proof.
  intros Hm Hf g Hg. unfold mbind, M_bind. apply always_bind.
  eapply always_mono; [| by apply Hm]. intros tr1 [r g'] (H1 & HI & HE). simpl in *.
  destruct r as [e | a]; simpl.
  - rewrite app_nil_r. repeat split; [done.. |]. intros e' [= <-]. by apply HE.
  - eapply always_mono; [| by apply Hf]. intros tr2 b (H2 & HI2 & HE2). simpl in *.
    repeat split; [by apply Forall_app | done | done].
Qed.

Lemma triple_for_each {A : Type} (xs : list A) (body : A → M unit) :
  (∀ x, x ∈ xs → triple I T E (body x)) → triple I T E (for_each xs body).
Proof.
  induction xs as [| x xs IH]; intros Hb; simpl.
  - apply triple_ret.
  - apply triple_bind; [apply Hb; left | intros _; apply IH].
    intros y Hy. apply Hb. by right.
Qed.

Lemma triple_if {A : Type} (b : bool) (m1 m2 : M A) :
  (b = true → triple I T E m1) → (b = false → triple I T E m2) →
  triple I T E (if b then m1 else m2).
Proof. destruct b; auto. Qed.

Lemma triple_if_dec {A : Type} {P : Prop} (d : {P} + {¬ P}) (m1 m2 : M A) :
  (P → triple I T E m1) → (¬ P → triple I T E m2) → triple I T E (if d then m1 else m2).
Proof. destruct d; auto. Qed.

(** [self.item_dict[k]] followed by code using the widget: the widget found
    satisfies whatever [I] says about the entries of the dictionary. *)
Lemma triple_item_dict_get {B : Type} (k : string) (J : ItemView → Prop) (f : ItemView → M B) :
  E (KeyError "item_dict" k) →
  (∀ g iv, I g → item_dict g !! k = Some iv → J iv) →
  (∀ iv, J iv → triple I T E (f iv)) →
  triple I T E (item_dict_get k ≫= f).
Proof.
  intros HE HJ Hf g Hg. unfold mbind, M_bind, item_dict_get, py_getitem. simpl.
  destruct (item_dict g !! k) as [iv |] eqn:Hk; simpl.
  - apply Hf; eauto.
  - repeat split; [done.. |]. by intros ? [= <-].
Qed.

End Triple.

(** ** The widget *)

Lemma py_getitem_error {V : Type} (d : string) (m : gmap string V) (k : string) (e : exn) :
  py_getitem d m k = inl e → e = KeyError d k ∧ m !! k = None.
Proof. unfold py_getitem. destruct (m !! k); [done |]. by intros [= <-]. Qed.

Lemma py_getitem_in {V : Type} (d : string) (m : gmap string V) (k : string) :
  py_in k m = true → ∃ v, py_getitem d m k = inr v ∧ m !! k = Some v.
Proof. unfold py_in, py_getitem. destruct (m !! k); [eauto | done]. Qed.

(** The label text fails only on a missing sell price: the buy price is
    looked up under the guard [item_name in BUY_PRICES]. *)
Lemma item_label_text_error (item_name : string) (amount : Z) (e : exn) :
  item_label_text item_name amount = inl e →
  e = KeyError "SELL_PRICES" item_name ∧ SELL_PRICES !! item_name = None.
Proof.
  unfold item_label_text.
  destruct (py_getitem "SELL_PRICES" SELL_PRICES item_name) as [e' | sp] eqn:Hs.
  - intros [= <-]. by apply py_getitem_error in Hs.
  - destruct (py_in item_name BUY_PRICES) eqn:Hb; [| done].
    destruct (py_getitem_in "BUY_PRICES" _ _ Hb) as (bp & -> & _). done.
Qed.

Lemma ItemView_update_keeps (iv : ItemView) (amount : Z) (selected : bool) :
  _item_name (ItemView_update iv amount selected).2 = _item_name iv ∧
  buy_button (ItemView_update iv amount selected).2 = buy_button iv.
Proof.
  unfold ItemView_update.
  destruct (item_label_text (_item_name iv) amount); simpl; done.
Qed.

Lemma ItemView_update_error (iv : ItemView) (amount : Z) (selected : bool) (e : exn) :
  (ItemView_update iv amount selected).1 = inl e →
  e = KeyError "SELL_PRICES" (_item_name iv) ∧ SELL_PRICES !! _item_name iv = None.
Proof.
  unfold ItemView_update.
  destruct (item_label_text (_item_name iv) amount) as [e' |] eqn:Ht; simpl; [| done].
  intros [= <-]. by apply item_label_text_error in Ht.
Qed.

Lemma triple_update_in_place (I : FarmGame → Prop) (T : event → Prop) (E : exn → Prop)
    (k : string) (iv : ItemView) (amount : Z) (selected : bool) :
  (∀ g iv', I g → _item_name iv' = _item_name iv → buy_button iv' = buy_button iv →
            I (mkFarmGame (<[k := iv']> (item_dict g)))) →
  (SELL_PRICES !! _item_name iv = None → E (KeyError "SELL_PRICES" (_item_name iv))) →
  triple I T E (update_in_place k iv amount selected).
Proof.
  intros HI HE g Hg. unfold update_in_place.
  pose proof (ItemView_update_keeps iv amount selected) as [Hn Hb].
  pose proof (ItemView_update_error iv amount selected) as Herr.
  destruct (ItemView_update iv amount selected) as [r iv']. simpl in *.
  repeat split; [done | by apply HI |].
  intros e ->. destruct (Herr e eq_refl) as [-> Hnone]. by apply HE.
Qed.

(** ** Redrawing only observes *)

Lemma is_KeyError_getitem {V : Type} (d : string) (m : gmap string V) (k : string) (e : exn) :
  py_getitem d m k = inl e → is_KeyError e.
Proof. intros [-> _]%py_getitem_error. by eexists _, _. Qed.

Ltac quiet_step :=
  first
    [ apply triple_ret
    | apply triple_perform; intros; reflexivity
    | apply triple_lift_res; intros ?; apply is_KeyError_getitem
    | apply triple_update_in_place; [done | intros _; by eexists _, _]
    | apply (triple_item_dict_get _ _ _ _ (λ _, True)); [by eexists _, _ | done | intros ? _]
    | apply triple_bind; [| intros ?]
    | apply triple_for_each; intros ? _
    | match goal with
      | |- triple _ _ _ (match ?x with _ => _ end) => destruct x
      end ].

Lemma redraw_quiet : quiet FarmGame_redraw.
Proof. unfold quiet, FarmGame_redraw. repeat quiet_step. Qed.

(** ** Stepping through a branch *)

Lemma py_index_error {A : Type} (l : list A) (i : Z) (e : exn) :
  py_index l i = inl e → e = IndexError.
Proof. unfold py_index. repeat case_match; congruence. Qed.

Lemma str_index_error (s : string) (i : Z) (e : exn) :
  str_index s i = inl e → e = IndexError.
Proof.
  unfold str_index. destruct (py_index _ i) eqn:H; [| done].
  intros [= <-]. by apply py_index_error in H.
Qed.

Lemma split_0_error (s : string) (e : exn) : split_0 s = inl e → e = IndexError.
Proof. unfold split_0. destruct (take_word _); congruence. Qed.

Ltac unfold_M :=
  cbv [mbind M_bind perform lift_res raise mret M_ret fmap M_fmap item_dict_get].

Ltac sym_exec :=
  repeat first
    [ progress cbn [prog_bind always fst snd]
    | intro
    | match goal with
      | |- always _ ?p =>
          match p with
          | context [match ?x with _ => _ end] => destruct x eqn:?
          end
      end ].

Ltac index_errors :=
  repeat match goal with
    | H : py_index _ _ = inl _ |- _ => apply py_index_error in H; subst
    | H : str_index _ _ = inl _ |- _ => apply str_index_error in H; subst
    | H : split_0 _ = inl _ |- _ => apply split_0_error in H; subst
    end.

Lemma plant_branch_cases (g : FarmGame) :
  always (λ tr v, plant_branch_post tr v.1) (plant_branch g).
Proof.
  unfold plant_branch. unfold_M. sym_exec.
  all: cbv beta; index_errors.
  all: try solve [left; split; [repeat constructor | discriminate]].
  all: right; subst; repeat match goal with u : () |- _ => destruct u end.
  all: do 9 eexists; (split; [reflexivity |]); repeat (split; [eassumption |]).
  all: try solve [left; repeat split; [done.. |]; by eexists].
  all: right;
    first [ eexists _, _, _, true, _; split;
              [unfold crop_constructor; eauto | split; [reflexivity | done]]
          | eexists _, _, _, false, None; split;
              [unfold crop_constructor; eauto | split; [reflexivity | done]] ].
Qed.

(** A branch followed by the redraw: the redraw adds observations only, and
    is skipped when the branch raised. *)
Lemma always_then_redraw {A : Type} (m : M A) (P : list event → res A → Prop) (g : FarmGame) :
  always (λ tr v, P tr v.1) (m g) →
  always (λ tr v, ∃ tr1 tr2 r,
            tr = tr1 ++ tr2 ∧ P tr1 r ∧ Forall (λ e, ev_observer e = true) tr2 ∧
            match r with
            | inl e => v.1 = inl e ∧ tr2 = []
            | inr _ => ∀ e, v.1 = inl e → is_KeyError e
            end)
    ((m ≫= λ _, FarmGame_redraw) g).
Proof.
  intros Hm. unfold mbind, M_bind. apply always_bind.
  eapply always_mono; [| exact Hm]. intros tr1 [r g'] HP. cbn [fst snd] in *.
  destruct r as [e | a]; cbn [always fst snd].
  - exists tr1, [], (inl e). by rewrite app_nil_r.
  - eapply always_mono; [| exact (redraw_quiet g' I)]. intros tr2 v (H2 & _ & HE).
    by exists tr1, tr2, (inr a).
Qed.

Lemma handle_keypress_p :
  FarmGame_handle_keypress "p" = (plant_branch ≫= λ _, FarmGame_redraw).
Proof. reflexivity. Qed.

Lemma handle_keypress_h :
  FarmGame_handle_keypress "h" =
  ((pos ← perform GetPosition;
    harvest ← perform (HarvestPlant pos);
    match harvest with
    | Some item => perform (AddItem item)
    | None => mret ()
    end) ≫= λ _, FarmGame_redraw).
Proof. reflexivity. Qed.

Lemma handle_keypress_other (keysym : string) :
  keysym ∉ ["w"; "a"; "s"; "d"; "t"; "u"; "p"; "r"; "h"] →
  FarmGame_handle_keypress keysym = (mret () ≫= λ _, FarmGame_redraw).
Proof.
  intros Hk. unfold FarmGame_handle_keypress.
  repeat (destruct (decide _) as [-> | _];
          [exfalso; apply Hk; repeat first [apply list_elem_of_here | apply list_elem_of_further] |]).
  reflexivity.
Qed.

(** ** The key press handler *)

Lemma consistent_read {S R : Type} (h : handler S) (c : call R) (r : R) (s : S)
    (tr : list event) :
  reads_preserve h → read_only c = true →
  consistent h s (Ev c r :: tr) → r = ask h c s ∧ consistent h s tr.
Proof.
  intros Hh Hc [Hr Htr]. simpl in *. rewrite (Hh R c s Hc) in Htr. by split.
Qed.

Lemma consistent_app_l {S : Type} (h : handler S) (tr1 tr2 : list event) :
  ∀ s, consistent h s (tr1 ++ tr2) → consistent h s tr1.
Proof.
  induction tr1 as [| [R c r] tr1 IH]; intros s; simpl; [done |].
  intros [Hr Htr]. split; [done |]. by apply IH.
Qed.

Lemma observers_not_planting (tr : list event) :
  Forall (λ e, ev_observer e = true) tr → ¬ Exists (λ e, ev_planting e = true) tr.
Proof.
  intros Hall Hex. apply Exists_exists in Hex as (e & He & Hp).
  rewrite Forall_forall in Hall. specialize (Hall e He).
  destruct e as [R c r]. by destruct c.
Qed.

(** What the guards of the ['p'] branch say about the state, for a handler
    whose reads do not change it. *)
Lemma plant_branch_guards {S : Type} (h : handler S) (s : S) (tr : list event) (r : res unit) :
  reads_preserve h → consistent h s tr → plant_branch_post tr r →
  (Forall (λ e, ev_observer e = true) tr ∧ ∀ x, r ≠ inl (UnboundLocalError x)) ∨
  ∃ row x w,
    py_index (ask h GetMap s) (ask h GetPosition s).1 = inr row ∧
    str_index row (ask h GetPosition s).2 = inr SOIL ∧
    ask h GetSelectedItem s = Some x ∧ x ∈ SEEDS ∧
    is_Some (ask h GetInventory s !! x) ∧
    split_0 x = inr w ∧
    ((w ≠ "Potato" ∧ w ≠ "Kale" ∧ w ≠ "Berry" ∧ r = inl (UnboundLocalError "plant")) ∨
     ((w = "Potato" ∨ w = "Kale" ∨ w = "Berry") ∧ r = inr ())).
Proof.
  intros Hh Hc [HA | HB]; [by left | right].
  destruct HB as (pos & ground & row & sel & inv & sel1 & x & w & tr' & -> &
                  Hrow & Htile & Hinv & Hseed & Hw & Hrest).
  repeat (apply consistent_read in Hc as [? Hc]; [| done | reflexivity]). subst.
  match goal with H : Some x = _ |- _ => symmetry in H; rename H into Hsel end.
  rewrite Hsel in Hinv, Hseed. simpl in Hinv, Hseed.
  exists row, x, w. repeat split; try done.
  - by apply bool_decide_eq_true in Hseed.
  - unfold py_in in Hinv. by destruct (_ !! x).
  - destruct Hrest as [(? & ? & ? & ? & _ & ->) | (c & pl & pos1 & ok & sel3 & Hcc & _ & ->)].
    + by left.
    + right. split; [| done]. destruct Hcc as [[-> _] | [[-> _] | [-> _]]]; auto.
Qed.

Lemma keypress_p_run {S : Type} (h : handler S) (g : FarmGame) (s : S) :
  let o := exec h (FarmGame_handle_keypress "p") g s in
  ∃ tr1 tr2 r,
    trace o = tr1 ++ tr2 ∧ plant_branch_post tr1 r ∧
    Forall (λ e, ev_observer e = true) tr2 ∧
    match r with
    | inl e => (value o).1 = inl e ∧ tr2 = []
    | inr _ => ∀ e, (value o).1 = inl e → is_KeyError e
    end.
Proof.
  unfold exec. rewrite handle_keypress_p.
  pose proof (always_then_redraw plant_branch plant_branch_post g (plant_branch_cases g)) as H.
  exact (always_run h _ _ s H).
Qed.

Lemma observers_no_mutations (tr : list event) :
  Forall (λ e, ev_observer e = true) tr → mutations tr = [].
Proof.
  intros H. apply mutations_read_only. eapply Forall_impl; [exact H |].
  apply observer_read_only.
Qed.


(** C2. On a ['p'] key press, a plant is constructed or [add_plant] is
    called only when the map character at the player's position is [SOIL]
    and the selected item is a key of the inventory and a member of
    [SEEDS]. *)
Theorem keypress_p_planting_guard {S : Type} (h : handler S) (g : FarmGame) (s : S) :
  reads_preserve h →
  Exists (λ e, ev_planting e = true) (trace (exec h (FarmGame_handle_keypress "p") g s)) →
  (∃ row, py_index (ask h GetMap s) (ask h GetPosition s).1 = inr row ∧
          str_index row (ask h GetPosition s).2 = inr SOIL) ∧
  (∃ x, ask h GetSelectedItem s = Some x ∧ x ∈ SEEDS ∧
        is_Some (ask h GetInventory s !! x)).
Proof.
  intros Hh Hex.
  pose proof (run_consistent h (FarmGame_handle_keypress "p" g) s) as Hc.
  fold (exec h (FarmGame_handle_keypress "p") g s) in Hc.
  destruct (keypress_p_run h g s) as (tr1 & tr2 & r & Htr & Hpost & Hobs & _).
  rewrite Htr in Hc, Hex. apply consistent_app_l in Hc.
  destruct (plant_branch_guards h s tr1 r Hh Hc Hpost) as [[HA _] | HB].
  - exfalso. apply Exists_app in Hex as [Hex | Hex].
    + exact (observers_not_planting tr1 HA Hex).
    + exact (observers_not_planting tr2 Hobs Hex).
  - destruct HB as (row & x & w & ? & ? & ? & ? & ? & _). eauto 10.
Qed.

(** C4. On an ['h'] key press the controller calls [harvest_plant] at the
    player's position and then calls [add_item] with the returned pair
    exactly when the result is not [None]; apart from these it only
    observes. *)
Theorem keypress_h_harvest {S : Type} (h : handler S) (g : FarmGame) (s : S) :
  let tr := trace (exec h (FarmGame_handle_keypress "h") g s) in
  ∃ pos harvest after,
    tr = Ev GetPosition pos :: Ev (HarvestPlant pos) harvest
         :: match harvest with
            | Some item => [Ev (AddItem item) ()]
            | None => []
            end ++ after ∧
    Forall (λ e, ev_observer e = true) after ∧
    mutations tr = Ev (HarvestPlant pos) harvest
                   :: match harvest with
                      | Some item => [Ev (AddItem item) ()]
                      | None => []
                      end.
Proof.
  cbv zeta. unfold exec. rewrite handle_keypress_h.
  match goal with |- context [run h ((?m ≫= _) g) s] => set (branch := m) end.
  assert (always (λ tr v,
            (λ tr (_ : res ()), ∃ pos harvest,
               tr = Ev GetPosition pos :: Ev (HarvestPlant pos) harvest
                    :: match harvest with
                       | Some item => [Ev (AddItem item) ()]
                       | None => []
                       end) tr v.1) (branch g)) as Hb.
  { subst branch. unfold_M. sym_exec.
    all: repeat match goal with u : () |- _ => destruct u end.
    all: first [by eexists _, (Some _) | by eexists _, None]. }
  pose proof (always_run h _ _ s (always_then_redraw branch _ g Hb)) as Hrun.
  cbv beta in Hrun. destruct Hrun as (tr1 & tr2 & r & Htr & (pos & harvest & ->) & Hobs & _).
  unfold res in *. rewrite Htr. exists pos, harvest, tr2. split; [| split; [done |]].
  - by destruct harvest.
  - rewrite mutations_app, (observers_no_mutations tr2 Hobs), app_nil_r.
    by destruct harvest.
Qed.

Lemma model_handler_reads_preserve : reads_preserve model_handler.
Proof. intros R c m Hc. destruct c; try discriminate Hc; reflexivity. Qed.

(** C8. A key press whose key is none of w, a, s, d, t, u, p, r, h makes
    only observing calls, so nothing that changes the model or the player
    is called, and the state of the model is what it was. *)
Theorem keypress_other_key_frame {S : Type} (h : handler S) (keysym : string)
    (g : FarmGame) (s : S) :
  keysym ∉ ["w"; "a"; "s"; "d"; "t"; "u"; "p"; "r"; "h"] →
  let o := exec h (FarmGame_handle_keypress keysym) g s in
  Forall (λ e, ev_observer e = true) (trace o) ∧
  mutations (trace o) = [] ∧
  (reads_preserve h → final o = s) ∧
  (∀ m, final (exec model_handler (FarmGame_handle_keypress keysym) g m) = m).
Proof.
  intros Hk. cbv zeta. unfold exec. rewrite (handle_keypress_other keysym Hk).
  assert (∀ S' (h' : handler S') (s' : S'),
            Forall (λ e, ev_observer e = true)
              (trace (run h' ((mret () ≫= λ _, FarmGame_redraw) g) s'))) as Hobs.
  { intros S' h' s'.
    assert (quiet (mret () ≫= λ _ : (), FarmGame_redraw)) as Hq.
    { apply triple_bind; [apply triple_ret | intros _; apply redraw_quiet]. }
    exact (proj1 (always_run h' _ _ s' (Hq g I))). }
  assert (∀ S' (h' : handler S') (s' : S'), reads_preserve h' →
            final (run h' ((mret () ≫= λ _, FarmGame_redraw) g) s') = s') as Hfin.
  { intros S' h' s' Hh. apply run_read_only_final; [done |].
    eapply Forall_impl; [apply Hobs | apply observer_read_only]. }
  repeat split.
  - apply Hobs.
  - apply observers_no_mutations, Hobs.
  - apply Hfin.
  - intros m. apply Hfin, model_handler_reads_preserve.
Qed.

Lemma str_index_single (s : string) : String.length s = 1%nat → str_index s 0 = inr s.
Proof.
  destruct s as [| a [| b s]]; try discriminate. intros _. reflexivity.
Qed.


(** ** The item widget *)

(** C10. After [ItemView.update(amount, selected)], whether it returned or
    raised, frame and label have the selected colour exactly when
    [amount > 0] and [selected] holds, the plain colour exactly when
    [amount > 0] and [selected] does not hold, and the empty colour exactly
    when [amount <= 0]; the three colours being different. *)
Theorem ItemView_update_colours (iv : ItemView) (amount : Z) (selected : bool) :
  INVENTORY_COLOUR ≠ INVENTORY_SELECTED_COLOUR →
  INVENTORY_COLOUR ≠ INVENTORY_EMPTY_COLOUR →
  INVENTORY_SELECTED_COLOUR ≠ INVENTORY_EMPTY_COLOUR →
  ∀ r iv', ItemView_update iv amount selected = (r, iv') →
    (frame_bg iv' = INVENTORY_SELECTED_COLOUR ∧ label_bg iv' = INVENTORY_SELECTED_COLOUR
       ↔ amount > 0 ∧ selected = true) ∧
    (frame_bg iv' = INVENTORY_COLOUR ∧ label_bg iv' = INVENTORY_COLOUR
       ↔ amount > 0 ∧ selected = false) ∧
    (frame_bg iv' = INVENTORY_EMPTY_COLOUR ∧ label_bg iv' = INVENTORY_EMPTY_COLOUR
       ↔ amount <= 0).
Proof.
  intros H12 H13 H23 r iv'. unfold ItemView_update.
  destruct (item_label_text (_item_name iv) amount); intros [= <- <-]; simpl;
    destruct (decide (amount > 0)); destruct selected; simpl;
    repeat split; intros; try done; try lia;
    repeat match goal with H : _ ∧ _ |- _ => destruct H end; congruence.
Qed.

(** ** Price tables *)

Lemma lookup_in_range_other (d k : string) :
  d ≠ "BUY_PRICES" → d ≠ "SELL_PRICES" → lookup_in_range (KeyError d k).
Proof. intros Hb Hs. split; [| intros _]; intros k' [= ? ?]; done. Qed.

Lemma lookup_in_range_sell (k : string) :
  k ∈ ITEMS → SELL_PRICES !! k = None → lookup_in_range (KeyError "SELL_PRICES" k).
Proof.
  intros Hk Hnone. split; [by intros k' [=] |].
  intros Hcov k' _. destruct (Hcov k Hk) as [v Hv]. congruence.
Qed.

Lemma views_ok_insert (g : FarmGame) (k : string) (iv : ItemView) :
  views_ok g → view_ok k iv → views_ok (mkFarmGame (<[k := iv]> (item_dict g))).
Proof.
  intros Hg Hiv k' iv'. simpl. rewrite lookup_insert.
  case_decide; [by intros [= <-]; subst | apply Hg].
Qed.

Lemma ItemView_init_ok (k : string) (amount : Z) (iv : ItemView) :
  k ∈ ITEMS → ItemView_init k amount = inr iv → view_ok k iv.
Proof.
  unfold ItemView_init. destruct (item_label_text k amount); [done |].
  intros Hk [= <-]. by repeat split.
Qed.

Section Views.

Context (T : event → Prop) (HT : ∀ e, T e).

Abbreviation vtriple := (triple views_ok T lookup_in_range).

Lemma vtriple_lift_res_bind {A B : Type} (r : res A) (f : A → M B) :
  (∀ e, r = inl e → lookup_in_range e) →
  (∀ a, r = inr a → vtriple (f a)) →
  vtriple (lift_res r ≫= f).
Proof.
  intros He Hf g Hg. unfold mbind, M_bind, lift_res. cbn [prog_bind fst snd].
  destruct r as [e | a].
  - cbn [always fst snd]. split; [constructor | split; [done |]].
    intros e' [= <-]. by apply He.
  - by apply Hf.
Qed.

Lemma vtriple_item_dict_set (k : string) (iv : ItemView) :
  view_ok k iv → vtriple (item_dict_set k iv).
Proof.
  intros Hiv g Hg. cbn [item_dict_set always fst snd].
  split; [constructor | split; [by apply views_ok_insert | done]].
Qed.

Lemma vtriple_update_in_place (k : string) (iv : ItemView) (amount : Z) (selected : bool) :
  view_ok k iv → vtriple (update_in_place k iv amount selected).
Proof.
  intros (Hk & Hn & Hb). apply triple_update_in_place.
  - intros g iv' Hg Hn' Hb'. apply views_ok_insert; [done |].
    repeat split; [done | congruence | rewrite Hb'; done].
  - rewrite Hn. by apply lookup_in_range_sell.
Qed.

Lemma vtriple_item_dict_get {B : Type} (k : string) (f : ItemView → M B) :
  (∀ iv, view_ok k iv → vtriple (f iv)) → vtriple (item_dict_get k ≫= f).
Proof.
  intros Hf. apply (triple_item_dict_get _ _ _ k (view_ok k)); [| | done].
  - by apply lookup_in_range_other.
  - intros g iv Hg Hiv. by apply Hg.
Qed.

Lemma vtriple_perform {R : Type} (c : call R) : vtriple (perform c).
Proof. apply triple_perform. intros r. apply HT. Qed.

Lemma lookup_in_range_inventory {V : Type} (m : gmap string V) (k : string) (e : exn) :
  py_getitem "inventory" m k = inl e → lookup_in_range e.
Proof. intros [-> _]%py_getitem_error. by apply lookup_in_range_other. Qed.

End Views.

Ltac views_step :=
  first
    [ apply triple_ret
    | apply vtriple_perform; solve [auto]
    | apply vtriple_update_in_place; assumption
    | apply vtriple_item_dict_set; assumption
    | apply vtriple_item_dict_get; intros ? ?
    | apply triple_lift_res; intros ?; apply lookup_in_range_inventory
    | apply triple_bind; [| intros ?]
    | match goal with
      | |- triple _ _ _ (match ?x with _ => _ end) => destruct x
      end ].

Lemma views_redraw (T : event → Prop) :
  (∀ e, T e) → triple views_ok T lookup_in_range FarmGame_redraw.
Proof.
  intros HT. unfold FarmGame_redraw.
  do 9 (apply triple_bind; [by apply vtriple_perform | intros ?]).
  apply triple_for_each. intros item_name Hitem. repeat views_step.
Qed.

Lemma lookup_in_range_index : lookup_in_range IndexError.
Proof. by split; [| intros _]; intros k [=]. Qed.

Lemma lookup_in_range_attribute : lookup_in_range AttributeError.
Proof. by split; [| intros _]; intros k [=]. Qed.

Lemma lookup_in_range_unbound (v : string) : lookup_in_range (UnboundLocalError v).
Proof. by split; [| intros _]; intros k [=]. Qed.

Ltac any_call := apply triple_perform; intros ?; exact I.

Lemma views_plant_branch : triple views_ok (λ _, True) lookup_in_range plant_branch.
Proof.
  unfold plant_branch.
  repeat first
    [ apply triple_ret
    | any_call
    | apply triple_raise;
        first [apply lookup_in_range_attribute | apply lookup_in_range_unbound]
    | apply triple_lift_res; intros ? ?;
        first [ erewrite (py_index_error _ _ _) by eassumption
              | erewrite (str_index_error _ _ _) by eassumption
              | erewrite (split_0_error _ _) by eassumption ];
        apply lookup_in_range_index
    | progress unfold fmap, M_fmap
    | apply triple_bind; [| intros ?]
    | match goal with
      | |- triple _ _ _ (match ?x with _ => _ end) => destruct x
      end ].
Qed.

Lemma views_handle_keypress (keysym : string) :
  triple views_ok (λ _, True) lookup_in_range (FarmGame_handle_keypress keysym).
Proof.
  unfold FarmGame_handle_keypress.
  apply triple_bind; [| intros _; by apply views_redraw].
  repeat first
    [ apply views_plant_branch
    | apply triple_ret
    | any_call
    | apply triple_bind; [| intros ?]
    | match goal with
      | |- triple _ _ _ (match ?x with _ => _ end) => destruct x
      end ].
Qed.

Lemma views_new_day_redraw : triple views_ok (λ _, True) lookup_in_range new_day_redraw.
Proof.
  unfold new_day_redraw. apply triple_bind; [any_call | intros _; by apply views_redraw].
Qed.

Lemma views_select_item (item_name : string) :
  triple views_ok (λ _, True) lookup_in_range (FarmGame_select_item item_name).
Proof.
  unfold FarmGame_select_item. repeat first [any_call | views_step].
Qed.

Lemma views_buy_item (item_name : string) :
  py_in item_name BUY_PRICES = true →
  triple views_ok (λ _, True) lookup_in_range (FarmGame_buy_item item_name).
Proof.
  intros Hin. unfold FarmGame_buy_item.
  destruct (py_getitem_in "BUY_PRICES" _ _ Hin) as (price & Hprice & _).
  apply vtriple_lift_res_bind; [by rewrite Hprice |]. intros p _.
  apply triple_bind; [any_call | intros _; by apply views_redraw].
Qed.

Lemma views_sell_item (item_name : string) :
  item_name ∈ ITEMS →
  triple views_ok (λ _, True) lookup_in_range (FarmGame_sell_item item_name).
Proof.
  intros Hin. unfold FarmGame_sell_item.
  apply vtriple_lift_res_bind.
  - intros e [-> Hnone]%py_getitem_error. by apply lookup_in_range_sell.
  - intros p _. apply triple_bind; [any_call | intros _; by apply views_redraw].
Qed.

Lemma views_init : triple views_ok (λ _, True) lookup_in_range FarmGame_init.
Proof.
  unfold FarmGame_init.
  do 4 (apply triple_bind; [any_call | intros ?]).
  apply triple_bind; [| intros _; any_call].
  apply triple_for_each. intros item_name Hitem.
  apply vtriple_lift_res_bind.
  - unfold ItemView_init. intros e He.
    destruct (item_label_text item_name 0) as [e' |] eqn:Ht; [| done].
    injection He as <-. apply item_label_text_error in Ht as [-> Hnone].
    by apply lookup_in_range_sell.
  - intros iv Hiv. apply ItemView_init_ok in Hiv; [| done].
    repeat first [any_call | views_step].
Qed.

(** The callback of an event that can occur keeps the widgets well formed
    and raises no price-table [KeyError]. *)
Lemma views_dispatch {S : Type} (h : handler S) (e : gui_event) (g : FarmGame) (s : S) :
  views_ok g → enabled g e = true →
  let o := exec h (dispatch e) g s in
  views_ok (value o).2 ∧ ∀ x, x ∈ raised o → lookup_in_range x.
Proof.
  intros Hg Hen.
  assert (always (λ tr v, Forall (λ _, True) tr ∧ views_ok v.2 ∧
                          ∀ x, v.1 = inl x → lookup_in_range x) (dispatch e g)) as Hd.
  { destruct e as [k | v | v | v |]; simpl in Hen.
    - by apply views_handle_keypress.
    - unfold py_in in Hen. destruct (item_dict g !! v) as [iv |] eqn:Hv; [| done].
      unfold dispatch, mbind, M_bind, item_dict_get, py_getitem. rewrite Hv.
      cbn [prog_bind fst snd]. by apply views_select_item.
    - destruct (item_dict g !! v) as [iv |] eqn:Hv; [| done].
      unfold dispatch, mbind, M_bind, item_dict_get, py_getitem. rewrite Hv.
      cbn [prog_bind fst snd]. destruct (Hg v iv Hv) as (_ & Hn & Hb).
      apply views_buy_item; [| done]. rewrite Hn. by apply Hb.
    - unfold py_in in Hen. destruct (item_dict g !! v) as [iv |] eqn:Hv; [| done].
      unfold dispatch, mbind, M_bind, item_dict_get, py_getitem. rewrite Hv.
      cbn [prog_bind fst snd]. destruct (Hg v iv Hv) as (Hi & Hn & _).
      apply views_sell_item; [| done]. by rewrite Hn.
    - by apply views_new_day_redraw. }
  destruct (always_run h _ _ s Hd) as (_ & Hv & He).
  cbv zeta. unfold exec, raised. split; [done |].
  intros x Hx. destruct (value (run h (dispatch e g) s)).1 eqn:Hval.
  - apply list_elem_of_singleton in Hx as ->. by apply He.
  - by apply elem_of_nil in Hx.
Qed.

Lemma session_lookups {S : Type} (h : handler S) (es : list gui_event) :
  ∀ (g : FarmGame) (s : S), views_ok g → ∀ x, x ∈ session h es g s → lookup_in_range x.
Proof.
  induction es as [| e es IH]; intros g s Hg x; simpl.
  - by intros ?%elem_of_nil.
  - destruct (enabled g e) eqn:Hen; [| by apply IH].
    destruct (views_dispatch h e g s Hg Hen) as [Hg' Hr].
    intros [Hx | Hx]%elem_of_app; [by apply Hr | by eapply IH].
Qed.

(** C6. In a game, whatever the model answers and whatever the user does,
    no lookup in [BUY_PRICES] fails, and none in [SELL_PRICES] fails if it
    has a price for every item of [ITEMS].  The Buy button, the only way to
    [buy_item], exists exactly for the items with a buy price. *)
Theorem price_lookups_in_range {S : Type} (h : handler S) (es : list gui_event) (s : S) :
  (∀ x, x ∈ game h es s →
     (∀ k, x ≠ KeyError "BUY_PRICES" k) ∧
     (sell_prices_cover_items → ∀ k, x ≠ KeyError "SELL_PRICES" k)) ∧
  (∀ item_name amount iv, ItemView_init item_name amount = inr iv →
     (buy_button iv = true ↔ is_Some (BUY_PRICES !! item_name))).
Proof.
  split.
  - intros x. unfold game.
    pose proof (always_run h _ _ s (views_init (mkFarmGame ∅) ltac:(by intros k iv; simpl; rewrite lookup_empty)))
      as (_ & Hg & He).
    fold (exec h FarmGame_init (mkFarmGame ∅) s) in Hg, He |- *.
    destruct (value (exec h FarmGame_init (mkFarmGame ∅) s)).1 as [e | u] eqn:Hval.
    + intros ->%list_elem_of_singleton. by apply He.
    + by apply session_lookups.
  - intros item_name amount iv. unfold ItemView_init.
    destruct (item_label_text item_name amount); [done |]. intros [= <-]. simpl.
    unfold py_in. destruct (BUY_PRICES !! item_name); split; intros H;
      first [done | by eexists | by destruct H].
Qed.

(** ** Selecting an item *)

Lemma py_getitem_ok {V : Type} (d : string) (m : gmap string V) (k : string) (v : V) :
  py_getitem d m k = inr v → m !! k = Some v.
Proof. unfold py_getitem. destruct (m !! k); [by intros [= ->] | done]. Qed.

Lemma run_final_replay {S A : Type} (h : handler S) (p : prog A) :
  ∀ s, final (run h p s) = replay h s (trace (run h p s)).
Proof.
  induction p as [a | R c k IH]; intros s; simpl; [done |].
  destruct (h R c s) as [r s'] eqn:Hh. simpl. rewrite Hh. simpl. apply IH.
Qed.

Lemma replay_app {S : Type} (h : handler S) (tr1 tr2 : list event) :
  ∀ s, replay h s (tr1 ++ tr2) = replay h (replay h s tr1) tr2.
Proof. induction tr1 as [| [R c r] tr1 IH]; intros s; simpl; [done | apply IH]. Qed.

Lemma replay_observers {S : Type} (h : handler S) (tr : list event) :
  reads_preserve h →
  ∀ s, Forall (λ e, ev_observer e = true) tr → replay h s tr = s.
Proof.
  intros Hh. induction tr as [| [R c r] tr IH]; intros s Hall; simpl; [done |].
  apply Forall_cons in Hall as [Hc Hall]. rewrite Hh; [by apply IH |].
  by apply (observer_read_only (Ev c r)).
Qed.

Lemma select_item_cases (item_name : string) (g : FarmGame) :
  always (λ tr _, select_item_post g item_name tr) (FarmGame_select_item item_name g).
Proof.
  unfold FarmGame_select_item, update_in_place. unfold_M. sym_exec.
  all: cbv beta; repeat match goal with u : () |- _ => destruct u end.
  all: try solve
    [ left;
      first
        [ eexists [_], _; split; [reflexivity | split; by repeat constructor]
        | eexists [_; _], _; split; [reflexivity | split; by repeat constructor]
        | eexists [_; _; _], _; split; [reflexivity | split; by repeat constructor]
        | eexists [_; _; _; _], _; split; [reflexivity | split; by repeat constructor] ] ].
  all: right; eexists _, _, _; split; [reflexivity |].
  all: repeat match goal with
         | H : py_getitem "item_dict" _ _ = inl _ |- _ => apply py_getitem_error in H as [_ H]
         | H : py_getitem "item_dict" _ _ = inr _ |- _ => apply py_getitem_ok in H
         | H : py_getitem "inventory" _ _ = inl _ |- _ => apply py_getitem_error in H as [_ H]
         | H : ItemView_update ?iv ?a ?b = (inl ?e, _) |- _ =>
             let H' := fresh in
             pose proof (ItemView_update_error iv a b e) as H';
             rewrite H in H'; destruct (H' eq_refl) as [_ ?]; clear H H'
         | H : negb _ = false |- _ => apply negb_false_iff in H
         end.
  all: first [ by left | by right; left; eexists | by right; right; eexists ].
Qed.

(** C7, as amended.  When nothing is selected, or the selected item has a
    widget in [item_dict] whose name has a sell price, [select_item] calls
    [Player.select_item(item_name)] for any name, whatever the inventory
    holds; every other call only observes, so the state after the call is
    the one [Player.select_item] left, and in the model the selected item
    is that name. *)
Theorem select_item_sets_selection {S : Type} (h : handler S) (item_name : string)
    (g : FarmGame) (s : S) :
  reads_preserve h →
  selection_has_view g (ask h GetSelectedItem s) →
  let o := exec h (FarmGame_select_item item_name) g s in
  (∃ before after,
     trace o = before ++ Ev (SelectItem item_name) () :: after ∧
     Forall (λ e, ev_observer e = true) before ∧
     Forall (λ e, ev_observer e = true) after) ∧
  final o = (h _ (SelectItem item_name) s).2 ∧
  (∀ m, selection_has_view g (selected_item (player m)) →
     selected_item
       (player (final (exec model_handler (FarmGame_select_item item_name) g m)))
     = Some item_name).
Proof.
  assert (∀ S' (h' : handler S') (s' : S'),
            reads_preserve h' → selection_has_view g (ask h' GetSelectedItem s') →
            let o := exec h' (FarmGame_select_item item_name) g s' in
            (∃ before after,
               trace o = before ++ Ev (SelectItem item_name) () :: after ∧
               Forall (λ e, ev_observer e = true) before ∧
               Forall (λ e, ev_observer e = true) after) ∧
            final o = (h' _ (SelectItem item_name) s').2) as Hgen.
  { clear h s. intros S' h s Hh Hsel. cbv zeta. unfold exec.
    pose proof (run_consistent h (FarmGame_select_item item_name g) s) as Hc.
    pose proof (always_run h _ _ s (select_item_cases item_name g)) as Hpost.
    cbv beta in Hpost. destruct Hpost as [Hok | Hfail].
    - split; [exact Hok |].
      destruct Hok as (before & after & Htr & Hb & Ha).
      rewrite run_final_replay, Htr, replay_app. simpl.
      rewrite (replay_observers h before Hh s Hb).
      by apply replay_observers.
    - exfalso. destruct Hfail as (old & inv & tr' & Htr & Hwhy).
      rewrite Htr in Hc.
      apply consistent_read in Hc as [Hold Hc]; [| done | reflexivity].
      apply consistent_read in Hc as [Hinv Hc]; [| done | reflexivity].
      rewrite <- Hold in Hsel. simpl in Hsel. destruct Hsel as (iv & Hiv & [p Hp]).
      destruct Hwhy as [Hnone | [(iv' & Hiv' & Hnone) | (inv' & -> & Hin & Hnone)]].
      + congruence.
      + rewrite Hiv in Hiv'. injection Hiv' as <-. congruence.
      + apply consistent_read in Hc as [Hinv' _]; [| done | reflexivity].
        subst inv inv'. unfold py_in in Hin. by rewrite Hnone in Hin. }
  intros Hh Hsel. cbv zeta.
  destruct (Hgen S h s Hh Hsel) as [Htr Hfin]. split; [done |]. split; [done |].
  intros m Hm.
  destruct (Hgen FarmModel model_handler m model_handler_reads_preserve Hm) as [_ ->].
  reflexivity.
Qed.

(** ** The simulation model *)

Lemma tile_at_set_tile (g : list (list tile_kind)) (pos pos' : Position) (k k0 : tile_kind) :
  tile_at g pos = Some k0 →
  tile_at (set_tile g pos k) pos' = if decide (pos = pos') then Some k else tile_at g pos'.
Proof.
  destruct pos as [r c], pos' as [r' c']. unfold tile_at, set_tile. simpl.
  destruct (decide (0 <= r ∧ 0 <= c)) as [[Hr Hc] |]; [| done].
  destruct (g !! Z.to_nat r) as [row |] eqn:Hrow; [| done]. intros Hk.
  destruct (decide (0 <= r' ∧ 0 <= c')) as [[Hr' Hc'] |].
  - destruct (decide (Z.to_nat r = Z.to_nat r')) as [Hrr | Hrr].
    + rewrite <- Hrr. rewrite list_lookup_insert_eq by (by eapply lookup_lt_Some).
      destruct (decide (Z.to_nat c = Z.to_nat c')) as [Hcc | Hcc].
      * rewrite <- Hcc. rewrite list_lookup_insert_eq by (by eapply lookup_lt_Some).
        rewrite decide_True; [done |]. f_equal; lia.
      * rewrite list_lookup_insert_ne by done.
        rewrite decide_False by (intros [= ? ?]; lia).
        by rewrite Hrow.
    + rewrite list_lookup_insert_ne by done.
      rewrite decide_False by (intros [= ? ?]; lia). done.
  - rewrite decide_False; [done |]. intros [= <- <-]. tauto.
Qed.

Lemma Grid_till_tile (g g' : list (list tile_kind)) (pos pos' : Position) :
  Grid_till g pos = Some (true, g') →
  tile_at g' pos' = if decide (pos = pos') then Some TilledSoil else tile_at g pos'.
Proof.
  unfold Grid_till. destruct (tile_at g pos) as [[] |] eqn:Ht; intros [= <-].
  by eapply tile_at_set_tile.
Qed.

Lemma Grid_untill_tile (g g' : list (list tile_kind)) (pos pos' : Position) :
  Grid_untill g pos = Some (true, g') →
  tile_at g' pos' = if decide (pos = pos') then Some Soil else tile_at g pos'.
Proof.
  unfold Grid_untill. destruct (tile_at g pos) as [[] |] eqn:Ht; intros [= <-].
  by eapply tile_at_set_tile.
Qed.

Lemma till_soil_invariant (pos : Position) (m : FarmModel) :
  plants_on_tilled m → plants_on_tilled (FarmModel_till_soil pos m).2.
Proof.
  intros Hm. unfold FarmModel_till_soil.
  destruct (affordable ATill m); [| done].
  destruct (Grid_till (grid m) pos) as [[[] g'] |] eqn:Hg; [| done | done].
  intros pos' p Hp. simpl in *. rewrite (Grid_till_tile _ _ _ _ Hg).
  case_decide; [done | by eapply Hm].
Qed.

Lemma untill_soil_invariant (pos : Position) (m : FarmModel) :
  plants_on_tilled m → plants_on_tilled (FarmModel_untill_soil pos m).2.
Proof.
  intros Hm. unfold FarmModel_untill_soil.
  destruct (affordable AUntill m); [| done].
  destruct (Grid_untill (grid m) pos) as [[[] g'] |] eqn:Hg; [| done | done].
  intros pos' p. simpl. rewrite (Grid_untill_tile _ _ _ _ Hg).
  case_decide as Hpos.
  - subst. by rewrite lookup_delete_eq.
  - rewrite lookup_delete_ne by done. apply Hm.
Qed.

Lemma add_plant_invariant (pos : Position) (plant : Plant) (m : FarmModel) :
  plants_on_tilled m → plants_on_tilled (FarmModel_add_plant pos plant m).2.
Proof.
  intros Hm. unfold FarmModel_add_plant.
  destruct (decide (tile_at (grid m) pos = Some TilledSoil)) as [Ht |]; [| done].
  destruct (plants m !! pos) as [p0 |]; [done |].
  destruct (affordable APlant m); [| done].
  intros pos' p. simpl. rewrite lookup_insert.
  case_decide; [by subst | apply Hm].
Qed.

Lemma remove_plant_invariant (pos : Position) (m : FarmModel) :
  plants_on_tilled m → plants_on_tilled (FarmModel_remove_plant pos m).2.
Proof.
  intros Hm. unfold FarmModel_remove_plant.
  destruct (plants m !! pos) as [p0 |]; [| done].
  destruct (affordable ARemove m); [| done].
  intros pos' p. simpl. rewrite lookup_delete.
  case_decide; [done | apply Hm].
Qed.

Lemma harvest_plant_invariant (pos : Position) (m : FarmModel) :
  plants_on_tilled m → plants_on_tilled (FarmModel_harvest_plant pos m).2.
Proof.
  intros Hm. unfold FarmModel_harvest_plant.
  destruct (plants m !! pos) as [p0 |] eqn:Hp0; [| done].
  destruct (affordable AHarvest m); [| done].
  destruct (Plant_harvest p0) as [[item |] p']; [| done].
  intros pos' q. simpl. destruct (multi_harvest (plant_variant p0)).
  - rewrite lookup_insert. case_decide; [subst; intros _; by eapply Hm | apply Hm].
  - rewrite lookup_delete. case_decide; [done | apply Hm].
Qed.

Lemma on_player_frame {R : Type} (f : Player → R * Player) (m : FarmModel) :
  grid (on_player f m).2 = grid m ∧ plants (on_player f m).2 = plants m.
Proof. unfold on_player. by destruct (f (player m)). Qed.

Lemma call_invariant {R : Type} (c : call R) (m : FarmModel) :
  plants_on_tilled m → plants_on_tilled (model_handler R c m).2.
Proof.
  intros Hm.
  assert (∀ m', grid m' = grid m → plants m' = plants m → plants_on_tilled m') as Hframe.
  { intros m' Hg Hp pos p. rewrite Hg, Hp. apply Hm. }
  destruct c; simpl;
    first
      [ done
      | by apply till_soil_invariant
      | by apply untill_soil_invariant
      | by apply add_plant_invariant
      | by apply remove_plant_invariant
      | by apply harvest_plant_invariant
      | by apply Hframe; apply on_player_frame
      | idtac ].
  - destruct (direction_of dir); [| done]. unfold FarmModel_move_player.
    destruct (tile_at _ _); [| done]. by destruct (decide _).
  - intros pos p. simpl. rewrite lookup_fmap.
    destruct (plants m !! pos) eqn:Hp; [intros _; by eapply Hm | done].
Qed.

(** C5. In every state a fresh model reaches by any sequence of calls, each
    position that holds a plant is TilledSoil; and a successful
    [untill_soil] leaves no plant at its position, which is then Soil. *)
Theorem plants_stand_on_tilled_soil (ground : list (list tile_kind)) (inv : gmap string Z)
    (m : FarmModel) :
  reachable ground inv m →
  plants_on_tilled m ∧
  ∀ pos, (FarmModel_untill_soil pos m).1 = true →
    plants (FarmModel_untill_soil pos m).2 !! pos = None ∧
    tile_at (grid (FarmModel_untill_soil pos m).2) pos = Some Soil ∧
    plants_on_tilled (FarmModel_untill_soil pos m).2.
Proof.
  intros Hreach.
  assert (plants_on_tilled m) as Hinv.
  { induction Hreach as [| R c m _ IH]; [by intros pos p; simpl | by apply call_invariant]. }
  split; [done |]. intros pos Hok.
  split; [| split; [| by apply untill_soil_invariant]].
  - revert Hok. unfold FarmModel_untill_soil.
    destruct (affordable AUntill m); [| done].
    destruct (Grid_untill (grid m) pos) as [[[] g'] |]; try done.
    intros _. simpl. apply lookup_delete_eq.
  - revert Hok. unfold FarmModel_untill_soil.
    destruct (affordable AUntill m); [| done].
    destruct (Grid_untill (grid m) pos) as [[[] g'] |] eqn:Hg; try done.
    intros _. simpl. rewrite (Grid_untill_tile _ _ _ _ Hg). by rewrite decide_True.
Qed.

Lemma pay_energy (a : action) (m : FarmModel) :
  energy (player (pay a m)) <= energy (player m).
Proof. unfold pay. simpl. lia. Qed.

(** Apart from [new_day], no call raises the player's energy. *)
Lemma call_energy {R : Type} (c : call R) (m : FarmModel) :
  is_new_day c = false → energy (player (model_handler R c m).2) <= energy (player m).
Proof.
  intros Hc. destruct c; try discriminate Hc; simpl;
    unfold on_player, FarmModel_move_player, FarmModel_till_soil, FarmModel_untill_soil,
      FarmModel_add_plant, FarmModel_remove_plant, FarmModel_harvest_plant,
      Player_buy, Player_sell, Player_remove_item;
    repeat case_match; simplify_eq; simpl; lia.
Qed.

(** Apart from [new_day], no call raises the stage of a plant: a plant
    found after the call is the one just added, or was there before at a
    stage at least as high. *)
Lemma call_stage {R : Type} (c : call R) (m : FarmModel) (pos : Position) (p' : Plant) :
  (regrowth_stage ≤ max_stage Berry)%nat →
  is_new_day c = false →
  plants (model_handler R c m).2 !! pos = Some p' →
  adds c pos p' ∨ ∃ p, plants m !! pos = Some p ∧ (stage p' ≤ stage p)%nat.
Proof.
  intros Hre Hc.
  assert (plants m !! pos = Some p' →
          adds c pos p' ∨ ∃ p, plants m !! pos = Some p ∧ (stage p' ≤ stage p)%nat) as Hsame.
  { intros Hp. right. by exists p'. }
  destruct c; try discriminate Hc; simpl; try exact Hsame;
    unfold on_player, FarmModel_move_player, FarmModel_till_soil, FarmModel_untill_soil,
      FarmModel_add_plant, FarmModel_remove_plant, FarmModel_harvest_plant,
      Player_buy, Player_sell, Plant_harvest;
    repeat case_match; simplify_eq; simpl; try exact Hsame;
    rewrite ?lookup_delete, ?lookup_insert; repeat case_decide; simplify_eq;
    try exact Hsame; try done.
  - intros [= <-]. by left.
  - intros [= <-]. right. eexists. split; [done |]. simpl.
    destruct p as [[] st]; simpl in *; try done. lia.
Qed.

(** C3. The Next day button calls [new_day] once and then only observes.
    [new_day] adds one to [days_elapsed], sets the energy to [MAX_ENERGY]
    whatever it was, and moves every plant one stage on, stopping at the
    last stage of its variant.  No other call raises the energy or the
    stage of a plant. *)
Theorem new_day_advances {S : Type} (h : handler S) (s : S) (g : FarmGame) (m : FarmModel) :
  mutations (trace (exec h new_day_redraw g s)) = [Ev NewDay ()] ∧
  (let m' := final (exec model_handler new_day_redraw g m) in
   days_elapsed m' = days_elapsed m + 1 ∧
   energy (player m') = MAX_ENERGY ∧
   ∀ pos,
     match plants m !! pos with
     | None => plants m' !! pos = None
     | Some p =>
         ∃ p', plants m' !! pos = Some p' ∧
               plant_variant p' = plant_variant p ∧
               stage p' = Nat.min (stage p + 1) (max_stage (plant_variant p))
     end) ∧
  ((regrowth_stage ≤ max_stage Berry)%nat →
   ∀ (R : Type) (c : call R), is_new_day c = false →
     let m' := (model_handler R c m).2 in
     energy (player m') <= energy (player m) ∧
     ∀ pos p', plants m' !! pos = Some p' →
       adds c pos p' ∨ ∃ p, plants m !! pos = Some p ∧ (stage p' ≤ stage p)%nat).
Proof.
  assert (∀ S' (h' : handler S') (s' : S'),
            ∃ after, trace (exec h' new_day_redraw g s') = Ev NewDay () :: after ∧
                     Forall (λ e, ev_observer e = true) after) as Htrace.
  { intros S' h' s'. unfold exec, new_day_redraw.
    pose proof (always_run h' _ _ s'
                  (always_then_redraw (perform NewDay) (λ tr _, tr = [Ev NewDay ()]) g
                     ltac:(by intros [])))
      as (tr1 & tr2 & r & Htr & -> & Hobs & _).
    unfold res in *. rewrite Htr. by exists tr2. }
  split; [| split].
  - destruct (Htrace S h s) as (after & -> & Hobs).
    change (Ev NewDay () :: after) with ([Ev NewDay ()] ++ after).
    rewrite mutations_app, (observers_no_mutations after Hobs). reflexivity.
  - destruct (Htrace FarmModel model_handler m) as (after & Htr & Hobs).
    assert (final (exec model_handler new_day_redraw g m) = FarmModel_new_day m) as ->.
    { unfold exec in *. rewrite run_final_replay, Htr. simpl.
      by apply replay_observers; [apply model_handler_reads_preserve |]. }
    cbv zeta. split; [done |]. split; [done |]. intros pos. simpl.
    rewrite lookup_fmap. destruct (plants m !! pos) as [p |]; [| done].
    simpl. by eexists.
  - intros Hre R c Hc. cbv zeta. split; [by apply call_energy |].
    intros pos p'. by apply call_stage.
Qed.

(** ** More on the key press handler *)

(** Running a sequence of two pieces of controller code. *)
Lemma exec_bind {S A B : Type} (h : handler S) (m : M A) (f : A → M B) (g : FarmGame) (s : S) :
  exec h (m ≫= f) g s =
  let o1 := exec h m g s in
  match (value o1).1 with
  | inl e => mkOutcome (final o1) (trace o1) (inl e, (value o1).2)
  | inr a =>
      let o2 := exec h (f a) (value o1).2 (final o1) in
      mkOutcome (final o2) (trace o1 ++ trace o2) (value o2)
  end.
Proof.
  unfold exec, mbind, M_bind. rewrite run_bind. cbv zeta.
  destruct (value (run h (m g) s)) as [[e | a] g1]; cbn [fst snd run].
  - by rewrite app_nil_r.
  - by destruct (run h (f a g1) _).
Qed.

(** A branch of the key press handler followed by the redraw. *)
Lemma keypress_branch {S : Type} (h : handler S) (branch : M unit)
    (P : list event → res unit → Prop) (g : FarmGame) (s : S) :
  always (λ tr v, P tr v.1) (branch g) →
  let o := exec h (branch ≫= λ _, FarmGame_redraw) g s in
  ∃ tr1 tr2 r,
    trace o = tr1 ++ tr2 ∧ P tr1 r ∧ Forall (λ e, ev_observer e = true) tr2 ∧
    match r with
    | inl e => (value o).1 = inl e ∧ tr2 = []
    | inr _ => ∀ e, (value o).1 = inl e → is_KeyError e
    end.
Proof.
  intros Hb. exact (always_run h _ _ s (always_then_redraw branch P g Hb)).
Qed.

(** X1. The keys w, a, s and d call [move_player] once, with [UP], [LEFT],
    [DOWN] and [RIGHT]; every other call of the key press only observes. *)
Theorem keypress_move_player {S : Type} (h : handler S) (keysym dir : string)
    (g : FarmGame) (s : S) :
  (keysym, dir) ∈ [("w", UP); ("a", LEFT); ("s", DOWN); ("d", RIGHT)] →
  ∃ ok after,
    trace (exec h (FarmGame_handle_keypress keysym) g s)
      = Ev (MovePlayer dir) ok :: after ∧
    Forall (λ e, ev_observer e = true) after.
Proof.
  intros Hk.
  assert (FarmGame_handle_keypress keysym =
          ((perform (MovePlayer dir) ≫= λ _, mret ()) ≫= λ _, FarmGame_redraw)) as ->.
  { repeat (apply elem_of_cons in Hk as [[= -> ->] | Hk]; [reflexivity |]).
    by apply elem_of_nil in Hk. }
  destruct (keypress_branch h (perform (MovePlayer dir) ≫= λ _, mret ())
              (λ tr _, ∃ ok, tr = [Ev (MovePlayer dir) ok]) g s)
    as (tr1 & tr2 & r & Htr & [ok ->] & Hobs & _).
  { unfold_M. sym_exec. by eexists. }
  exists ok, tr2. by split.
Qed.

(** X2. The keys t, u and r read the player's position and call
    [till_soil], [untill_soil] and [remove_plant] once at that position;
    every other call of the key press only observes. *)
Theorem keypress_field_action {S : Type} (h : handler S) (g : FarmGame) (s : S) :
  (∃ pos ok after,
     trace (exec h (FarmGame_handle_keypress "t") g s)
       = Ev GetPosition pos :: Ev (TillSoil pos) ok :: after ∧
     Forall (λ e, ev_observer e = true) after) ∧
  (∃ pos ok after,
     trace (exec h (FarmGame_handle_keypress "u") g s)
       = Ev GetPosition pos :: Ev (UntillSoil pos) ok :: after ∧
     Forall (λ e, ev_observer e = true) after) ∧
  (∃ pos ok after,
     trace (exec h (FarmGame_handle_keypress "r") g s)
       = Ev GetPosition pos :: Ev (RemovePlant pos) ok :: after ∧
     Forall (λ e, ev_observer e = true) after).
Proof.
  split; [| split].
  - destruct (keypress_branch h
                (pos ← perform GetPosition; perform (TillSoil pos) ≫= λ _, mret ())
                (λ tr _, ∃ pos ok, tr = [Ev GetPosition pos; Ev (TillSoil pos) ok]) g s)
      as (tr1 & tr2 & r & Htr & (pos & ok & ->) & Hobs & _).
    { unfold_M. sym_exec. by eexists _, _. }
    exists pos, ok, tr2. by split.
  - destruct (keypress_branch h
                (pos ← perform GetPosition; perform (UntillSoil pos) ≫= λ _, mret ())
                (λ tr _, ∃ pos ok, tr = [Ev GetPosition pos; Ev (UntillSoil pos) ok]) g s)
      as (tr1 & tr2 & r & Htr & (pos & ok & ->) & Hobs & _).
    { unfold_M. sym_exec. by eexists _, _. }
    exists pos, ok, tr2. by split.
  - destruct (keypress_branch h
                (pos ← perform GetPosition; perform (RemovePlant pos) ≫= λ _, mret ())
                (λ tr _, ∃ pos ok, tr = [Ev GetPosition pos; Ev (RemovePlant pos) ok]) g s)
      as (tr1 & tr2 & r & Htr & (pos & ok & ->) & Hobs & _).
    { unfold_M. sym_exec. by eexists _, _. }
    exists pos, ok, tr2. by split.
Qed.

(** How the ['p'] branch can fail: only while it reads the model, with an
    index, attribute or unbound-variable error. *)
Lemma plant_branch_failures (g : FarmGame) :
  always (λ tr v, ∀ e, v.1 = inl e →
            Forall (λ ev, ev_getter ev = true) tr ∧
            (e = IndexError ∨ e = AttributeError ∨ e = UnboundLocalError "plant"))
    (plant_branch g).
Proof.
  unfold plant_branch. unfold_M. sym_exec.
  all: cbn [fst snd] in *; index_errors; simplify_eq.
  all: split; [by repeat constructor | auto].
Qed.

(** X3. A ['p'] key press that ends in an exception other than [KeyError]
    ends in [IndexError], [AttributeError] or [UnboundLocalError]; it has
    only read the model: nothing was changed and no canvas was redrawn. *)
Theorem keypress_p_failure_is_clean {S : Type} (h : handler S) (g : FarmGame) (s : S)
    (e : exn) :
  (value (exec h (FarmGame_handle_keypress "p") g s)).1 = inl e →
  ¬ is_KeyError e →
  (e = IndexError ∨ e = AttributeError ∨ e = UnboundLocalError "plant") ∧
  Forall (λ ev, ev_getter ev = true) (trace (exec h (FarmGame_handle_keypress "p") g s)) ∧
  mutations (trace (exec h (FarmGame_handle_keypress "p") g s)) = [].
Proof.
  intros He Hk. rewrite handle_keypress_p in *.
  destruct (keypress_branch h plant_branch
              (λ tr r, ∀ e, r = inl e →
                 Forall (λ ev, ev_getter ev = true) tr ∧
                 (e = IndexError ∨ e = AttributeError ∨ e = UnboundLocalError "plant"))
              g s (plant_branch_failures g))
    as (tr1 & tr2 & r & Htr & Hfail & Hobs & Hval).
  cbv zeta in *. destruct r as [e' | u].
  - destruct Hval as [Hv ->]. rewrite Hv in He. injection He as ->.
    destruct (Hfail e eq_refl) as [Hget Hkind]. rewrite Htr, app_nil_r.
    split; [done |]. split; [done |].
    apply mutations_read_only. eapply Forall_impl; [exact Hget |].
    intros [R c r] Hc. unfold ev_getter, ev_read_only, read_only in *.
    apply andb_true_iff in Hc as [-> _]. reflexivity.
  - destruct Hk. by apply Hval.
Qed.

(** X4. [buy_item] and [sell_item] look the price up first: without a price
    they raise [KeyError] having called nothing and changed no widget; with
    a price they call [buy] or [sell] once with the item and that price,
    and every other call only observes. *)
Theorem buy_sell_item_price {S : Type} (h : handler S) (item_name : string)
    (g : FarmGame) (s : S) :
  (let o := exec h (FarmGame_buy_item item_name) g s in
   match BUY_PRICES !! item_name with
   | None =>
       trace o = [] ∧ final o = s ∧ value o = (inl (KeyError "BUY_PRICES" item_name), g)
   | Some price =>
       ∃ ok after, trace o = Ev (Buy item_name price) ok :: after ∧
                   Forall (λ e, ev_observer e = true) after
   end) ∧
  (let o := exec h (FarmGame_sell_item item_name) g s in
   match SELL_PRICES !! item_name with
   | None =>
       trace o = [] ∧ final o = s ∧ value o = (inl (KeyError "SELL_PRICES" item_name), g)
   | Some price =>
       ∃ ok after, trace o = Ev (Sell item_name price) ok :: after ∧
                   Forall (λ e, ev_observer e = true) after
   end).
Proof.
  split; cbv zeta.
  - unfold FarmGame_buy_item, py_getitem.
    destruct (BUY_PRICES !! item_name) as [price |]; [| done].
    change (exec h _ g s) with
      (exec h ((perform (Buy item_name price) ≫= λ _, mret ()) ≫= λ _, FarmGame_redraw) g s).
    destruct (keypress_branch h (perform (Buy item_name price) ≫= λ _, mret ())
                (λ tr _, ∃ ok, tr = [Ev (Buy item_name price) ok]) g s)
      as (tr1 & tr2 & r & Htr & [ok ->] & Hobs & _).
    { unfold_M. sym_exec. by eexists. }
    exists ok, tr2. by split.
  - unfold FarmGame_sell_item, py_getitem.
    destruct (SELL_PRICES !! item_name) as [price |]; [| done].
    change (exec h _ g s) with
      (exec h ((perform (Sell item_name price) ≫= λ _, mret ()) ≫= λ _, FarmGame_redraw) g s).
    destruct (keypress_branch h (perform (Sell item_name price) ≫= λ _, mret ())
                (λ tr _, ∃ ok, tr = [Ev (Sell item_name price) ok]) g s)
      as (tr1 & tr2 & r & Htr & [ok ->] & Hobs & _).
    { unfold_M. sym_exec. by eexists. }
    exists ok, tr2. by split.
Qed.

(** X5. When a ['p'] key press calls [add_plant], the plant it passes is
    the one just constructed by the constructor for the first word of the
    selected seed's name, and the position is the one read right before the
    call. *)
Theorem keypress_p_plants_the_seed_crop {S : Type} (h : handler S) (g : FarmGame) (s : S) :
  mutations (trace (exec h (FarmGame_handle_keypress "p") g s)) ≠ [] →
  ∃ before x w c plant pos ok rest,
    trace (exec h (FarmGame_handle_keypress "p") g s)
      = before ++ Ev GetSelectedItem (Some x) :: Ev c plant :: Ev GetPosition pos
               :: Ev (AddPlant pos plant) ok :: rest ∧
    Forall (λ e, ev_observer e = true) before ∧
    split_0 x = inr w ∧ crop_constructor w c.
Proof.
  intros Hmut.
  destruct (keypress_p_run h g s) as (tr1 & tr2 & r & Htr & Hpost & Hobs & _).
  rewrite Htr in Hmut |- *.
  rewrite mutations_app, (observers_no_mutations tr2 Hobs), app_nil_r in Hmut.
  destruct Hpost as [[HA _] | HB].
  { destruct Hmut. by apply observers_no_mutations. }
  destruct HB as (pos & ground & row & sel & inv & sel1 & x & w & tr' & -> & _ & _ & _ & _ & Hw & Hrest).
  destruct Hrest as [(_ & _ & _ & pos1 & -> & _) | (c & pl & pos1 & ok & sel3 & Hc & -> & _)].
  { destruct Hmut. apply observers_no_mutations. by repeat constructor. }
  exists [Ev GetPosition pos; Ev GetMap ground; Ev GetSelectedItem sel;
          Ev GetInventory inv; Ev GetSelectedItem sel1], x, w, c, pl, pos1, ok,
         (removal ok sel3 ++ tr2).
  split; [| split; [by repeat constructor | by split]].
  cbn [app]. reflexivity.
Qed.

(** ** What the redraw shows *)

Lemma always_perform_bind {A R : Type} (c : call R) (f : R → M A) (g : FarmGame)
    (P : list event → res A * FarmGame → Prop) :
  (∀ r, always (λ tr, P (Ev c r :: tr)) (f r g)) → always P ((perform c ≫= f) g).
Proof. intros H. exact H. Qed.

Ltac getter_step :=
  first
    [ apply triple_ret
    | apply triple_perform; intros; reflexivity
    | apply triple_lift_res; intros; exact I
    | apply triple_update_in_place; [done | done]
    | apply (triple_item_dict_get _ _ _ _ (λ _, True)); [done | done | intros ? _]
    | apply triple_bind; [| intros ?]
    | apply triple_for_each; intros ? _
    | match goal with
      | |- triple _ _ _ (match ?x with _ => _ end) => destruct x
      end ].

(** The shape of every run of [redraw]: the info bar is redrawn with the
    three values just read, the farm view with the four values just read,
    and the rest reads the model for the item widgets. *)
Lemma redraw_shape (g : FarmGame) :
  always (λ tr _,
    ∃ d mo en gr pl pos dir rest,
      tr = [Ev GetDaysElapsed d; Ev GetMoney mo; Ev GetEnergy en;
            Ev (InfoBarRedraw d mo en) ();
            Ev GetMap gr; Ev GetPlants pl; Ev GetPosition pos; Ev GetDirection dir;
            Ev (FarmViewRedraw gr pl pos dir) ()] ++ rest ∧
      Forall (λ e, ev_getter e = true) rest)
    (FarmGame_redraw g).
Proof.
  unfold FarmGame_redraw.
  apply always_perform_bind; intros d. apply always_perform_bind; intros mo.
  apply always_perform_bind; intros en. apply always_perform_bind; intros [].
  apply always_perform_bind; intros gr. apply always_perform_bind; intros pl.
  apply always_perform_bind; intros pos. apply always_perform_bind; intros dir.
  apply always_perform_bind; intros [].
  eapply always_mono;
    [| apply (triple_for_each (λ _, True) (λ e, ev_getter e = true) (λ _, True)); [| exact I]].
  - intros tr a (Hget & _ & _). cbv beta. by exists d, mo, en, gr, pl, pos, dir, tr.
  - intros item_name _. repeat getter_step.
Qed.

Lemma getter_observer (e : event) : ev_getter e = true → ev_observer e = true.
Proof.
  destruct e as [R c r]. unfold ev_getter, ev_observer. by intros [-> _]%andb_true_iff.
Qed.

(** [redraw] against a model whose reads do not change it. *)
Lemma redraw_run {S : Type} (h : handler S) (g : FarmGame) (s : S) :
  reads_preserve h →
  ∃ rest,
    trace (exec h FarmGame_redraw g s) = shown h s ++ rest ∧
    Forall (λ e, ev_getter e = true) rest ∧
    final (exec h FarmGame_redraw g s) = s.
Proof.
  intros Hh. unfold exec.
  pose proof (run_consistent h (FarmGame_redraw g) s) as Hc.
  destruct (always_run h _ _ s (redraw_shape g))
    as (d & mo & en & gr & pl & pos & dir & rest & Htr & Hrest).
  assert (final (run h (FarmGame_redraw g) s) = s) as Hfin.
  { apply run_read_only_final; [done |]. rewrite Htr.
    apply Forall_app. split; [by repeat constructor |].
    eapply Forall_impl; [exact Hrest |]. intros e He.
    by apply observer_read_only, getter_observer. }
  rewrite Htr in Hc |- *. cbn [app] in Hc.
  repeat (apply consistent_read in Hc as [? Hc]; [| done | reflexivity]). subst.
  exists rest. by repeat split.
Qed.

(** X6. [redraw], run against a model whose reads do not change it, redraws
    each canvas once with the current day, money and energy and the current
    map, plants, position and direction; after that it only reads, and the
    model is as before. *)
Theorem redraw_shows_state {S : Type} (h : handler S) (g : FarmGame) (s : S) :
  reads_preserve h →
  ∃ rest,
    trace (exec h FarmGame_redraw g s) = shown h s ++ rest ∧
    Forall (λ e, ev_getter e = true) rest ∧
    final (exec h FarmGame_redraw g s) = s.
Proof. exact (redraw_run h g s). Qed.

Lemma index_error_not_KeyError {A : Type} (r : res A) (e : exn) :
  (∀ e', r = inl e' → e' = IndexError) → r = inl e → ¬ is_KeyError e.
Proof. intros Hr He (d & k & ->). by specialize (Hr _ He). Qed.

Ltac silent_step :=
  first
    [ apply triple_ret
    | apply triple_perform; intros; reflexivity
    | apply triple_raise; intros (? & ? & [=])
    | apply triple_lift_res; intros ?; apply index_error_not_KeyError; intros ?;
        first [apply py_index_error | apply str_index_error | apply split_0_error]
    | progress unfold fmap, M_fmap
    | apply triple_bind; [| intros ?]
    | match goal with
      | |- triple _ _ _ (match ?x with _ => _ end) => destruct x
      end ].

(** Before the redraw, a key press draws nothing and raises no [KeyError]. *)
Lemma keypress_branch_silent (keysym : string) :
  ∃ branch : M unit,
    FarmGame_handle_keypress keysym = (branch ≫= λ _, FarmGame_redraw) ∧
    ∀ Inv : FarmGame → Prop,
      triple Inv (λ e, ev_draws e = false) (λ e, ¬ is_KeyError e) branch.
Proof.
  unfold FarmGame_handle_keypress. eexists. split; [reflexivity |].
  intros Inv. unfold plant_branch. repeat silent_step.
Qed.

(** A key press that does not fail before its redraw, against a model whose
    reads do not change it: nothing is drawn before the redraw, and the
    redraw shows the state the key press leaves. *)
Lemma keypress_run_shape {S : Type} (h : handler S) (keysym : string)
    (g : FarmGame) (s : S) :
  reads_preserve h →
  let o := exec h (FarmGame_handle_keypress keysym) g s in
  (∀ e, (value o).1 = inl e → is_KeyError e) →
  ∃ before rest,
    trace o = before ++ shown h (final o) ++ rest ∧
    Forall (λ e, ev_draws e = false) before ∧
    Forall (λ e, ev_getter e = true) rest.
Proof.
  intros Hh. cbv zeta.
  destruct (keypress_branch_silent keysym) as (branch & -> & Hb).
  rewrite exec_bind. cbv zeta.
  pose proof (always_run h _ _ s (Hb (λ _, True) g I)) as (Hsilent & _ & Hexn).
  change (run h (branch g) s) with (exec h branch g s) in *.
  remember (exec h branch g s) as o1 eqn:Ho1. clear Ho1.
  destruct o1 as [s1 tr1 [[e | []] g1]]; cbn [value trace final fst snd] in *.
  - intros Hk. destruct (Hexn e eq_refl). exact (Hk e eq_refl).
  - intros _. destruct (redraw_run h g1 s1 Hh) as (rest & -> & Hrest & ->).
    by exists tr1, rest.
Qed.

(** X7. After any key press that does not fail before its redraw, against a
    model whose reads do not change it, both canvases have been redrawn,
    once, with the values of the state the key press leaves: what is on
    screen is the model after the key's action, not before. *)
Theorem keypress_shows_final_state {S : Type} (h : handler S) (keysym : string)
    (g : FarmGame) (s : S) :
  reads_preserve h →
  let o := exec h (FarmGame_handle_keypress keysym) g s in
  (∀ e, (value o).1 = inl e → is_KeyError e) →
  ∃ before rest,
    trace o = before ++ shown h (final o) ++ rest ∧
    Forall (λ e, ev_draws e = false) before ∧
    Forall (λ e, ev_getter e = true) rest.
Proof. exact (keypress_run_shape h keysym g s). Qed.

(** ** The widgets during a game *)

Section Skeleton.

Context (D : gmap string (string * bool)) (T : event → Prop).

Abbreviation striple := (triple (λ g, skeleton g = D) T (λ _, True)).

Lemma striple_item_dict_get {B : Type} (k : string) (f : ItemView → M B) :
  (∀ iv, D !! k = Some (_item_name iv, buy_button iv) → striple (f iv)) →
  striple (item_dict_get k ≫= f).
Proof.
  intros Hf.
  apply (triple_item_dict_get _ _ _ k
           (λ iv, D !! k = Some (_item_name iv, buy_button iv))); [done | | done].
  intros g iv <- Hiv. unfold skeleton. by rewrite lookup_fmap, Hiv.
Qed.

Lemma striple_update_in_place (k : string) (iv : ItemView) (amount : Z) (selected : bool) :
  D !! k = Some (_item_name iv, buy_button iv) →
  striple (update_in_place k iv amount selected).
Proof.
  intros Hk. apply triple_update_in_place; [| done].
  intros g iv' <- Hn Hb. unfold skeleton in *. cbn [item_dict].
  rewrite fmap_insert, Hn, Hb. by apply insert_id.
Qed.

End Skeleton.

Ltac skeleton_step :=
  first
    [ apply triple_ret
    | apply triple_perform; intros; exact I
    | apply triple_raise; exact I
    | apply triple_lift_res; intros; exact I
    | apply striple_update_in_place; assumption
    | apply striple_item_dict_get; intros ? ?
    | progress unfold fmap, M_fmap
    | apply triple_bind; [| intros ?]
    | apply triple_for_each; intros ? _
    | match goal with
      | |- triple _ _ _ (match ?x with _ => _ end) => destruct x
      end ].

Lemma skeleton_dispatch (D : gmap string (string * bool)) (e : gui_event) :
  triple (λ g, skeleton g = D) (λ _, True) (λ _, True) (dispatch e).
Proof.
  destruct e; unfold dispatch, FarmGame_handle_keypress, FarmGame_select_item,
    FarmGame_buy_item, FarmGame_sell_item, new_day_redraw, plant_branch, FarmGame_redraw;
    repeat skeleton_step.
Qed.

(** X8. Whatever the model answers, and whether it returns or raises, a
    callback leaves the set of item widgets, the item name of each and its
    Buy button as they were: callbacks only recolour and relabel. *)
Theorem callbacks_keep_widgets {S : Type} (h : handler S) (e : gui_event)
    (g : FarmGame) (s : S) :
  let g' := (value (exec h (dispatch e) g s)).2 in
  dom (item_dict g') = dom (item_dict g) ∧
  ∀ k iv, item_dict g !! k = Some iv →
    ∃ iv', item_dict g' !! k = Some iv' ∧
           _item_name iv' = _item_name iv ∧ buy_button iv' = buy_button iv.
Proof.
  cbv zeta.
  destruct (always_run h _ _ s (skeleton_dispatch (skeleton g) e g eq_refl)) as (_ & Hsk & _).
  fold (exec h (dispatch e) g s) in Hsk. unfold skeleton in Hsk.
  split.
  - apply (f_equal dom) in Hsk. by rewrite !dom_fmap_L in Hsk.
  - intros k iv Hk. apply (f_equal (.!! k)) in Hsk. rewrite !lookup_fmap, Hk in Hsk.
    destruct (item_dict _ !! k) as [iv' |]; [| done].
    injection Hsk as Hn Hb. by exists iv'.
Qed.

(** A loop whose body extends an invariant over the items done so far. *)
Lemma always_for_each_progress {A : Type} (xs : list A) (body : A → M unit)
    (Inv : list A → FarmGame → Prop) :
  (∀ done x g, Inv done g →
     always (λ _ v, v.1 = inr () → Inv (done ++ [x]) v.2) (body x g)) →
  ∀ done g, Inv done g →
    always (λ _ v, v.1 = inr () → Inv (done ++ xs) v.2) (for_each xs body g).
Proof.
  intros Hbody. induction xs as [| x xs IH]; intros done g Hg.
  - cbn. intros _. by rewrite app_nil_r.
  - cbn [for_each]. unfold mbind, M_bind. apply always_bind.
    eapply always_mono; [| by apply Hbody]. intros tr [[e | []] g'] Hg'; cbn [fst snd] in *.
    + done.
    + eapply always_mono; [| apply (IH (done ++ [x])); by apply Hg'].
      intros tr' v Hv Hr. cbv beta in Hv. rewrite <- app_assoc in Hv. by apply Hv.
Qed.

Lemma ItemView_update_result (iv : ItemView) (amount : Z) (selected : bool) :
  let iv' := (ItemView_update iv amount selected).2 in
  _item_name iv' = _item_name iv ∧ buy_button iv' = buy_button iv ∧
  frame_bg iv' = update_colour amount selected ∧
  label_bg iv' = update_colour amount selected ∧
  ((ItemView_update iv amount selected).1 = inr () →
   item_label_text (_item_name iv) amount = inr (label_text iv')).
Proof.
  unfold ItemView_update, update_colour.
  destruct (item_label_text (_item_name iv) amount) as [e | text]; cbn;
    destruct (decide (amount > 0)), selected; cbn; repeat split; done.
Qed.

Lemma ItemView_init_result (x : string) (amount : Z) (iv : ItemView) :
  ItemView_init x amount = inr iv →
  _item_name iv = x ∧ buy_button iv = py_in x BUY_PRICES ∧
  is_Some (SELL_PRICES !! x) ∧
  frame_bg iv = INVENTORY_EMPTY_COLOUR ∧ label_bg iv = INVENTORY_EMPTY_COLOUR.
Proof.
  unfold ItemView_init, item_label_text, py_getitem.
  destruct (SELL_PRICES !! x) as [sp |]; [| done].
  destruct (py_in x BUY_PRICES); [destruct (BUY_PRICES !! x) |];
    intros [= <-]; repeat split; by eexists.
Qed.

Lemma always_sealed {A : Type} (P : list event → A → Prop) (p : prog A) :
  always (λ tr v, sealed (P tr v)) p → always P p.
Proof. apply always_mono. by intros tr v []. Qed.

Lemma init_done_insert (done : list string) (g : FarmGame) (x : string) (iv : ItemView)
    (m : gmap string ItemView) :
  init_done done g →
  (∀ y, y ≠ x → m !! y = item_dict g !! y) → m !! x = Some iv →
  _item_name iv = x → buy_button iv = py_in x BUY_PRICES → is_Some (SELL_PRICES !! x) →
  label_bg iv = frame_bg iv →
  frame_bg iv = INVENTORY_COLOUR ∨ frame_bg iv = INVENTORY_EMPTY_COLOUR →
  init_done (done ++ [x]) (mkFarmGame m).
Proof.
  intros Hdone Hother Hx Hn Hb Hs Hl Hc y Hy.
  destruct (decide (y = x)) as [-> | Hne].
  - exists iv. by repeat split.
  - apply elem_of_app in Hy as [Hy | Hy%list_elem_of_singleton]; [| done].
    destruct (Hdone y Hy) as (iv0 & (Hiv0 & ? & ? & ?) & ? & ?).
    exists iv0. repeat split; try done. cbn. by rewrite Hother.
Qed.

Lemma init_body_progress (done : list string) (x : string) (g : FarmGame) :
  init_done done g →
  always (λ _ v, v.1 = inr () → init_done (done ++ [x]) v.2)
    ((iv ← lift_res (ItemView_init x 0);
      _ ← item_dict_set x iv;
      inv ← perform GetInventory;
      if py_in x inv then
        iv' ← item_dict_get x;
        inv' ← perform GetInventory;
        amount ← lift_res (py_getitem "inventory" inv' x);
        update_in_place x iv' amount false
      else mret ()) g).
Proof.
  intros Hdone. apply always_sealed.
  unfold item_dict_set, update_in_place. unfold_M. sym_exec.
  all: constructor; cbn [fst snd item_dict] in *; try done; intros _.
  - (* the widget was updated with the held amount *)
    match goal with H : ItemView_init _ _ = inr ?iv |- _ =>
      apply ItemView_init_result in H as (Hn & Hb & Hs & _ & _) end.
    match goal with H : py_getitem "item_dict" _ _ = inr ?iv |- _ =>
      apply py_getitem_ok in H; rewrite lookup_insert_eq in H; injection H as <- end.
    match goal with H : ItemView_update ?iv ?a false = (_, ?iv1) |- _ =>
      pose proof (ItemView_update_result iv a false) as (Hn' & Hb' & Hf & Hl & _);
      rewrite H in Hn', Hb', Hf, Hl; cbn [snd] in Hn', Hb', Hf, Hl;
      apply (init_done_insert done g x iv1)
    end; try done.
    + intros y Hy. by rewrite !lookup_insert_ne.
    + apply lookup_insert_eq.
    + congruence.
    + congruence.
    + congruence.
    + rewrite Hf. unfold update_colour. destruct (decide _); auto.
  - (* the item is not in the inventory: the fresh widget stays *)
    match goal with H : ItemView_init _ _ = inr ?iv |- _ =>
      apply ItemView_init_result in H as (Hn & Hb & Hs & Hf & Hl);
      apply (init_done_insert done g x iv)
    end; try done.
    + intros y Hy. by rewrite lookup_insert_ne.
    + apply lookup_insert_eq.
    + congruence.
    + auto.
Qed.

(** X9. When the constructor returns, every item of [ITEMS] has a widget
    under its own name, with a Buy button exactly if the item has a buy
    price, and these are all the widgets; each is shown in the plain or the
    empty colour, never the selected one, whatever the model answers. *)
Theorem init_builds_all_views {S : Type} (h : handler S) (s : S) :
  let o := exec h FarmGame_init (mkFarmGame ∅) s in
  (value o).1 = inr () →
  dom (item_dict (value o).2) = list_to_set ITEMS ∧
  ∀ x, x ∈ ITEMS →
    ∃ iv, item_dict (value o).2 !! x = Some iv ∧ _item_name iv = x ∧
          buy_button iv = py_in x BUY_PRICES ∧ is_Some (SELL_PRICES !! x) ∧
          label_bg iv = frame_bg iv ∧
          (frame_bg iv = INVENTORY_COLOUR ∨ frame_bg iv = INVENTORY_EMPTY_COLOUR).
Proof.
  cbv zeta. intros Hret.
  assert (always (λ _ v, v.1 = inr () → init_done ITEMS v.2)
            (FarmGame_init (mkFarmGame ∅))) as Hinit.
  { unfold FarmGame_init.
    do 4 (apply always_perform_bind; intros ?).
    unfold mbind at 1, M_bind at 1. apply always_bind.
    eapply always_mono;
      [| apply (always_for_each_progress ITEMS _ init_done init_body_progress []);
         by intros x Hx%elem_of_nil].
    intros tr [[e | []] g'] Hg'; cbn [fst snd] in *; [done |].
    intros u. cbn. intros _. by apply Hg'. }
  pose proof (always_run h _ _ s Hinit Hret) as Hdone.
  destruct (always_run h _ _ s
              (views_init (mkFarmGame ∅)
                 ltac:(by intros k iv; cbn; rewrite lookup_empty))) as (_ & Hviews & _).
  fold (exec h FarmGame_init (mkFarmGame ∅) s) in Hdone, Hviews.
  split.
  - apply set_eq. intros k. rewrite elem_of_dom, elem_of_list_to_set. split.
    + intros [iv Hiv]. by destruct (Hviews k iv Hiv).
    + intros Hk. destruct (Hdone k Hk) as (iv & (Hiv & _) & _). by eexists.
  - intros x Hx. destruct (Hdone x Hx) as (iv & (? & ? & ? & ?) & ? & ?).
    by exists iv.
Qed.

(** ** Running against a model whose reads are stable *)

Lemma always_on_run {S A : Type} (ok : ∀ R : Type, call R → R → Prop) (h : handler S)
    (p : prog A) (P : A → Prop) :
  ∀ s, Forall (ev_ok ok) (trace (run h p s)) → always_on ok P p → P (value (run h p s)).
Proof.
  induction p as [a | R c k IH]; intros s; cbn.
  - done.
  - destruct (h R c s) as [r s']. cbn. intros [Hr Hrest]%Forall_cons Hp.
    apply IH; [done | by apply Hp].
Qed.

Lemma always_on_mono {A : Type} (ok : ∀ R : Type, call R → R → Prop) (p : prog A) :
  ∀ (P Q : A → Prop), (∀ a, P a → Q a) → always_on ok P p → always_on ok Q p.
Proof.
  induction p as [a | R c k IH]; intros P Q HPQ HP; cbn in *; [by apply HPQ |].
  intros r Hr. eapply IH; [done | by apply HP].
Qed.

Lemma always_on_bind {A B : Type} (ok : ∀ R : Type, call R → R → Prop) (p : prog A)
    (f : A → prog B) (P : B → Prop) :
  always_on ok (λ a, always_on ok P (f a)) p → always_on ok P (prog_bind p f).
Proof.
  induction p as [a | R c k IH]; cbn; [done |].
  intros Hp r Hr. apply IH. by apply Hp.
Qed.

Lemma always_on_sealed {A : Type} (ok : ∀ R : Type, call R → R → Prop) (P : A → Prop)
    (p : prog A) :
  always_on ok (λ v, sealed (P v)) p → always_on ok P p.
Proof. apply always_on_mono. by intros v []. Qed.

Lemma always_on_perform_bind {A R : Type} (ok : ∀ R : Type, call R → R → Prop)
    (c : call R) (f : R → M A) (g : FarmGame) (P : res A * FarmGame → Prop) :
  (∀ r, ok _ c r → always_on ok P (f r g)) → always_on ok P ((perform c ≫= f) g).
Proof. intros H. exact H. Qed.

(** A successful loop whose body extends an invariant over the items done. *)
Lemma always_on_for_each {A : Type} (ok : ∀ R : Type, call R → R → Prop)
    (body : A → M unit) (Inv : list A → FarmGame → Prop) (xs : list A) :
  (∀ done x g, x ∈ xs → Inv done g →
     always_on ok (λ v, v.1 = inr () ∧ Inv (done ++ [x]) v.2) (body x g)) →
  ∀ done g, Inv done g →
    always_on ok (λ v, v.1 = inr () ∧ Inv (done ++ xs) v.2) (for_each xs body g).
Proof.
  induction xs as [| x xs IH]; intros Hbody done g Hg.
  - cbn. by rewrite app_nil_r.
  - cbn [for_each]. unfold mbind, M_bind. apply always_on_bind.
    eapply always_on_mono; [| apply Hbody; [left | done]].
    intros [r g'] [Hr Hg']. cbn [fst snd] in *. subst r.
    eapply always_on_mono; [| apply (IH (λ d y g0 Hy, Hbody d y g0 (list_elem_of_further _ _ _ Hy))
                                       (done ++ [x]) g' Hg')].
    intros v [Hv Hinv]. split; [done |]. by rewrite <- app_assoc in Hinv.
Qed.

(** Against a handler whose reads do not change the state, the answers to a
    run of reads are those of the state it started in. *)
Lemma stable_answers {S : Type} (h : handler S) (s : S) (tr : list event) :
  reads_preserve h →
  Forall (λ e, ev_read_only e = true) tr → consistent h s tr →
  Forall (ev_ok (answers_of h s)) tr.
Proof.
  intros Hh. induction tr as [| [R c r] tr IH]; intros Hro Hc; [done |].
  apply Forall_cons in Hro as [Hc1 Hro].
  apply consistent_read in Hc as [-> Hc]; [| done | done].
  constructor; [done | by apply IH].
Qed.

Ltac sym_exec_on :=
  repeat first
    [ progress cbn [prog_bind always_on fst snd]
    | match goal with
      | |- ∀ r, answers_of _ _ _ _ r → _ => intros ? ->
      | |- always_on _ _ ?p =>
          match p with
          | context [match ?x with _ => _ end] => destruct x eqn:?
          end
      end ].

Lemma item_label_text_ok (x : string) (amount : Z) :
  is_Some (SELL_PRICES !! x) → ∃ text, item_label_text x amount = inr text.
Proof.
  intros [sp Hsp]. unfold item_label_text, py_getitem. rewrite Hsp.
  destruct (py_in x BUY_PRICES) eqn:Hb; [| by eexists].
  unfold py_in in Hb. destruct (BUY_PRICES !! x); [by eexists | done].
Qed.

Lemma redraw_done_update (inv : gmap string Z) (sel : option string) (done : list string)
    (g : FarmGame) (x : string) (iv : ItemView) (selected : bool) (iv' : ItemView) :
  redraw_done inv sel done g → made_for x g iv →
  ItemView_update iv (held inv x) selected = (inr (), iv') →
  update_colour (held inv x) selected
    = update_colour (held inv x) (bool_decide (sel = Some x)) →
  redraw_done inv sel (done ++ [x]) (mkFarmGame (<[x := iv']> (item_dict g))).
Proof.
  intros [Hviews Hdone] (Hx & Hn & Hb & Hs) Hupd Hcol.
  pose proof (ItemView_update_result iv (held inv x) selected) as (Hn' & Hb' & Hf & Hl & Ht).
  rewrite Hupd in Hn', Hb', Hf, Hl, Ht. cbn [fst snd] in *.
  assert (synced inv sel x (mkFarmGame (<[x := iv']> (item_dict g)))) as Hsync.
  { exists iv'. cbn. rewrite lookup_insert_eq. specialize (Ht eq_refl).
    rewrite Hn in Ht. repeat split; congruence. }
  split.
  - intros y Hy. destruct (decide (y = x)) as [-> | Hne].
    + exists iv'. repeat split; try congruence. cbn. apply lookup_insert_eq.
    + destruct (Hviews y Hy) as (iv0 & Hy0 & ?). exists iv0. split; [| done].
      cbn. by rewrite lookup_insert_ne.
  - intros y Hy. destruct (decide (y = x)) as [-> | Hne]; [done |].
    apply elem_of_app in Hy as [Hy | Hy%list_elem_of_singleton]; [| done].
    destruct (Hdone y Hy) as (iv0 & Hy0 & ?). exists iv0. split; [| done].
    cbn. by rewrite lookup_insert_ne.
Qed.

Lemma update_colour_empty (selected selected' : bool) :
  update_colour 0 selected = update_colour 0 selected'.
Proof. unfold update_colour. by rewrite decide_False by lia. Qed.

Lemma redraw_body_synced {S : Type} (h : handler S) (s : S) (done : list string)
    (x : string) (g : FarmGame) :
  x ∈ ITEMS →
  redraw_done (ask h GetInventory s) (ask h GetSelectedItem s) done g →
  always_on (answers_of h s)
    (λ v, v.1 = inr () ∧
          redraw_done (ask h GetInventory s) (ask h GetSelectedItem s) (done ++ [x]) v.2)
    ((inv ← perform GetInventory;
      if py_in x inv then
        sel ← perform GetSelectedItem;
        if decide (sel = Some x) then
          iv ← item_dict_get x;
          inv' ← perform GetInventory;
          amount ← lift_res (py_getitem "inventory" inv' x);
          update_in_place x iv amount true
        else
          iv ← item_dict_get x;
          inv' ← perform GetInventory;
          amount ← lift_res (py_getitem "inventory" inv' x);
          update_in_place x iv amount false
      else
        iv ← item_dict_get x;
        update_in_place x iv 0 false) g).
Proof.
  intros Hx Hdone. destruct (proj1 Hdone x Hx) as (iv0 & Hmade).
  pose proof Hmade as (Hiv0 & Hn0 & Hb0 & Hs0).
  apply always_on_sealed. unfold update_in_place. unfold_M. sym_exec_on.
  all: constructor; cbn [fst snd] in *.
  all: repeat match goal with
         | H : py_getitem "item_dict" _ _ = inl _ |- _ =>
             apply py_getitem_error in H as [_ H]; congruence
         | H : py_getitem "item_dict" _ _ = inr _ |- _ =>
             apply py_getitem_ok in H; rewrite Hiv0 in H; injection H as <-
         | H : py_getitem "inventory" _ _ = inl _, H' : py_in _ _ = true |- _ =>
             apply py_getitem_error in H as [_ H]; unfold py_in in H'; rewrite H in H';
             discriminate H'
         | H : py_getitem "inventory" _ _ = inr _ |- _ => apply py_getitem_ok in H
         | H : ItemView_update ?iv ?a ?b = (inl ?e, _) |- _ =>
             let H' := fresh in
             pose proof (ItemView_update_error iv a b e) as H';
             rewrite H in H'; destruct (H' eq_refl) as [_ ?];
             destruct Hs0 as [? ?]; congruence
         end.
  all: match goal with
       | H : ItemView_update ?iv ?a ?b = (?r, ?iv1) |- _ =>
           destruct r as [err | []];
           [ pose proof (ItemView_update_error iv a b err) as Herr;
             rewrite H in Herr; destruct (Herr eq_refl) as [_ Hnone];
             destruct Hs0 as [? ?]; congruence
           | split; [done |] ]
       end.
  - eapply (redraw_done_update _ _ done g x iv0 true); [done | done | |].
    + unfold held. by rewrite Heqr0.
    + by rewrite bool_decide_eq_true_2.
  - eapply (redraw_done_update _ _ done g x iv0 false); [done | done | |].
    + unfold held. by rewrite Heqr0.
    + by rewrite bool_decide_eq_false_2.
  - eapply (redraw_done_update _ _ done g x iv0 false); [done | done | |].
    + unfold held. unfold py_in in *.
      destruct (ask h GetInventory s !! x) eqn:Hheld; [done |]. by cbn.
    + unfold held. unfold py_in in *.
      destruct (ask h GetInventory s !! x) eqn:Hheld; [done |]. cbn.
      apply update_colour_empty.
Qed.

Lemma redraw_returns {S : Type} (h : handler S) (g : FarmGame) (s : S) :
  reads_preserve h → items_have_views g →
  let o := exec h FarmGame_redraw g s in
  (value o).1 = inr () ∧ final o = s ∧
  redraw_done (ask h GetInventory s) (ask h GetSelectedItem s) ITEMS (value o).2.
Proof.
  intros Hh Hviews. cbv zeta. unfold exec.
  assert (Forall (λ e, ev_read_only e = true) (trace (run h (FarmGame_redraw g) s))) as Hro.
  { eapply Forall_impl; [exact (proj1 (always_run h _ _ s (redraw_quiet g I))) |].
    apply observer_read_only. }
  assert (always_on (answers_of h s)
            (λ v, v.1 = inr () ∧
                  redraw_done (ask h GetInventory s) (ask h GetSelectedItem s) ITEMS v.2)
            (FarmGame_redraw g)) as Hon.
  { unfold FarmGame_redraw.
    do 9 (apply always_on_perform_bind; intros ? _).
    apply (always_on_for_each (answers_of h s) _
             (redraw_done (ask h GetInventory s) (ask h GetSelectedItem s)) ITEMS
             (λ done x g0 Hx Hd, redraw_body_synced h s done x g0 Hx Hd) [] g).
    split; [done | by intros x Hx%elem_of_nil]. }
  destruct (always_on_run _ h _ _ s
              (stable_answers h s _ Hh Hro (run_consistent h _ s)) Hon) as [Hret Hdone].
  split; [done |]. split; [by apply run_read_only_final | done].
Qed.

(** X10. [redraw], run against a model whose reads do not change it on
    widgets that cover [ITEMS], returns without an exception, leaves the
    model as it was, and leaves every item widget showing the model: the
    selected colour if the item is held in a positive amount and selected,
    the plain colour if held in a positive amount and not selected, the
    empty colour otherwise, with the label text of the held amount. *)
Theorem redraw_syncs_widgets {S : Type} (h : handler S) (g : FarmGame) (s : S) :
  reads_preserve h → items_have_views g →
  let o := exec h FarmGame_redraw g s in
  (value o).1 = inr () ∧ final o = s ∧
  ∀ x, x ∈ ITEMS →
    ∃ iv, item_dict (value o).2 !! x = Some iv ∧ _item_name iv = x ∧
          frame_bg iv = update_colour (held (ask h GetInventory s) x)
                          (bool_decide (ask h GetSelectedItem s = Some x)) ∧
          label_bg iv = frame_bg iv ∧
          item_label_text x (held (ask h GetInventory s) x) = inr (label_text iv).
Proof.
  intros Hh Hviews. cbv zeta.
  destruct (redraw_returns h g s Hh Hviews) as (Hret & Hfin & _ & Hsync).
  split; [done |]. split; [done |].
  intros x Hx. destruct (Hsync x Hx) as (iv & ? & ? & ? & ? & ?).
  exists iv. repeat split; first [done | congruence].
Qed.

(** ** A whole game against a model whose reads are stable *)

Lemma read_answer {S R : Type} (h : handler S) (c : call R) (s : S) :
  reads_preserve h → read_only c = true → h R c s = (ask h c s, s).
Proof.
  intros Hh Hc. specialize (Hh R c s Hc). unfold ask.
  destruct (h R c s) as [r s']. cbn in *. by subst.
Qed.

Section Returns.

Context {S : Type} (h : handler S).

Lemma returns_ret {A : Type} (a : A) (g : FarmGame) (s : S) (Q : A → FarmGame → S → Prop) :
  Q a g s → returns h (mret a) g s Q.
Proof. intros HQ. by exists a. Qed.

Lemma returns_bind {A B : Type} (m : M A) (f : A → M B) (g : FarmGame) (s : S)
    (Q : B → FarmGame → S → Prop) :
  returns h m g s (λ a g' s', returns h (f a) g' s' Q) → returns h (m ≫= f) g s Q.
Proof.
  intros (a & Ha & b & Hb & HQ). exists b. rewrite exec_bind. cbv zeta.
  unfold res in *. rewrite Ha. cbn [value final]. by split.
Qed.

Lemma returns_perform {R : Type} (c : call R) (g : FarmGame) (s : S)
    (Q : R → FarmGame → S → Prop) :
  Q (ask h c s) g (h R c s).2 → returns h (perform c) g s Q.
Proof.
  intros HQ. exists (ask h c s). unfold exec, perform, ask in *. cbn [run].
  destruct (h R c s) as [r s']. by split.
Qed.

Lemma returns_read {R : Type} (c : call R) (g : FarmGame) (s : S)
    (Q : R → FarmGame → S → Prop) :
  reads_preserve h → read_only c = true →
  Q (ask h c s) g s → returns h (perform c) g s Q.
Proof. intros Hh Hc HQ. apply returns_perform. by rewrite (Hh R c s Hc). Qed.

Lemma returns_lift_res {A : Type} (r : res A) (a : A) (g : FarmGame) (s : S)
    (Q : A → FarmGame → S → Prop) :
  r = inr a → Q a g s → returns h (lift_res r) g s Q.
Proof. intros -> HQ. by exists a. Qed.

Lemma returns_item_dict_get (k : string) (iv : ItemView) (g : FarmGame) (s : S)
    (Q : ItemView → FarmGame → S → Prop) :
  item_dict g !! k = Some iv → Q iv g s → returns h (item_dict_get k) g s Q.
Proof.
  intros Hk HQ. exists iv. unfold exec, item_dict_get, py_getitem. rewrite Hk. by split.
Qed.

Lemma returns_mono {A : Type} (m : M A) (g : FarmGame) (s : S)
    (Q Q' : A → FarmGame → S → Prop) :
  (∀ a g' s', Q a g' s' → Q' a g' s') → returns h m g s Q → returns h m g s Q'.
Proof. intros HQ (a & Ha & H). exists a. split; [done | by apply HQ]. Qed.

(** Updating the widget of an item returns and keeps every item its widget. *)
Lemma returns_update_in_place (xs : list string) (x : string) (iv : ItemView)
    (amount : Z) (selected : bool) (g : FarmGame) (s : S) :
  (∀ y, y ∈ xs → ∃ iv0, made_for y g iv0) → made_for x g iv →
  returns h (update_in_place x iv amount selected) g s
    (λ _ g' s', (∀ y, y ∈ xs → ∃ iv0, made_for y g' iv0) ∧ s' = s).
Proof.
  intros Hviews (Hx & Hn & Hb & Hs).
  pose proof (ItemView_update_keeps iv amount selected) as [Hn' Hb'].
  pose proof (ItemView_update_error iv amount selected) as Herr.
  exists (). unfold exec, update_in_place.
  destruct (ItemView_update iv amount selected) as [r iv'] eqn:Hupd. cbn in *.
  split.
  - destruct r as [e | []]; [| done].
    destruct (Herr e eq_refl) as [_ Hnone]. rewrite Hn in Hnone.
    destruct Hs as [? ?]. congruence.
  - split; [| done]. intros y Hy. destruct (decide (y = x)) as [-> | Hne].
    + exists iv'. repeat split; try congruence. cbn. apply lookup_insert_eq.
    + destruct (Hviews y Hy) as (iv0 & Hy0 & ?). exists iv0. split; [| done].
      cbn. by rewrite lookup_insert_ne.
Qed.

(** [redraw] returns and leaves the model as it was. *)
Lemma returns_redraw (g : FarmGame) (s : S) :
  reads_preserve h → items_have_views g →
  returns h FarmGame_redraw g s (λ _ _ s', s' = s).
Proof.
  intros Hh Hviews. destruct (redraw_returns h g s Hh Hviews) as (Hret & Hfin & _).
  by exists ().
Qed.

End Returns.

(** [select_item], on widgets that cover [ITEMS] and with an item of
    [ITEMS] or nothing selected, returns. *)
Lemma select_item_returns {S : Type} (h : handler S) (item_name : string)
    (g : FarmGame) (s : S) :
  reads_preserve h → tracks_selection h → items_have_views g →
  selected_known (ask h GetSelectedItem s) → item_name ∈ ITEMS →
  returns h (FarmGame_select_item item_name) g s (λ _ _ _, True).
Proof.
  intros Hh Ht Hviews Hsel Hname. unfold FarmGame_select_item.
  apply returns_bind, returns_read; [done | done |].
  apply returns_bind.
  apply (returns_mono h _ g s (λ _ g' s', items_have_views g' ∧ s' = s)).
  { intros _ g1 s1 [Hviews1 ->].
    apply returns_bind, returns_perform.
    apply returns_bind, returns_read; [done | done |].
    rewrite (Ht _ (SelectItem item_name) s).
    apply returns_bind, returns_read; [done | done |].
    cbn [py_in_opt].
    destruct (py_in item_name _) eqn:Hin; [| by apply returns_ret].
    destruct (Hviews1 item_name Hname) as (iv & Hmade).
    apply returns_bind, (returns_item_dict_get h _ iv); [apply Hmade |].
    apply returns_bind, returns_read; [done | done |].
    unfold py_in in Hin.
    destruct (ask h GetInventory _ !! item_name) as [amount |] eqn:Hamount; [| done].
    apply returns_bind, (returns_lift_res h _ amount);
      [unfold py_getitem; by rewrite Hamount |].
    eapply returns_mono; [| by apply (returns_update_in_place h ITEMS)]. done. }
  destruct (ask h GetSelectedItem s) as [old |]; [| by apply returns_ret].
  cbn in Hsel. destruct (Hviews old Hsel) as (iv & Hmade).
  apply returns_bind, returns_read; [done | done |].
  destruct (negb (py_in old (ask h GetInventory s))) eqn:Hin.
  - apply returns_bind, (returns_item_dict_get h _ iv); [apply Hmade |].
    by apply (returns_update_in_place h ITEMS).
  - apply returns_bind, (returns_item_dict_get h _ iv); [apply Hmade |].
    apply returns_bind, returns_read; [done | done |].
    apply negb_false_iff in Hin. unfold py_in in Hin.
    destruct (ask h GetInventory s !! old) as [amount |] eqn:Hamount; [| done].
    apply returns_bind, (returns_lift_res h _ amount);
      [unfold py_getitem; by rewrite Hamount |].
    by apply (returns_update_in_place h ITEMS).
Qed.

Section ReturnsLoop.

Context {S : Type} (h : handler S).

Lemma returns_item_dict_set (k : string) (iv : ItemView) (g : FarmGame) (s : S)
    (Q : unit → FarmGame → S → Prop) :
  Q () (mkFarmGame (<[k := iv]> (item_dict g))) s → returns h (item_dict_set k iv) g s Q.
Proof. intros HQ. by exists (). Qed.

(** A loop whose body returns and extends an invariant over the items done. *)
Lemma returns_for_each {A : Type} (body : A → M unit) (Inv : list A → FarmGame → Prop)
    (xs : list A) (s : S) :
  (∀ done x g, x ∈ xs → Inv done g →
     returns h (body x) g s (λ _ g' s', Inv (done ++ [x]) g' ∧ s' = s)) →
  ∀ done g, Inv done g →
    returns h (for_each xs body) g s (λ _ g' s', Inv (done ++ xs) g' ∧ s' = s).
Proof.
  induction xs as [| x xs IH]; intros Hbody done g Hg.
  - apply returns_ret. by rewrite app_nil_r.
  - cbn [for_each]. apply returns_bind.
    eapply returns_mono; [| apply Hbody; [left | done]].
    intros _ g' s' [Hg' ->]. cbv beta.
    eapply returns_mono;
      [| apply (IH (λ d y g0 Hy, Hbody d y g0 (list_elem_of_further _ _ _ Hy))
                  (done ++ [x]) g' Hg')].
    intros _ g'' s'' [Hg'' ->]. split; [| done]. by rewrite <- app_assoc in Hg''.
Qed.

End ReturnsLoop.

(** The widgets made so far in the constructor. *)
Lemma made_for_insert (done : list string) (g : FarmGame) (x : string) (iv : ItemView) :
  (∀ y, y ∈ done → ∃ iv0, made_for y g iv0) →
  _item_name iv = x → buy_button iv = py_in x BUY_PRICES → is_Some (SELL_PRICES !! x) →
  ∀ y, y ∈ done ++ [x] →
    ∃ iv0, made_for y (mkFarmGame (<[x := iv]> (item_dict g))) iv0.
Proof.
  intros Hdone Hn Hb Hs y Hy. destruct (decide (y = x)) as [-> | Hne].
  - exists iv. repeat split; try done. cbn. apply lookup_insert_eq.
  - apply elem_of_app in Hy as [Hy | Hy%list_elem_of_singleton]; [| done].
    destruct (Hdone y Hy) as (iv0 & Hy0 & ?). exists iv0. split; [| done].
    cbn. by rewrite lookup_insert_ne.
Qed.

(** The constructor, against a model whose reads are stable and with a sell
    price for every item, returns with a widget for every item. *)
Lemma init_returns {S : Type} (h : handler S) (s : S) :
  reads_preserve h → sell_prices_cover_items →
  returns h FarmGame_init (mkFarmGame ∅) s (λ _ g' s', items_have_views g' ∧ s' = s).
Proof.
  intros Hh Hsell. unfold FarmGame_init.
  do 4 (apply returns_bind, returns_read; [done | done |]).
  apply returns_bind.
  eapply returns_mono;
    [| apply (returns_for_each h _ (λ done g, ∀ y, y ∈ done → ∃ iv0, made_for y g iv0)
                ITEMS s) with (done := []); [| by intros y Hy%elem_of_nil] ].
  { intros _ g' s' [Hg' ->]. by apply returns_read. }
  intros done x g Hx Hdone. cbv beta.
  destruct (item_label_text_ok x 0 (Hsell x Hx)) as [text Htext].
  assert (∃ iv, ItemView_init x 0 = inr iv) as [iv Hiv].
  { unfold ItemView_init. rewrite Htext. by eexists. }
  pose proof (ItemView_init_result x 0 iv Hiv) as (Hn & Hb & Hs & _).
  pose proof (made_for_insert done g x iv Hdone Hn Hb Hs) as Hdone1.
  apply returns_bind, (returns_lift_res h _ iv); [done |].
  apply returns_bind, returns_item_dict_set.
  apply returns_bind, returns_read; [done | done |].
  destruct (py_in x (ask h GetInventory s)) eqn:Hin; [| by apply returns_ret].
  apply returns_bind, (returns_item_dict_get h _ iv); [cbn; apply lookup_insert_eq |].
  apply returns_bind, returns_read; [done | done |].
  unfold py_in in Hin.
  destruct (ask h GetInventory s !! x) as [amount |] eqn:Hamount; [| done].
  apply returns_bind, (returns_lift_res h _ amount);
    [unfold py_getitem; by rewrite Hamount |].
  apply (returns_update_in_place h (done ++ [x])); [done |].
  repeat split; try done. cbn. apply lookup_insert_eq.
Qed.

(** The branch of a key press before the redraw: it leaves the widgets
    alone, fails only while it reads, and against stable answers fails
    only with an index error or the unbound plant. *)
Lemma keypress_branch_errors (keysym : string) :
  ∃ branch : M unit,
    FarmGame_handle_keypress keysym = (branch ≫= λ _, FarmGame_redraw) ∧
    (∀ g, always (λ tr v, v.2 = g ∧
                          ∀ e, v.1 = inl e → Forall (λ ev, ev_read_only ev = true) tr)
            (branch g)) ∧
    (∀ (S : Type) (h : handler S) (s : S) g,
       always_on (answers_of h s)
         (λ v, ∀ e, v.1 = inl e → e = IndexError ∨ e = UnboundLocalError "plant")
         (branch g)).
Proof.
  unfold FarmGame_handle_keypress. eexists. split; [reflexivity |]. split.
  - intros g. apply always_sealed. unfold plant_branch. unfold_M. sym_exec.
    all: constructor; cbn [fst snd]; split; [reflexivity |].
    all: intros err Herr; try discriminate Herr; by repeat constructor.
  - intros S h s g. apply always_on_sealed. unfold plant_branch. unfold_M. sym_exec_on.
    all: constructor; cbn [fst snd]; intros err Herr; try discriminate Herr.
    all: injection Herr as <-; index_errors; auto.
    all: repeat match goal with
           | H : ?x = None, H' : context [?x] |- _ => rewrite H in H'
           end.
    all: discriminate.
Qed.

(** A key press against a model whose reads are stable. *)
Lemma keypress_robust {S : Type} (h : handler S) (keysym : string)
    (g : FarmGame) (s : S) :
  reads_preserve h → items_have_views g →
  ∀ e, (value (exec h (FarmGame_handle_keypress keysym) g s)).1 = inl e →
       e = IndexError ∨ e = UnboundLocalError "plant".
Proof.
  intros Hh Hviews e.
  destruct (keypress_branch_errors keysym) as (branch & -> & Ha & Hon).
  rewrite exec_bind. cbv zeta.
  pose proof (always_run h _ _ s (Ha g)) as [Hg Hro].
  pose proof (run_consistent h (branch g) s) as Hc.
  pose proof (λ Hok, always_on_run _ h (branch g) _ s Hok (Hon S h s g)) as Hrun.
  cbv beta in Hrun.
  change (run h (branch g) s) with (exec h branch g s) in *.
  remember (exec h branch g s) as o1 eqn:Ho1. clear Ho1.
  destruct o1 as [s1 tr1 [[e1 | []] g1]]; cbn [value trace final fst snd] in *.
  - intros [= <-]. specialize (Hro e1 eq_refl).
    exact (Hrun (stable_answers h s tr1 Hh Hro Hc) e1 eq_refl).
  - subst g1. destruct (redraw_returns h g s1 Hh Hviews) as (Hret & _).
    unfold res in *. rewrite Hret. discriminate.
Qed.

(** A click on a widget or on the Next day button returns. *)
Lemma button_returns {S : Type} (h : handler S) (e : gui_event) (g : FarmGame) (s : S) :
  reads_preserve h → tracks_selection h → sell_prices_cover_items →
  game_invariant h g s → enabled g e = true → (∀ k, e ≠ KeyPress k) →
  returns h (dispatch e) g s (λ _ _ _, True).
Proof.
  intros Hh Ht Hsell (Hok & Hviews & Hsel) Hen Hkey.
  destruct e as [k | v | v | v |]; cbn in Hen; unfold dispatch.
  - by destruct (Hkey k).
  - unfold py_in in Hen. destruct (item_dict g !! v) as [iv |] eqn:Hv; [| done].
    destruct (Hok v iv Hv) as (Hin & Hn & _).
    apply returns_bind, (returns_item_dict_get h _ iv); [done |].
    rewrite Hn. by apply select_item_returns.
  - destruct (item_dict g !! v) as [iv |] eqn:Hv; [| done].
    destruct (Hok v iv Hv) as (Hin & Hn & Hb). specialize (Hb Hen).
    apply returns_bind, (returns_item_dict_get h _ iv); [done |]. rewrite Hn.
    unfold FarmGame_buy_item. unfold py_in in Hb.
    destruct (BUY_PRICES !! v) as [price |] eqn:Hp; [| done].
    apply returns_bind, (returns_lift_res h _ price); [unfold py_getitem; by rewrite Hp |].
    apply returns_bind, returns_perform.
    eapply returns_mono; [| by apply returns_redraw]. done.
  - unfold py_in in Hen. destruct (item_dict g !! v) as [iv |] eqn:Hv; [| done].
    destruct (Hok v iv Hv) as (Hin & Hn & _).
    apply returns_bind, (returns_item_dict_get h _ iv); [done |]. rewrite Hn.
    unfold FarmGame_sell_item. destruct (Hsell v Hin) as [price Hp].
    apply returns_bind, (returns_lift_res h _ price); [unfold py_getitem; by rewrite Hp |].
    apply returns_bind, returns_perform.
    eapply returns_mono; [| by apply returns_redraw]. done.
  - unfold new_day_redraw. apply returns_bind, returns_perform.
    eapply returns_mono; [| by apply returns_redraw]. done.
Qed.

Ltac selects_step :=
  first
    [ apply triple_ret
    | apply triple_perform; intros ?; first [exact I | assumption]
    | apply triple_raise; exact I
    | apply triple_lift_res; intros; exact I
    | apply striple_update_in_place; assumption
    | apply striple_item_dict_get; intros ? ?
    | progress unfold fmap, M_fmap
    | apply triple_bind; [| intros ?]
    | apply triple_for_each; intros ? _
    | match goal with
      | |- triple _ _ _ (match ?x with _ => _ end) => destruct x
      end ].

(** A callback calls [Player.select_item] only with the item name of a
    widget. *)
Lemma dispatch_selects (D : gmap string (string * bool)) (e : gui_event) :
  (∀ k n b, D !! k = Some (n, b) → n ∈ ITEMS) →
  triple (λ g, skeleton g = D) ev_selects_known (λ _, True) (dispatch e).
Proof.
  intros HD. destruct e as [k | v | v | v |]; unfold dispatch.
  - unfold FarmGame_handle_keypress, plant_branch, FarmGame_redraw. repeat selects_step.
  - apply striple_item_dict_get. intros iv Hiv. pose proof (HD _ _ _ Hiv) as Hn.
    unfold FarmGame_select_item. repeat selects_step.
  - unfold FarmGame_buy_item, FarmGame_redraw. repeat selects_step.
  - unfold FarmGame_sell_item, FarmGame_redraw. repeat selects_step.
  - unfold new_day_redraw, FarmGame_redraw. repeat selects_step.
Qed.

Lemma replay_selected {S : Type} (h : handler S) (tr : list event) :
  tracks_selection h → Forall ev_selects_known tr →
  ∀ s, selected_known (ask h GetSelectedItem s) →
       selected_known (ask h GetSelectedItem (replay h s tr)).
Proof.
  intros Ht. induction 1 as [| [R c r] tr Hc _ IH]; intros s Hs; [done |].
  cbn [replay]. apply IH. rewrite (Ht R c s). by destruct c.
Qed.

Lemma items_have_views_skeleton (g g' : FarmGame) :
  skeleton g' = skeleton g → items_have_views g → items_have_views g'.
Proof.
  intros Hsk Hv x Hx. destruct (Hv x Hx) as (iv & Hiv & Hn & Hb & Hs).
  apply (f_equal (.!! x)) in Hsk. unfold skeleton in Hsk.
  rewrite !lookup_fmap, Hiv in Hsk.
  destruct (item_dict g' !! x) as [iv' |] eqn:Hiv'; [| done].
  injection Hsk as Hn' Hb'. exists iv'. repeat split; congruence.
Qed.

(** One event of a game against a model whose reads are stable. *)
Lemma dispatch_robust {S : Type} (h : handler S) (e : gui_event) (g : FarmGame) (s : S) :
  reads_preserve h → tracks_selection h → sell_prices_cover_items →
  game_invariant h g s → enabled g e = true →
  let o := exec h (dispatch e) g s in
  (∀ x, x ∈ raised o → x = IndexError ∨ x = UnboundLocalError "plant") ∧
  game_invariant h (value o).2 (final o).
Proof.
  intros Hh Ht Hsell Hinv Hen. pose proof Hinv as (Hok & Hviews & Hsel). cbv zeta. split.
  - intros x Hx. unfold raised in Hx.
    assert ((∃ k, e = KeyPress k) ∨ ∀ k, e ≠ KeyPress k) as [[k ->] | Hkey]
      by (destruct e; first [by left; eexists | by right]).
    + cbn [dispatch] in *.
      destruct (value (exec h (FarmGame_handle_keypress k) g s)).1 as [err |] eqn:Herr.
      * apply list_elem_of_singleton in Hx as ->. by eapply keypress_robust.
      * by apply elem_of_nil in Hx.
    + destruct (button_returns h e g s Hh Ht Hsell Hinv Hen Hkey) as (a & Ha & _).
      unfold res in *. rewrite Ha in Hx. by apply elem_of_nil in Hx.
  - split; [| split].
    + exact (proj1 (views_dispatch h e g s Hok Hen)).
    + destruct (always_run h _ _ s (skeleton_dispatch (skeleton g) e g eq_refl))
        as (_ & Hsk & _).
      by apply (items_have_views_skeleton g).
    + assert (∀ k n b, skeleton g !! k = Some (n, b) → n ∈ ITEMS) as HD.
      { intros k n b Hk. unfold skeleton in Hk. rewrite lookup_fmap in Hk.
        destruct (item_dict g !! k) as [iv |] eqn:Hiv; [| done].
        injection Hk as <- <-. destruct (Hok k iv Hiv) as (Hin & -> & _). done. }
      destruct (always_run h _ _ s (dispatch_selects (skeleton g) e HD g eq_refl))
        as (Htr & _).
      unfold exec. rewrite run_final_replay. by apply replay_selected.
Qed.

Lemma session_robust {S : Type} (h : handler S) (es : list gui_event) :
  reads_preserve h → tracks_selection h → sell_prices_cover_items →
  ∀ (g : FarmGame) (s : S), game_invariant h g s →
    ∀ x, x ∈ session h es g s → x = IndexError ∨ x = UnboundLocalError "plant".
Proof.
  intros Hh Ht Hsell. induction es as [| e es IH]; intros g s Hinv x; cbn [session].
  - by intros ?%elem_of_nil.
  - destruct (enabled g e) eqn:Hen; [| by apply IH].
    destruct (dispatch_robust h e g s Hh Ht Hsell Hinv Hen) as [Hr Hinv'].
    intros [Hx | Hx]%elem_of_app; [by apply Hr | by eapply IH].
Qed.

(** X14. A whole game (the constructor, then any sequence of key presses
    and clicks) against a model whose getters do not change it and which
    keeps the selection [select_item] gave it, with a sell price for every
    item of [ITEMS] and nothing or an item of [ITEMS] selected at the
    start, raises no [KeyError] and no [AttributeError]: the only
    exceptions are the [IndexError] and the unbound [plant] of the ['p']
    key. *)
Theorem game_exceptions {S : Type} (h : handler S) (es : list gui_event) (s : S) :
  reads_preserve h → tracks_selection h → sell_prices_cover_items →
  selected_known (ask h GetSelectedItem s) →
  ∀ x, x ∈ game h es s → x = IndexError ∨ x = UnboundLocalError "plant".
Proof.
  intros Hh Ht Hsell Hsel x. unfold game.
  destruct (init_returns h s Hh Hsell) as ([] & Hret & Hviews & Hfin).
  pose proof (always_run h _ _ s
                (views_init (mkFarmGame ∅)
                   ltac:(by intros k iv; cbn; rewrite lookup_empty))) as (_ & Hok & _).
  fold (exec h FarmGame_init (mkFarmGame ∅) s) in Hok.
  unfold res in *. rewrite Hret, Hfin.
  apply session_robust; first [done | by repeat split].
Qed.

(** The model keeps the selection: only [Player.select_item] changes it. *)
Lemma model_handler_tracks_selection : tracks_selection model_handler.
Proof.
  intros R c m. unfold ask.
  destruct c; cbn; try done;
    unfold FarmModel_move_player, FarmModel_till_soil, FarmModel_untill_soil,
      FarmModel_add_plant, FarmModel_remove_plant, FarmModel_harvest_plant,
      on_player, Player_buy, Player_sell, Player_add_item, Player_remove_item, pay;
    repeat case_match; simplify_eq; cbn; done.
Qed.

(** ** The widgets show the model *)

Lemma synced_other (inv : gmap string Z) (sel : option string) (x y : string)
    (iv : ItemView) (g : FarmGame) :
  y ≠ x → synced inv sel y g → synced inv sel y (mkFarmGame (<[x := iv]> (item_dict g))).
Proof.
  intros Hne (iv0 & Hy & ?). exists iv0. split; [| done]. cbn. by rewrite lookup_insert_ne.
Qed.

Lemma synced_selection (inv : gmap string Z) (sel sel' : option string) (x : string)
    (g : FarmGame) :
  bool_decide (sel = Some x) = bool_decide (sel' = Some x) ∨ held inv x <= 0 →
  synced inv sel x g → synced inv sel' x g.
Proof.
  intros Hsel (iv & Hx & Hn & Hf & Hl & Ht). exists iv.
  assert (update_colour (held inv x) (bool_decide (sel = Some x))
          = update_colour (held inv x) (bool_decide (sel' = Some x))) as <-.
  { destruct Hsel as [-> | Hle]; [done |].
    unfold update_colour. by rewrite !decide_False by lia. }
  done.
Qed.

Lemma synced_updated (inv : gmap string Z) (sel : option string) (x : string)
    (iv iv' : ItemView) (selected : bool) (g : FarmGame) :
  _item_name iv = x →
  ItemView_update iv (held inv x) selected = (inr (), iv') →
  update_colour (held inv x) selected
    = update_colour (held inv x) (bool_decide (sel = Some x)) →
  synced inv sel x (mkFarmGame (<[x := iv']> (item_dict g))).
Proof.
  intros Hn Hupd Hcol.
  pose proof (ItemView_update_result iv (held inv x) selected) as (Hn' & _ & Hf & Hl & Ht).
  rewrite Hupd in Hn', Hf, Hl, Ht. cbn [fst snd] in *. specialize (Ht eq_refl).
  rewrite Hn in Ht. exists iv'. cbn. rewrite lookup_insert_eq.
  repeat split; congruence.
Qed.

Section ReturnsWidgets.

Context {S : Type} (h : handler S).

(** Updating a widget made for its item returns, with the widget updated in
    place. *)
Lemma returns_update_exact (x : string) (iv : ItemView) (amount : Z) (selected : bool)
    (g : FarmGame) (s : S) (Q : unit → FarmGame → S → Prop) :
  is_Some (SELL_PRICES !! _item_name iv) →
  (∀ iv', ItemView_update iv amount selected = (inr (), iv') →
          Q () (mkFarmGame (<[x := iv']> (item_dict g))) s) →
  returns h (update_in_place x iv amount selected) g s Q.
Proof.
  intros Hs HQ.
  pose proof (ItemView_update_error iv amount selected) as Herr.
  exists (). unfold exec, update_in_place.
  destruct (ItemView_update iv amount selected) as [r iv'] eqn:Hupd. cbn in *.
  destruct r as [e | []].
  - destruct (Herr e eq_refl) as [_ Hnone]. destruct Hs as [? ?]. congruence.
  - split; [done |]. by apply HQ.
Qed.

(** [redraw] returns, leaves the model as it was and the widgets showing it. *)
Lemma returns_redraw_shows (g : FarmGame) (s : S) :
  reads_preserve h → items_have_views g →
  returns h FarmGame_redraw g s (λ _ g' s', s' = s ∧ widgets_show h g' s).
Proof.
  intros Hh Hviews.
  destruct (redraw_returns h g s Hh Hviews) as (Hret & Hfin & _ & Hsync).
  by exists ().
Qed.

End ReturnsWidgets.

Lemma made_for_insert_same (g : FarmGame) (x y : string) (iv iv' : ItemView) :
  made_for x g iv → _item_name iv' = _item_name iv → buy_button iv' = buy_button iv →
  (∃ iv0, made_for y g iv0) →
  ∃ iv0, made_for y (mkFarmGame (<[x := iv']> (item_dict g))) iv0.
Proof.
  intros (Hx & Hn & Hb & Hs) Hn' Hb' (iv0 & Hy0 & ?).
  destruct (decide (y = x)) as [-> | Hne].
  - exists iv'. repeat split; try congruence. cbn. apply lookup_insert_eq.
  - exists iv0. split; [| done]. cbn. by rewrite lookup_insert_ne.
Qed.

(** [select_item], on widgets that cover [ITEMS] and show the model, leaves
    widgets that show the model with the new selection. *)
Lemma select_item_shows {S : Type} (h : handler S) (item_name : string)
    (g : FarmGame) (s : S) :
  reads_preserve h → tracks_selection h → select_keeps_inventory h →
  items_have_views g → selected_known (ask h GetSelectedItem s) →
  item_name ∈ ITEMS → widgets_show h g s →
  returns h (FarmGame_select_item item_name) g s (λ _ g' s', widgets_show h g' s').
Proof.
  intros Hh Ht Hk Hviews Hsel Hname Hshow. unfold FarmGame_select_item.
  set (inv := ask h GetInventory s) in *.
  apply returns_bind, returns_read; [done | done |].
  apply returns_bind.
  apply (returns_mono h _ g s
           (λ _ g' s', s' = s ∧ items_have_views g' ∧
                       ∀ x, x ∈ ITEMS → synced inv None x g')).
  { intros _ g1 s0 (-> & Hviews1 & Hshow1).
    apply returns_bind, returns_perform.
    remember ((h _ (SelectItem item_name) s).2) as s1 eqn:Hs1.
    assert (ask h GetSelectedItem s1 = Some item_name) as Hsel1
      by (subst s1; apply (Ht _ (SelectItem item_name) s)).
    assert (ask h GetInventory s1 = inv) as Hinv1 by (subst s1; apply Hk).
    clear Hs1.
    apply (returns_mono h _ g1 s1
             (λ _ g' s', s' = s1 ∧ ∀ x, x ∈ ITEMS → synced inv (Some item_name) x g')).
    { intros _ g' s' [-> Hs]. unfold widgets_show. by rewrite Hsel1, Hinv1. }
    apply returns_bind, returns_read; [done | done |]. rewrite Hsel1.
    apply returns_bind, returns_read; [done | done |]. rewrite Hinv1.
    cbn [py_in_opt].
    destruct (py_in item_name inv) eqn:Hin.
    - destruct (Hviews1 item_name Hname) as (iv & Hmade).
      apply returns_bind, (returns_item_dict_get h _ iv); [apply Hmade |].
      apply returns_bind, returns_read; [done | done |]. rewrite Hinv1.
      unfold py_in in Hin.
      destruct (inv !! item_name) as [amount |] eqn:Hamount; [| done].
      apply returns_bind, (returns_lift_res h _ amount);
        [unfold py_getitem; by rewrite Hamount |].
      destruct Hmade as (Hiv & Hn & Hb & Hs).
      apply returns_update_exact; [by rewrite Hn |].
      intros iv' Hupd. split; [done |].
      intros x Hx. destruct (decide (x = item_name)) as [-> | Hne].
      + apply (synced_updated inv _ item_name iv iv' true); [done | |].
        * unfold held. by rewrite Hamount.
        * by rewrite bool_decide_eq_true_2.
      + apply synced_other; [done |].
        apply (synced_selection inv None); [| by apply Hshow1].
        left. rewrite !bool_decide_eq_false_2; [done | congruence | done].
    - apply returns_ret. split; [done |]. intros x Hx.
      apply (synced_selection inv None); [| by apply Hshow1].
      destruct (decide (x = item_name)) as [-> | Hne].
      + right. unfold held, py_in in *. by destruct (inv !! item_name).
      + left. rewrite !bool_decide_eq_false_2; [done | congruence | done]. }
  unfold widgets_show in Hshow. fold inv in Hshow.
  destruct (ask h GetSelectedItem s) as [old |] eqn:Hold.
  - cbn in Hsel. destruct (Hviews old Hsel) as (iv & Hmade).
    pose proof Hmade as (Hiv & Hn & Hb & Hs).
    assert (∀ iv' amount,
              ItemView_update iv amount false = (inr (), iv') → amount = held inv old →
              items_have_views (mkFarmGame (<[old := iv']> (item_dict g))) ∧
              ∀ x, x ∈ ITEMS →
                synced inv None x (mkFarmGame (<[old := iv']> (item_dict g)))) as Hstep.
    { intros iv' amount Hupd ->.
      pose proof (ItemView_update_keeps iv (held inv old) false) as [Hn' Hb'].
      rewrite Hupd in Hn', Hb'. cbn [snd] in *. split.
      - intros y Hy. by apply (made_for_insert_same g old y iv iv'), Hviews.
      - intros x Hx. destruct (decide (x = old)) as [-> | Hne].
        + apply (synced_updated inv _ old iv iv' false); [done | done |].
          by rewrite bool_decide_eq_false_2.
        + apply synced_other; [done |].
          apply (synced_selection inv (Some old)); [| by apply Hshow].
          left. rewrite !bool_decide_eq_false_2; [done | done | congruence]. }
    apply returns_bind, returns_read; [done | done |]. fold inv.
    destruct (negb (py_in old inv)) eqn:Hin.
    + apply returns_bind, (returns_item_dict_get h _ iv); [done |].
      apply returns_update_exact; [by rewrite Hn |].
      intros iv' Hupd. split; [done |]. apply (Hstep iv' 0 Hupd).
      apply negb_true_iff in Hin. unfold held, py_in in *. by destruct (inv !! old).
    + apply returns_bind, (returns_item_dict_get h _ iv); [done |].
      apply returns_bind, returns_read; [done | done |]. fold inv.
      apply negb_false_iff in Hin. unfold py_in in Hin.
      destruct (inv !! old) as [amount |] eqn:Hamount; [| done].
      apply returns_bind, (returns_lift_res h _ amount);
        [unfold py_getitem; by rewrite Hamount |].
      apply returns_update_exact; [by rewrite Hn |].
      intros iv' Hupd. split; [done |]. apply (Hstep iv' amount Hupd).
      unfold held. by rewrite Hamount.
  - apply returns_ret. split; [done |]. split; [done |]. exact Hshow.
Qed.

Lemma ItemView_init_text (x : string) (amount : Z) (iv : ItemView) :
  ItemView_init x amount = inr iv → item_label_text x amount = inr (label_text iv).
Proof.
  unfold ItemView_init. destruct (item_label_text x amount); [done |]. by intros [= <-].
Qed.

(** The constructor, against a model whose reads are stable and with a sell
    price for every item, returns with a widget for every item that shows
    the amount held, none of them as selected. *)
Lemma init_shows {S : Type} (h : handler S) (s : S) :
  reads_preserve h → sell_prices_cover_items →
  returns h FarmGame_init (mkFarmGame ∅) s
    (λ _ g' s', s' = s ∧ items_have_views g' ∧
                ∀ x, x ∈ ITEMS → synced (ask h GetInventory s) None x g').
Proof.
  intros Hh Hsell. unfold FarmGame_init. set (inv := ask h GetInventory s).
  do 4 (apply returns_bind, returns_read; [done | done |]).
  apply returns_bind.
  eapply returns_mono;
    [| apply (returns_for_each h _
                (λ done g, ∀ y, y ∈ done →
                   (∃ iv0, made_for y g iv0) ∧ synced inv None y g)
                ITEMS s) with (done := []); [| by intros y Hy%elem_of_nil] ].
  { intros _ g' s' [Hg' ->]. apply returns_read; [done | done |].
    split; [done |]. split; intros x Hx; by apply Hg'. }
  intros done x g Hx Hdone. cbv beta.
  destruct (item_label_text_ok x 0 (Hsell x Hx)) as [text Htext].
  assert (∃ iv, ItemView_init x 0 = inr iv) as [iv Hiv].
  { unfold ItemView_init. rewrite Htext. by eexists. }
  pose proof (ItemView_init_result x 0 iv Hiv) as (Hn & Hb & Hs & Hf & Hl).
  pose proof (ItemView_init_text x 0 iv Hiv) as Ht.
  apply returns_bind, (returns_lift_res h _ iv); [done |].
  apply returns_bind, returns_item_dict_set.
  apply returns_bind, returns_read; [done | done |]. fold inv.
  assert (made_for x (mkFarmGame (<[x := iv]> (item_dict g))) iv) as Hmade.
  { repeat split; try done. cbn. apply lookup_insert_eq. }
  assert (∀ y, y ∈ done → y ≠ x →
            (∃ iv0, made_for y (mkFarmGame (<[x := iv]> (item_dict g))) iv0) ∧
            synced inv None y (mkFarmGame (<[x := iv]> (item_dict g)))) as Hold.
  { intros y Hy Hne. destruct (Hdone y Hy) as [(iv0 & Hy0 & ?) Hsync]. split.
    - exists iv0. split; [| done]. cbn. by rewrite lookup_insert_ne.
    - by apply synced_other. }
  destruct (py_in x inv) eqn:Hin.
  - apply returns_bind, (returns_item_dict_get h _ iv); [cbn; apply lookup_insert_eq |].
    apply returns_bind, returns_read; [done | done |]. fold inv.
    unfold py_in in Hin.
    destruct (inv !! x) as [amount |] eqn:Hamount; [| done].
    apply returns_bind, (returns_lift_res h _ amount);
      [unfold py_getitem; by rewrite Hamount |].
    apply returns_update_exact; [by rewrite Hn |].
    intros iv' Hupd. split; [| done].
    pose proof (ItemView_update_keeps iv amount false) as [Hn' Hb'].
    rewrite Hupd in Hn', Hb'. cbn [snd] in *.
    intros y Hy. destruct (decide (y = x)) as [-> | Hne].
    + split.
      * exists iv'. repeat split; try congruence. cbn. apply lookup_insert_eq.
      * apply (synced_updated inv _ x iv iv' false); [done | |].
        -- unfold held. by rewrite Hamount.
        -- by rewrite bool_decide_eq_false_2.
    + apply elem_of_app in Hy as [Hy | Hy%list_elem_of_singleton]; [| done].
      destruct (Hold y Hy Hne) as [Hm Hsync]. split.
      * by apply (made_for_insert_same _ x y iv iv').
      * by apply synced_other.
  - apply returns_ret. split; [| done].
    intros y Hy. destruct (decide (y = x)) as [-> | Hne].
    + split; [by exists iv |].
      assert (held inv x = 0) as Hheld
        by (unfold held, py_in in *; by destruct (inv !! x)).
      exists iv. rewrite Hheld. unfold update_colour. rewrite decide_False by lia.
      repeat split; try done. cbn. apply lookup_insert_eq.
    + apply elem_of_app in Hy as [Hy | Hy%list_elem_of_singleton]; [| done].
      by apply Hold.
Qed.

(** A key press leaves the widgets showing the model. *)
Lemma keypress_shows {S : Type} (h : handler S) (keysym : string)
    (g : FarmGame) (s : S) :
  reads_preserve h → items_have_views g → widgets_show h g s →
  let o := exec h (FarmGame_handle_keypress keysym) g s in
  widgets_show h (value o).2 (final o).
Proof.
  intros Hh Hviews Hshow. cbv zeta.
  destruct (keypress_branch_errors keysym) as (branch & -> & Ha & _).
  rewrite exec_bind. cbv zeta.
  pose proof (always_run h _ _ s (Ha g)) as [Hg Hro].
  pose proof (run_read_only_final h (branch g) Hh s) as Hfin.
  change (run h (branch g) s) with (exec h branch g s) in *.
  remember (exec h branch g s) as o1 eqn:Ho1. clear Ho1.
  destruct o1 as [s1 tr1 [[e1 | []] g1]]; cbn [value trace final fst snd] in *.
  - subst g1. rewrite (Hfin (Hro e1 eq_refl)). exact Hshow.
  - subst g1. destruct (redraw_returns h g s1 Hh Hviews) as (_ & -> & _ & Hsync).
    exact Hsync.
Qed.

(** A click on a widget or on the Next day button leaves the widgets
    showing the model. *)
Lemma button_shows {S : Type} (h : handler S) (e : gui_event) (g : FarmGame) (s : S) :
  reads_preserve h → tracks_selection h → select_keeps_inventory h →
  sell_prices_cover_items → game_invariant h g s → widgets_show h g s →
  enabled g e = true → (∀ k, e ≠ KeyPress k) →
  returns h (dispatch e) g s (λ _ g' s', widgets_show h g' s').
Proof.
  intros Hh Ht Hk Hsell (Hok & Hviews & Hsel) Hshow Hen Hkey.
  assert (∀ s1, returns h FarmGame_redraw g s1 (λ _ g' s', widgets_show h g' s'))
    as Hredraw.
  { intros s1. eapply returns_mono; [| by apply returns_redraw_shows].
    by intros _ g' s' [-> ?]. }
  destruct e as [k | v | v | v |]; cbn in Hen; unfold dispatch.
  - by destruct (Hkey k).
  - unfold py_in in Hen. destruct (item_dict g !! v) as [iv |] eqn:Hv; [| done].
    destruct (Hok v iv Hv) as (Hin & Hn & _).
    apply returns_bind, (returns_item_dict_get h _ iv); [done |].
    rewrite Hn. by apply select_item_shows.
  - destruct (item_dict g !! v) as [iv |] eqn:Hv; [| done].
    destruct (Hok v iv Hv) as (Hin & Hn & Hb). specialize (Hb Hen).
    apply returns_bind, (returns_item_dict_get h _ iv); [done |]. rewrite Hn.
    unfold FarmGame_buy_item. unfold py_in in Hb.
    destruct (BUY_PRICES !! v) as [price |] eqn:Hp; [| done].
    apply returns_bind, (returns_lift_res h _ price); [unfold py_getitem; by rewrite Hp |].
    apply returns_bind, returns_perform. apply Hredraw.
  - unfold py_in in Hen. destruct (item_dict g !! v) as [iv |] eqn:Hv; [| done].
    destruct (Hok v iv Hv) as (Hin & Hn & _).
    apply returns_bind, (returns_item_dict_get h _ iv); [done |]. rewrite Hn.
    unfold FarmGame_sell_item. destruct (Hsell v Hin) as [price Hp].
    apply returns_bind, (returns_lift_res h _ price); [unfold py_getitem; by rewrite Hp |].
    apply returns_bind, returns_perform. apply Hredraw.
  - unfold new_day_redraw. apply returns_bind, returns_perform. apply Hredraw.
Qed.

Lemma session_end_shows {S : Type} (h : handler S) (es : list gui_event) :
  reads_preserve h → tracks_selection h → select_keeps_inventory h →
  sell_prices_cover_items →
  ∀ (g : FarmGame) (s : S), game_invariant h g s → widgets_show h g s →
    widgets_show h (session_end h es g s).1 (session_end h es g s).2.
Proof.
  intros Hh Ht Hk Hsell. induction es as [| e es IH]; intros g s Hinv Hshow;
    cbn [session_end]; [done |].
  destruct (enabled g e) eqn:Hen; [| by apply IH].
  destruct (dispatch_robust h e g s Hh Ht Hsell Hinv Hen) as [_ Hinv'].
  apply IH; [done |].
  assert ((∃ k, e = KeyPress k) ∨ ∀ k, e ≠ KeyPress k) as [[k ->] | Hkey]
    by (destruct e; first [by left; eexists | by right]).
  - apply keypress_shows; [done | apply Hinv | done].
  - by destruct (button_shows h e g s Hh Ht Hk Hsell Hinv Hshow Hen Hkey) as (_ & _ & ?).
Qed.

(** X15. At the end of a game (the constructor, then any sequence of key
    presses and clicks) against a model whose getters do not change it,
    which keeps the selection [select_item] gave it and does not touch the
    inventory when an item is selected, with a sell price for every item
    of [ITEMS] and nothing selected at the start, every item widget shows
    the model as it then is: the selected colour if the item is held in a
    positive amount and is the selected item, the plain colour if held in
    a positive amount and not selected, the empty colour otherwise, and
    the label text of the amount held. *)
Theorem game_widgets_show_model {S : Type} (h : handler S) (es : list gui_event) (s : S) :
  reads_preserve h → tracks_selection h → select_keeps_inventory h →
  sell_prices_cover_items → ask h GetSelectedItem s = None →
  ∃ g' s',
    game_end h es s = Some (g', s') ∧
    ∀ x, x ∈ ITEMS →
      ∃ iv, item_dict g' !! x = Some iv ∧ _item_name iv = x ∧
            frame_bg iv = update_colour (held (ask h GetInventory s') x)
                            (bool_decide (ask h GetSelectedItem s' = Some x)) ∧
            label_bg iv = frame_bg iv ∧
            item_label_text x (held (ask h GetInventory s') x) = inr (label_text iv).
Proof.
  intros Hh Ht Hk Hsell Hnone. unfold game_end.
  destruct (init_shows h s Hh Hsell) as ([] & Hret & Hfin & Hviews & Hshow).
  pose proof (always_run h _ _ s
                (views_init (mkFarmGame ∅)
                   ltac:(by intros k iv; cbn; rewrite lookup_empty))) as (_ & Hok & _).
  fold (exec h FarmGame_init (mkFarmGame ∅) s) in Hok.
  unfold res in *. rewrite Hret, Hfin.
  match goal with
  | |- context [session_end h es ?g0 s] =>
      assert (widgets_show h (session_end h es g0 s).1 (session_end h es g0 s).2)
        as Hend;
      [ apply session_end_shows; try done;
        [ split; [exact Hok | split; [exact Hviews | by rewrite Hnone]]
        | intros x Hx; rewrite Hnone; by apply Hshow ]
      | destruct (session_end h es g0 s) as [g' s'] ]
  end.
  exists g', s'. split; [done |].
  intros x Hx. destruct (Hend x Hx) as (iv & ? & ? & ? & ? & ?).
  exists iv. repeat split; first [done | congruence].
Qed.

(** Selecting an item leaves the inventory of the model as it is. *)
Lemma model_handler_select_keeps_inventory : select_keeps_inventory model_handler.
Proof. intros item_name m. reflexivity. Qed.

End FarmGame.

(** ** The canvases *)

Section CanvasFacts.

Variable get_midpoint : Position → Z * Z.
Variable get_plant_image_name : Plant → string.

Lemma elem_of_created (ops : list canvas_op) (xy : Z * Z) (image : string) :
  (xy, image) ∈ created ops ↔ CreateImage xy image ∈ ops.
Proof.
  unfold created. rewrite list_elem_of_omap. split.
  - intros (op & Hop & Heq). destruct op; simplify_eq. done.
  - intros Hop. by exists (CreateImage xy image).
Qed.

Lemma draw_row_elem (row : list ascii) (row_index letter_index : Z)
    (xy : Z * Z) (image : string) :
  CreateImage xy image ∈ draw_row get_midpoint row_index letter_index row ↔
  ∃ (c : nat) a, row !! c = Some a ∧ ground_image a = Some image ∧
                 xy = get_midpoint (row_index, letter_index + Z.of_nat c).
Proof.
  revert letter_index. induction row as [| a row IH]; intros letter_index; cbn [draw_row].
  - split; [by intros ?%elem_of_nil | by intros (c & ? & ? & _)].
  - rewrite elem_of_app, IH. split.
    + intros [Hhere | (c & b & Hc & Hb & ->)].
      * destruct (ground_image a) as [img |] eqn:Ha; [| by apply elem_of_nil in Hhere].
        apply list_elem_of_singleton in Hhere. simplify_eq.
        exists 0%nat, a. repeat split; [done |]. by rewrite Z.add_0_r.
      * exists (S c), b. repeat split; [done.. |]. f_equal. f_equal. lia.
    + intros ([| c] & b & Hc & Hb & ->); simplify_eq/=.
      * left. rewrite Hb, Z.add_0_r. apply list_elem_of_here.
      * right. exists c, b. repeat split; [done.. |]. f_equal. f_equal. lia.
Qed.

Lemma draw_ground_elem (ground : list string) (row_index : Z)
    (xy : Z * Z) (image : string) :
  CreateImage xy image ∈ draw_ground get_midpoint row_index ground ↔
  ∃ (r c : nat) row a,
    ground !! r = Some row ∧ list_ascii_of_string row !! c = Some a ∧
    ground_image a = Some image ∧
    xy = get_midpoint (row_index + Z.of_nat r, Z.of_nat c).
Proof.
  revert row_index. induction ground as [| row ground IH]; intros row_index;
    cbn [draw_ground].
  - split; [by intros ?%elem_of_nil | by intros (r & c & ? & ? & ? & _)].
  - rewrite elem_of_app, draw_row_elem, IH. split.
    + intros [(c & a & Hc & Ha & ->) | (r & c & row' & a & Hr & Hc & Ha & ->)].
      * exists 0%nat, c, row, a. repeat split; [done.. |]. by rewrite Z.add_0_r.
      * exists (S r), c, row', a. repeat split; [done.. |]. f_equal. f_equal. lia.
    + intros ([| r] & c & row' & a & Hr & Hc & Ha & ->); simplify_eq/=.
      * left. exists c, a. repeat split; [done.. |]. by rewrite Z.add_0_r.
      * right. exists r, c, row', a. repeat split; [done.. |]. f_equal. f_equal. lia.
Qed.

Lemma created_draw_plants (l : list (Position * Plant)) :
  created (mbind (M := list) (draw_plant get_midpoint get_plant_image_name) l)
  = (λ entry, (get_midpoint entry.1, "images/" +:+ get_plant_image_name entry.2)) <$> l.
Proof.
  induction l as [| entry l IH]; [done |].
  cbn [mbind list_bind]. unfold created in *. rewrite omap_app, IH. done.
Qed.

(** X11. [FarmView.redraw] creates its images in three layers, ground,
    then plants, then player.  The ground layer has an image at the
    midpoint of a cell exactly for the cells whose letter is G, S or U,
    grass, soil or untilled soil respectively; the plant layer has one
    image per plant of the dictionary, at the midpoint of its position,
    named by [get_plant_image_name]; the player layer is one image at the
    player's midpoint for a direction w, a, s or d, and is empty for any
    other direction. *)
Theorem FarmView_redraw_layers (ground : list string) (plants : gmap Position Plant)
    (player_position : Position) (player_direction : string) :
  ∃ ground_layer plant_layer player_layer,
    created (FarmView_redraw get_midpoint get_plant_image_name ground plants player_position player_direction)
      = ground_layer ++ plant_layer ++ player_layer ∧
    (∀ xy image, (xy, image) ∈ ground_layer ↔
       ∃ (r c : nat) row a,
         ground !! r = Some row ∧ list_ascii_of_string row !! c = Some a ∧
         xy = get_midpoint (Z.of_nat r, Z.of_nat c) ∧
         ((a = "G"%char ∧ image = "images/grass.png") ∨
          (a = "S"%char ∧ image = "images/soil.png") ∨
          (a = "U"%char ∧ image = "images/untilled_soil.png"))) ∧
    (length plant_layer = size plants ∧
     ∀ xy image, (xy, image) ∈ plant_layer ↔
       ∃ position plant,
         plants !! position = Some plant ∧ xy = get_midpoint position ∧
         image = "images/" +:+ get_plant_image_name plant) ∧
    ((player_direction ∈ ["w"; "a"; "s"; "d"] ∧
      player_layer = [(get_midpoint player_position,
                       "images/player_" +:+ player_direction +:+ ".png")]) ∨
     ((player_direction ∉ ["w"; "a"; "s"; "d"]) ∧ player_layer = [])).
Proof.
  exists (created (draw_ground get_midpoint 0 ground)),
         (created (mbind (M := list) (draw_plant get_midpoint get_plant_image_name) (map_to_list plants))),
         (created (draw_player get_midpoint player_position player_direction)).
  split; [| split; [| split]].
  - unfold FarmView_redraw, created. rewrite !omap_app. reflexivity.
  - intros xy image. rewrite elem_of_created, draw_ground_elem. split.
    + intros (r & c & row & a & Hr & Hc & Ha & ->).
      exists r, c, row, a. repeat split; [done.. |].
      unfold ground_image in Ha. repeat case_decide; simplify_eq; auto.
    + intros (r & c & row & a & Hr & Hc & -> & Ha).
      exists r, c, row, a. repeat split; [done.. |].
      by destruct Ha as [[-> ->] | [[-> ->] | [-> ->]]].
  - rewrite created_draw_plants. split.
    + by rewrite length_fmap, length_map_to_list.
    + intros xy image. rewrite list_elem_of_fmap. split.
      * intros ([position plant] & [= -> ->] & Hin%elem_of_map_to_list).
        by exists position, plant.
      * intros (position & plant & Hin & -> & ->).
        exists (position, plant). split; [done |]. by apply elem_of_map_to_list.
  - unfold draw_player, player_image.
    repeat case_decide; subst;
      first [ left; split; [| reflexivity];
                first [ apply list_elem_of_here
                      | do 1 apply list_elem_of_further; apply list_elem_of_here
                      | do 2 apply list_elem_of_further; apply list_elem_of_here
                      | do 3 apply list_elem_of_further; apply list_elem_of_here ]
            | right; split; [| reflexivity] ].
    intros Hin. repeat (apply elem_of_cons in Hin as [? | Hin]; [done |]).
    by apply elem_of_nil in Hin.
Qed.

(** X12. The info bar shows the three numbers without loss: two redraws
    perform the same operations only for the same day, money and energy. *)
Theorem InfoBar_redraw_injective (day money energy day' money' energy' : Z) :
  InfoBar_redraw day money energy = InfoBar_redraw day' money' energy' ↔
  day = day' ∧ money = money' ∧ energy = energy'.
Proof.
  split; [| by intros (-> & -> & ->)].
  unfold InfoBar_redraw. intros H. simplify_eq/=.
  repeat match goal with
         | H : pretty _ = pretty _ |- _ => apply (inj pretty) in H
         end.
  by subst.
Qed.

Lemma bind_nil_Forall {A B : Type} (f : A → list B) (l : list A) :
  Forall (λ a, f a = []) l → mbind (M := list) f l = [].
Proof.
  induction 1 as [| a l Ha _ IH]; [done |]. cbn [mbind list_bind]. by rewrite Ha, IH.
Qed.

Lemma getter_no_ops (e : event) :
  ev_getter e = true → info_bar_ops e = [] ∧ farm_view_ops get_midpoint get_plant_image_name e = [].
Proof. destruct e as [R c r]. by destruct c. Qed.

Lemma no_draw_no_ops (e : event) :
  ev_draws e = false → info_bar_ops e = [] ∧ farm_view_ops get_midpoint get_plant_image_name e = [].
Proof. destruct e as [R c r]. by destruct c. Qed.

(** The canvases after a run that redraws [shown h s] between events that
    do not draw. *)
Lemma screens_after_shown {S : Type} (h : handler S) (s : S)
    (before rest : list event) (bar farm : list canvas_op) :
  Forall (λ e, ev_draws e = false) before →
  Forall (λ e, ev_getter e = true) rest →
  info_bar_after bar (before ++ shown h s ++ rest)
    = foldl paint [] (InfoBar_redraw (ask h GetDaysElapsed s) (ask h GetMoney s)
                        (ask h GetEnergy s)) ∧
  farm_view_after get_midpoint get_plant_image_name farm (before ++ shown h s ++ rest)
    = foldl paint [] (FarmView_redraw get_midpoint get_plant_image_name (ask h GetMap s) (ask h GetPlants s)
                        (ask h GetPosition s) (ask h GetDirection s)).
Proof.
  intros Hb Hr. unfold info_bar_after, farm_view_after.
  rewrite !bind_app.
  rewrite (bind_nil_Forall info_bar_ops before), (bind_nil_Forall (farm_view_ops get_midpoint get_plant_image_name) before),
    (bind_nil_Forall info_bar_ops rest), (bind_nil_Forall (farm_view_ops get_midpoint get_plant_image_name) rest);
    try (eapply Forall_impl; [eassumption |]; intros e He;
         first [apply (getter_no_ops e He) | apply (no_draw_no_ops e He)]).
  unfold shown. cbn [mbind list_bind info_bar_ops farm_view_ops app].
  rewrite !app_nil_r. split; reflexivity.
Qed.

(** Operations that load or create an image. *)
Lemma paint_images (ops items : list canvas_op) :
  Forall (λ op, match op with GetImage _ | CreateImage _ _ => True | _ => False end) ops →
  foldl paint items ops = items ++ ((λ p, CreateImage p.1 p.2) <$> created ops).
Proof.
  intros Hops. revert items.
  induction Hops as [| op ops Hop _ IH]; intros items; cbn [foldl].
  - by rewrite app_nil_r.
  - rewrite IH. destruct op; try done; cbn [paint].
    unfold created. cbn [omap list_omap fmap list_fmap fst snd].
    by rewrite <- app_assoc.
Qed.

Lemma draw_row_images (row : list ascii) (row_index letter_index : Z) :
  Forall (λ op, match op with GetImage _ | CreateImage _ _ => True | _ => False end)
    (draw_row get_midpoint row_index letter_index row).
Proof.
  revert letter_index. induction row as [| a row IH]; intros letter_index;
    cbn [draw_row]; [constructor |].
  apply Forall_app. split; [| apply IH].
  destruct (ground_image a); by repeat constructor.
Qed.

Lemma draw_ground_images (ground : list string) (row_index : Z) :
  Forall (λ op, match op with GetImage _ | CreateImage _ _ => True | _ => False end)
    (draw_ground get_midpoint row_index ground).
Proof.
  revert row_index. induction ground as [| row ground IH]; intros row_index;
    cbn [draw_ground]; [constructor |].
  apply Forall_app. split; [apply draw_row_images | apply IH].
Qed.

Lemma draw_plants_images (l : list (Position * Plant)) :
  Forall (λ op, match op with GetImage _ | CreateImage _ _ => True | _ => False end)
    (mbind (M := list) (draw_plant get_midpoint get_plant_image_name) l).
Proof.
  induction l as [| entry l IH]; [constructor |].
  cbn [mbind list_bind]. apply Forall_app. split; [by repeat constructor | apply IH].
Qed.

(** What a redraw leaves on the farm view: the images it creates, bottom
    to top, whatever was there before. *)
Lemma FarmView_redraw_paints (items : list canvas_op) (ground : list string)
    (plants : gmap Position Plant) (position : Position) (direction : string) :
  foldl paint items (FarmView_redraw get_midpoint get_plant_image_name
                       ground plants position direction)
  = (λ p, CreateImage p.1 p.2)
      <$> created (FarmView_redraw get_midpoint get_plant_image_name
                     ground plants position direction).
Proof.
  unfold FarmView_redraw. cbn [app foldl paint].
  rewrite paint_images; [reflexivity |].
  repeat first [ apply Forall_cons; split; [exact I |]
               | apply Forall_app; split
               | apply draw_ground_images
               | apply draw_plants_images
               | apply Forall_nil_2 ].
  unfold draw_player. destruct (player_image direction); by repeat constructor.
Qed.

(** X13. After any key press that does not fail before its redraw, against
    a model whose reads do not change it, the info bar holds the three
    headings and the day, money and energy of the state the key press
    leaves, and the farm view holds exactly the images [FarmView.redraw]
    creates for the map, plants, position and direction of that state;
    nothing of what the canvases held before is left. *)
Theorem keypress_screens {S : Type} (ITEMS SEEDS : list string)
    (BUY_PRICES SELL_PRICES : gmap string Z)
    (SOIL UP DOWN LEFT RIGHT : string)
    (INVENTORY_COLOUR INVENTORY_SELECTED_COLOUR INVENTORY_EMPTY_COLOUR : string)
    (h : handler S) (keysym : string) (g : FarmGame) (s : S)
    (bar farm : list canvas_op) :
  reads_preserve h →
  let o := exec h (FarmGame_handle_keypress ITEMS SEEDS BUY_PRICES SELL_PRICES
                     SOIL UP DOWN LEFT RIGHT INVENTORY_COLOUR
                     INVENTORY_SELECTED_COLOUR INVENTORY_EMPTY_COLOUR keysym) g s in
  (∀ e, (value o).1 = inl e → is_KeyError e) →
  info_bar_after bar (trace o)
    = [AnnotatePosition (0, 0) "Day:" true;
       AnnotatePosition (0, 1) "Money:" true;
       AnnotatePosition (0, 2) "Energy:" true;
       AnnotatePosition (1, 0) (pretty (ask h GetDaysElapsed (final o))) false;
       AnnotatePosition (1, 1) ("$" +:+ pretty (ask h GetMoney (final o))) false;
       AnnotatePosition (1, 2) (pretty (ask h GetEnergy (final o))) false] ∧
  farm_view_after get_midpoint get_plant_image_name farm (trace o)
    = (λ p, CreateImage p.1 p.2)
        <$> created (FarmView_redraw get_midpoint get_plant_image_name
                       (ask h GetMap (final o)) (ask h GetPlants (final o))
                       (ask h GetPosition (final o)) (ask h GetDirection (final o))).
Proof.
  intros Hh o Hok.
  destruct (keypress_run_shape ITEMS SEEDS BUY_PRICES SELL_PRICES SOIL UP DOWN LEFT
              RIGHT INVENTORY_COLOUR INVENTORY_SELECTED_COLOUR INVENTORY_EMPTY_COLOUR
              h keysym g s Hh Hok) as (before & rest & Htr & Hb & Hr).
  fold o in Htr. rewrite Htr.
  destruct (screens_after_shown h (final o) before rest bar farm Hb Hr) as [-> ->].
  split; [reflexivity |]. apply FarmView_redraw_paints.
Qed.

End CanvasFacts.

(** ** The sample configuration at work *)

Abbreviation sample_handle_keypress :=
  (FarmGame_handle_keypress sample_ITEMS sample_SEEDS sample_BUY_PRICES
     sample_SELL_PRICES "S" "w" "s" "a" "d" "#fdc074" "#d68f54" "grey").

Abbreviation sample_select_item :=
  (FarmGame_select_item sample_BUY_PRICES sample_SELL_PRICES "#fdc074" "#d68f54" "grey").

Abbreviation sample_init :=
  (FarmGame_init sample_ITEMS sample_BUY_PRICES sample_SELL_PRICES
     "#fdc074" "#d68f54" "grey").

Abbreviation sample_model :=
  (model_handler sample_BUY_PRICES "w" "s" "a" "d" 100 sample_energy_cost
     sample_max_stage sample_yield 3%nat sample_tile_code).

(** The widgets the constructor builds on the sample farm. *)
Abbreviation sample_widgets :=
  ((value (exec sample_model sample_init (mkFarmGame ∅) sample_farm)).2).

Example sample_keypress_p_plants_and_removes :
  mutations (trace (exec sample_model (sample_handle_keypress "p") sample_widgets sample_farm))
  = [Ev (AddPlant (0, 0) (mkPlant Potato 0)) true;
     Ev (RemoveItem (Some "Potato Seed", 1)) ()].
Proof. vm_compute. reflexivity. Qed.

Example sample_keypress_p_final_inventory :
  inventory (player (final (exec sample_model (sample_handle_keypress "p")
                              sample_widgets sample_farm)))
  = {[ "Potato Seed" := 0 ]}.
Proof. vm_compute. reflexivity. Qed.

Lemma keypress_p_planting_guard_witness :
  reads_preserve sample_model ∧
  Exists (λ e, ev_planting e = true)
    (trace (exec sample_model (sample_handle_keypress "p") sample_widgets sample_farm)) ∧
  (∃ row, py_index (ask sample_model GetMap sample_farm)
            (ask sample_model GetPosition sample_farm).1 = inr row ∧
          str_index row (ask sample_model GetPosition sample_farm).2 = inr "S") ∧
  (∃ x, ask sample_model GetSelectedItem sample_farm = Some x ∧ x ∈ sample_SEEDS ∧
        is_Some (ask sample_model GetInventory sample_farm !! x)).
Proof.
  assert (reads_preserve sample_model) as H1 by apply model_handler_reads_preserve.
  assert (Exists (λ e, ev_planting e = true)
            (trace (exec sample_model (sample_handle_keypress "p")
                      sample_widgets sample_farm))) as H2.
  { refine (@bool_decide_unpack _ (Exists_dec _ _) _). vm_compute. exact I. }
  split; [exact H1 |]. split; [exact H2 |].
  exact (keypress_p_planting_guard sample_ITEMS sample_SEEDS sample_BUY_PRICES
           sample_SELL_PRICES "S" "w" "s" "a" "d" "#fdc074" "#d68f54" "grey"
           sample_model sample_widgets sample_farm H1 H2).
Defined.

Lemma new_day_advances_witness :
  (3 ≤ sample_max_stage Berry)%nat ∧
  energy (player (sample_model _ (TillSoil (0, 1)) sample_farm).2)
    <= energy (player sample_farm) ∧
  days_elapsed (final (exec sample_model
      (new_day_redraw sample_ITEMS sample_BUY_PRICES sample_SELL_PRICES
         "#fdc074" "#d68f54" "grey") sample_widgets sample_farm))
    = days_elapsed sample_farm + 1.
Proof.
  assert (3 ≤ sample_max_stage Berry)%nat as H by (simpl; lia).
  destruct (new_day_advances sample_ITEMS sample_BUY_PRICES sample_SELL_PRICES
              "w" "s" "a" "d" "#fdc074" "#d68f54" "grey" 100 sample_energy_cost
              sample_max_stage sample_yield 3%nat sample_tile_code
              sample_model sample_farm sample_widgets sample_farm)
    as (_ & (Hday & _) & Hother).
  split; [exact H |]. split; [| exact Hday].
  exact (proj1 (Hother H bool (TillSoil (0, 1)) eq_refl)).
Defined.

Lemma plants_stand_on_tilled_soil_witness :
  let m := (sample_model _ (AddPlant (0, 0) (mkPlant Potato 0))
              (FarmModel_init 100 sample_ground ∅)).2 in
  reachable sample_BUY_PRICES "w" "s" "a" "d" 100 sample_energy_cost sample_max_stage
    sample_yield 3%nat sample_tile_code sample_ground ∅ m ∧
  plants_on_tilled m.
Proof.
  intros m.
  assert (reachable sample_BUY_PRICES "w" "s" "a" "d" 100 sample_energy_cost
            sample_max_stage sample_yield 3%nat sample_tile_code sample_ground ∅ m) as H.
  { apply reach_call, reach_init. }
  split; [exact H |].
  exact (proj1 (plants_stand_on_tilled_soil _ _ _ _ _ _ _ _ _ _ _ _ _ _ H)).
Defined.

Lemma price_lookups_in_range_witness :
  sell_prices_cover_items sample_ITEMS sample_SELL_PRICES ∧
  ∀ x, x ∈ game sample_ITEMS sample_SEEDS sample_BUY_PRICES sample_SELL_PRICES
             "S" "w" "s" "a" "d" "#fdc074" "#d68f54" "grey" sample_model
             [KeyPress "p"; BuyButton "Potato Seed"; SellButton "Potato";
              Button1 "Kale"; NextDayButton] sample_farm →
       ∀ k, x ≠ KeyError "SELL_PRICES" k.
Proof.
  assert (sell_prices_cover_items sample_ITEMS sample_SELL_PRICES) as H.
  { intros x Hx. unfold sample_ITEMS in Hx.
    repeat (apply elem_of_cons in Hx as [-> | Hx]; [by eexists |]).
    by apply elem_of_nil in Hx. }
  split; [exact H |]. intros x Hx.
  exact (proj2 (proj1 (price_lookups_in_range _ _ _ _ _ _ _ _ _ _ _ _ _ _ _) x Hx) H).
Defined.

Lemma select_item_sets_selection_witness :
  reads_preserve sample_model ∧
  selection_has_view sample_SELL_PRICES sample_widgets
    (ask sample_model GetSelectedItem sample_farm) ∧
  selected_item (player (final (exec sample_model (sample_select_item "Kale")
                                  sample_widgets sample_farm))) = Some "Kale".
Proof.
  assert (reads_preserve sample_model) as H1 by apply model_handler_reads_preserve.
  assert (selection_has_view sample_SELL_PRICES sample_widgets
            (ask sample_model GetSelectedItem sample_farm)) as H2.
  { vm_compute. eexists. split; [reflexivity | by eexists]. }
  split; [exact H1 |]. split; [exact H2 |].
  exact (proj2 (proj2 (select_item_sets_selection sample_BUY_PRICES sample_SELL_PRICES
           "w" "s" "a" "d" "#fdc074" "#d68f54" "grey" 100 sample_energy_cost
           sample_max_stage sample_yield 3%nat sample_tile_code
           sample_model "Kale" sample_widgets sample_farm H1 H2)) sample_farm H2).
Defined.

(** C7, the claim as stated fails: after "Gold Bar", a name without a
    widget, was selected, the next [select_item] raises [KeyError] on
    [item_dict] before it reaches [Player.select_item], and the selection
    stays what it was. *)
Lemma select_item_stale_selection_raises :
  let o1 := exec sample_model (sample_select_item "Gold Bar") sample_widgets sample_farm in
  let o2 := exec sample_model (sample_select_item "Kale Seed") (value o1).2 (final o1) in
  (value o1).1 = inr () ∧
  selected_item (player (final o1)) = Some "Gold Bar" ∧
  (value o2).1 = inl (KeyError "item_dict" "Gold Bar") ∧
  mutations (trace o2) = [] ∧
  selected_item (player (final o2)) ≠ Some "Kale Seed".
Proof. vm_compute. repeat split; discriminate. Qed.

Lemma keypress_other_key_frame_witness :
  ("x" ∉ ["w"; "a"; "s"; "d"; "t"; "u"; "p"; "r"; "h"]) ∧
  final (exec sample_model (sample_handle_keypress "x") sample_widgets sample_farm)
  = sample_farm.
Proof.
  assert ("x" ∉ ["w"; "a"; "s"; "d"; "t"; "u"; "p"; "r"; "h"]) as H.
  { intros Hx. repeat (apply elem_of_cons in Hx as [Hx | Hx]; [discriminate Hx |]).
    by apply elem_of_nil in Hx. }
  split; [exact H |].
  exact (proj2 (proj2 (proj2 (keypress_other_key_frame sample_ITEMS sample_SEEDS
           sample_BUY_PRICES sample_SELL_PRICES "S" "w" "s" "a" "d"
           "#fdc074" "#d68f54" "grey" 100 sample_energy_cost sample_max_stage
           sample_yield 3%nat sample_tile_code sample_model "x" sample_widgets
           sample_farm H))) sample_farm).
Defined.


Lemma ItemView_update_colours_witness :
  let iv := mkItemView "Potato" "grey" "grey" "" false in
  let out := ItemView_update sample_BUY_PRICES sample_SELL_PRICES
               "#fdc074" "#d68f54" "grey" iv 0 true in
  "#fdc074" ≠ "#d68f54" ∧ "#fdc074" ≠ "grey" ∧ "#d68f54" ≠ "grey" ∧
  (frame_bg out.2 = "grey" ∧ label_bg out.2 = "grey" ↔ 0 <= 0).
Proof.
  intros iv out.
  assert ("#fdc074" ≠ "#d68f54") as H1 by discriminate.
  assert ("#fdc074" ≠ "grey") as H2 by discriminate.
  assert ("#d68f54" ≠ "grey") as H3 by discriminate.
  split; [exact H1 |]. split; [exact H2 |]. split; [exact H3 |].
  exact (proj2 (proj2 (ItemView_update_colours sample_BUY_PRICES sample_SELL_PRICES
           "#fdc074" "#d68f54" "grey" iv 0 true H1 H2 H3 out.1 out.2 eq_refl))).
Defined.

(** ** The further properties at work *)

Abbreviation sample_redraw :=
  (FarmGame_redraw sample_ITEMS sample_BUY_PRICES sample_SELL_PRICES
     "#fdc074" "#d68f54" "grey").

(** Key presses on the sample farm, and a ['p'] press against a model whose
    map has no rows. *)
Abbreviation sample_press k :=
  (exec sample_model (sample_handle_keypress k) sample_widgets sample_farm).

Abbreviation sample_press_off_map :=
  (exec (fixed_handler "s" [] (Some "Potato Seed") {[ "Potato Seed" := 1 ]})
     (sample_handle_keypress "p") sample_widgets ()).

Abbreviation sample_redraw_run :=
  (exec sample_model sample_redraw sample_widgets sample_farm).

Abbreviation sample_init_run :=
  (exec sample_model sample_init (mkFarmGame ∅) sample_farm).

Lemma keypress_move_player_witness :
  ("w", "w") ∈ [("w", "w"); ("a", "a"); ("s", "s"); ("d", "d")] ∧
  ∃ ok after,
    trace (sample_press "w") = Ev (MovePlayer "w") ok :: after ∧
    Forall (λ e, ev_observer e = true) after.
Proof.
  assert (("w", "w") ∈ [("w", "w"); ("a", "a"); ("s", "s"); ("d", "d")]) as H
    by apply list_elem_of_here.
  split; [exact H |].
  exact (keypress_move_player sample_ITEMS sample_SEEDS sample_BUY_PRICES
           sample_SELL_PRICES "S" "w" "s" "a" "d" "#fdc074" "#d68f54" "grey"
           sample_model "w" "w" sample_widgets sample_farm H).
Defined.

Lemma keypress_p_failure_is_clean_witness :
  (value sample_press_off_map).1 = inl IndexError ∧ ¬ is_KeyError IndexError ∧
  mutations (trace sample_press_off_map) = [].
Proof.
  assert ((value sample_press_off_map).1 = inl IndexError) as H1
    by (vm_compute; reflexivity).
  assert (¬ is_KeyError IndexError) as H2 by (intros [? [? H]]; discriminate H).
  split; [exact H1 |]. split; [exact H2 |].
  exact (proj2 (proj2 (keypress_p_failure_is_clean sample_ITEMS sample_SEEDS
           sample_BUY_PRICES sample_SELL_PRICES "S" "w" "s" "a" "d"
           "#fdc074" "#d68f54" "grey" _ sample_widgets () IndexError H1 H2))).
Defined.

Lemma keypress_p_plants_the_seed_crop_witness :
  mutations (trace (sample_press "p")) ≠ [] ∧
  ∃ before x w c plant pos ok rest,
    trace (sample_press "p")
      = before ++ Ev GetSelectedItem (Some x) :: Ev c plant :: Ev GetPosition pos
               :: Ev (AddPlant pos plant) ok :: rest ∧
    Forall (λ e, ev_observer e = true) before ∧
    split_0 x = inr w ∧ crop_constructor w c.
Proof.
  assert (mutations (trace (sample_press "p")) ≠ []) as H
    by (vm_compute; discriminate).
  split; [exact H |].
  exact (keypress_p_plants_the_seed_crop sample_ITEMS sample_SEEDS sample_BUY_PRICES
           sample_SELL_PRICES "S" "w" "s" "a" "d" "#fdc074" "#d68f54" "grey"
           sample_model sample_widgets sample_farm H).
Defined.

Lemma redraw_shows_state_witness :
  reads_preserve sample_model ∧
  ∃ rest,
    trace sample_redraw_run = shown sample_model sample_farm ++ rest ∧
    Forall (λ e, ev_getter e = true) rest ∧
    final sample_redraw_run = sample_farm.
Proof.
  assert (reads_preserve sample_model) as H by apply model_handler_reads_preserve.
  split; [exact H |].
  exact (redraw_shows_state sample_ITEMS sample_BUY_PRICES sample_SELL_PRICES
           "#fdc074" "#d68f54" "grey" sample_model sample_widgets sample_farm H).
Defined.

Lemma keypress_shows_final_state_witness :
  reads_preserve sample_model ∧
  (∀ e, (value (sample_press "t")).1 = inl e → is_KeyError e) ∧
  ∃ before rest,
    trace (sample_press "t")
      = before ++ shown sample_model (final (sample_press "t")) ++ rest ∧
    Forall (λ e, ev_draws e = false) before ∧
    Forall (λ e, ev_getter e = true) rest.
Proof.
  assert (reads_preserve sample_model) as H1 by apply model_handler_reads_preserve.
  assert (∀ e, (value (sample_press "t")).1 = inl e → is_KeyError e) as H2.
  { intros e He. vm_compute in He. discriminate He. }
  split; [exact H1 |]. split; [exact H2 |].
  exact (keypress_shows_final_state sample_ITEMS sample_SEEDS sample_BUY_PRICES
           sample_SELL_PRICES "S" "w" "s" "a" "d" "#fdc074" "#d68f54" "grey"
           sample_model "t" sample_widgets sample_farm H1 H2).
Defined.

Lemma init_builds_all_views_witness :
  (value sample_init_run).1 = inr () ∧
  dom (item_dict (value sample_init_run).2) = list_to_set sample_ITEMS.
Proof.
  assert ((value sample_init_run).1 = inr ()) as H by (vm_compute; reflexivity).
  split; [exact H |].
  exact (proj1 (init_builds_all_views sample_ITEMS sample_BUY_PRICES sample_SELL_PRICES
           "#fdc074" "#d68f54" "grey" sample_model sample_farm H)).
Defined.

Lemma redraw_syncs_widgets_witness :
  reads_preserve sample_model ∧
  items_have_views sample_ITEMS sample_BUY_PRICES sample_SELL_PRICES sample_widgets ∧
  (value sample_redraw_run).1 = inr () ∧ final sample_redraw_run = sample_farm.
Proof.
  assert (reads_preserve sample_model) as H1 by apply model_handler_reads_preserve.
  assert (items_have_views sample_ITEMS sample_BUY_PRICES sample_SELL_PRICES
            sample_widgets) as H2.
  { intros x Hx. unfold sample_ITEMS in Hx.
    repeat (apply elem_of_cons in Hx as [-> | Hx];
            [eexists; split; [vm_compute; reflexivity |];
             split; [reflexivity |]; split; [reflexivity | by eexists] |]).
    by apply elem_of_nil in Hx. }
  split; [exact H1 |]. split; [exact H2 |].
  destruct (redraw_syncs_widgets sample_ITEMS sample_BUY_PRICES sample_SELL_PRICES
              "#fdc074" "#d68f54" "grey" sample_model sample_widgets sample_farm H1 H2)
    as (Hret & Hfin & _).
  split; [exact Hret | exact Hfin].
Defined.

Lemma keypress_screens_witness :
  reads_preserve sample_model ∧
  (∀ e, (value (sample_press "t")).1 = inl e → is_KeyError e) ∧
  farm_view_after sample_get_midpoint sample_plant_image_name
      [CreateImage (0, 0) "images/stale.png"] (trace (sample_press "t"))
    = (λ p, CreateImage p.1 p.2)
        <$> created (FarmView_redraw sample_get_midpoint sample_plant_image_name
                       (ask sample_model GetMap (final (sample_press "t")))
                       (ask sample_model GetPlants (final (sample_press "t")))
                       (ask sample_model GetPosition (final (sample_press "t")))
                       (ask sample_model GetDirection (final (sample_press "t")))).
Proof.
  assert (reads_preserve sample_model) as H1 by apply model_handler_reads_preserve.
  assert (∀ e, (value (sample_press "t")).1 = inl e → is_KeyError e) as H2.
  { intros e He. vm_compute in He. discriminate He. }
  split; [exact H1 |]. split; [exact H2 |].
  exact (proj2 (keypress_screens sample_get_midpoint sample_plant_image_name
           sample_ITEMS sample_SEEDS sample_BUY_PRICES sample_SELL_PRICES
           "S" "w" "s" "a" "d" "#fdc074" "#d68f54" "grey"
           sample_model "t" sample_widgets sample_farm
           [] [CreateImage (0, 0) "images/stale.png"] H1 H2)).
Defined.

(** The farm view of the sample farm after the player moved right: six
    ground images, then the player. *)
Example sample_farm_view_after_d :
  created (FarmView_redraw sample_get_midpoint sample_plant_image_name
             (ask sample_model GetMap (final (sample_press "d")))
             (ask sample_model GetPlants (final (sample_press "d")))
             (ask sample_model GetPosition (final (sample_press "d")))
             (ask sample_model GetDirection (final (sample_press "d"))))
  = [((25, 25), "images/soil.png"); ((75, 25), "images/untilled_soil.png");
     ((125, 25), "images/untilled_soil.png"); ((25, 75), "images/grass.png");
     ((75, 75), "images/soil.png"); ((125, 75), "images/untilled_soil.png");
     ((75, 25), "images/player_d.png")].
Proof. vm_compute. reflexivity. Qed.

Lemma game_exceptions_witness :
  reads_preserve sample_model ∧ tracks_selection sample_model ∧
  sell_prices_cover_items sample_ITEMS sample_SELL_PRICES ∧
  selected_known sample_ITEMS (ask sample_model GetSelectedItem sample_farm) ∧
  ∀ x, x ∈ game sample_ITEMS sample_SEEDS sample_BUY_PRICES sample_SELL_PRICES
             "S" "w" "s" "a" "d" "#fdc074" "#d68f54" "grey" sample_model
             [KeyPress "p"; Button1 "Kale"; KeyPress "d"; KeyPress "p";
              SellButton "Potato"; NextDayButton; KeyPress "h"] sample_farm →
       x = IndexError ∨ x = UnboundLocalError "plant".
Proof.
  assert (reads_preserve sample_model) as H1 by apply model_handler_reads_preserve.
  assert (tracks_selection sample_model) as H2 by apply model_handler_tracks_selection.
  assert (sell_prices_cover_items sample_ITEMS sample_SELL_PRICES) as H3.
  { intros x Hx. unfold sample_ITEMS in Hx.
    repeat (apply elem_of_cons in Hx as [-> | Hx]; [by eexists |]).
    by apply elem_of_nil in Hx. }
  assert (selected_known sample_ITEMS (ask sample_model GetSelectedItem sample_farm)) as H4
    by apply list_elem_of_here.
  split; [exact H1 |]. split; [exact H2 |]. split; [exact H3 |]. split; [exact H4 |].
  exact (game_exceptions sample_ITEMS sample_SEEDS sample_BUY_PRICES sample_SELL_PRICES
           "S" "w" "s" "a" "d" "#fdc074" "#d68f54" "grey" sample_model _ sample_farm
           H1 H2 H3 H4).
Defined.

Example sample_game_raises_nothing :
  game sample_ITEMS sample_SEEDS sample_BUY_PRICES sample_SELL_PRICES
    "S" "w" "s" "a" "d" "#fdc074" "#d68f54" "grey" sample_model
    [KeyPress "p"; Button1 "Kale"; KeyPress "d"; KeyPress "p";
     SellButton "Potato"; NextDayButton; KeyPress "h"] sample_farm
  = [].
Proof. vm_compute. reflexivity. Qed.

(** A fresh sample farm: two potato seeds, nothing selected. *)
Abbreviation sample_fresh :=
  (FarmModel_init 100 sample_ground {[ "Potato Seed" := 2 ]}).

Abbreviation sample_game_end es :=
  (game_end sample_ITEMS sample_SEEDS sample_BUY_PRICES sample_SELL_PRICES
     "S" "w" "s" "a" "d" "#fdc074" "#d68f54" "grey" sample_model es sample_fresh).

Lemma game_widgets_show_model_witness :
  reads_preserve sample_model ∧ tracks_selection sample_model ∧
  select_keeps_inventory sample_model ∧
  sell_prices_cover_items sample_ITEMS sample_SELL_PRICES ∧
  ask sample_model GetSelectedItem sample_fresh = None ∧
  ∃ g' s',
    sample_game_end [Button1 "Potato Seed"; KeyPress "p"; KeyPress "d"; KeyPress "p"]
      = Some (g', s') ∧
    ∀ x, x ∈ sample_ITEMS →
      ∃ iv, item_dict g' !! x = Some iv ∧ _item_name iv = x ∧
            frame_bg iv = update_colour "#fdc074" "#d68f54" "grey"
                            (held (ask sample_model GetInventory s') x)
                            (bool_decide (ask sample_model GetSelectedItem s' = Some x)) ∧
            label_bg iv = frame_bg iv ∧
            item_label_text sample_BUY_PRICES sample_SELL_PRICES x
              (held (ask sample_model GetInventory s') x) = inr (label_text iv).
Proof.
  assert (reads_preserve sample_model) as H1 by apply model_handler_reads_preserve.
  assert (tracks_selection sample_model) as H2 by apply model_handler_tracks_selection.
  assert (select_keeps_inventory sample_model) as H3
    by apply model_handler_select_keeps_inventory.
  assert (sell_prices_cover_items sample_ITEMS sample_SELL_PRICES) as H4.
  { intros x Hx. unfold sample_ITEMS in Hx.
    repeat (apply elem_of_cons in Hx as [-> | Hx]; [by eexists |]).
    by apply elem_of_nil in Hx. }
  assert (ask sample_model GetSelectedItem sample_fresh = None) as H5 by reflexivity.
  split; [exact H1 |]. split; [exact H2 |]. split; [exact H3 |]. split; [exact H4 |].
  split; [exact H5 |].
  exact (game_widgets_show_model sample_ITEMS sample_SEEDS sample_BUY_PRICES
           sample_SELL_PRICES "S" "w" "s" "a" "d" "#fdc074" "#d68f54" "grey"
           sample_model _ sample_fresh H1 H2 H3 H4 H5).
Defined.

(** After a click on the potato seed widget its frame has the selected
    colour; after both seeds are planted it has the empty colour. *)
Example sample_selected_widget :
  (λ r, frame_bg <$> item_dict r.1 !! "Potato Seed")
    <$> sample_game_end [Button1 "Potato Seed"]
  = Some (Some "#d68f54") ∧
  (λ r, frame_bg <$> item_dict r.1 !! "Potato Seed")
    <$> sample_game_end [Button1 "Potato Seed"; KeyPress "t"; KeyPress "p";
                         KeyPress "s"; KeyPress "d"; KeyPress "p"]
  = Some (Some "grey").
Proof. vm_compute. split; reflexivity. Qed.
